(** * The conversational retrieval-and-response orchestrator

    A shallow embedding of [backend/src/QA_integration.py]: the
    document-name filter, the chat-mode settings, the durable and the
    volatile history handles, document selection, summarization and the
    entry point [QA_RAG], followed by the properties the specification
    states about them.

    Conventions.  A Python [str] is a Rocq [string] whose characters are
    code points below 256.  A Python exception is a value [Raise e] of
    the type [outcome]; [try]/[except] is a [match] on it.  Objects the
    code shares and mutates (the mode-configuration map, the process-wide
    session map, the history handle) are threaded explicitly.  The
    external collaborators (graph store, vector index, language model,
    the JSON decoder of the standard library, the built-in sort where
    the keys do not determine its answer) are parameters: a record of
    the answers they give during one execution. *)

From Stdlib Require Import String Ascii ZArith NArith List Bool Lia.
From Stdlib Require Import QArith Qcanon Sorted Permutation.
From stdpp Require Import base option list gmap strings numbers.

Import ListNotations.
Open Scope string_scope.
Open Scope list_scope.
Open Scope Z_scope.

Set Warnings "-register-all".
Set Default Proof Using "Type".

(* ===================================================================== *)
(** ** Exceptions *)
(* ===================================================================== *)

(** The exception classes the module names or provokes.  [OtherError n]
    is a class [n] of a collaborator, derived directly from
    [Exception]. *)
Inductive exn_class :=
| ExceptionC
| ValueError
| JSONDecodeError
| TypeError
| AttributeError
| KeyError
| UnboundLocalError
| ValidationError
| RecursionError
| OtherError (name : string).

Record exn := mk_exn { exn_type : exn_class; exn_str : string }.

(** [type(e).__name__] *)
Definition class_name (c : exn_class) : string :=
  match c with
  | ExceptionC => "Exception"
  | ValueError => "ValueError"
  | JSONDecodeError => "JSONDecodeError"
  | TypeError => "TypeError"
  | AttributeError => "AttributeError"
  | KeyError => "KeyError"
  | UnboundLocalError => "UnboundLocalError"
  | ValidationError => "ValidationError"
  | RecursionError => "RecursionError"
  | OtherError n => n
  end.

(** [issubclass c p] for the classes an [except] clause of the module
    lists: [JSONDecodeError] derives from [ValueError], and (in
    pydantic) so does [ValidationError]. *)
Definition issubclass (c p : exn_class) : bool :=
  match p, c with
  | ExceptionC, _ => true
  | ValueError, (ValueError | JSONDecodeError | ValidationError) => true
  | JSONDecodeError, JSONDecodeError => true
  | TypeError, TypeError => true
  | AttributeError, AttributeError => true
  | KeyError, KeyError => true
  | UnboundLocalError, UnboundLocalError => true
  | ValidationError, ValidationError => true
  | RecursionError, RecursionError => true
  | OtherError n, OtherError m => String.eqb n m
  | _, _ => false
  end.

(** [except (p1, ..., pn)] catches [e]. *)
Definition caught_by (ps : list exn_class) (e : exn) : bool :=
  existsb (issubclass (exn_type e)) ps.

Inductive outcome (A : Type) :=
| Ok (a : A)
| Raise (e : exn).
Arguments Ok {A} a.
Arguments Raise {A} e.

#[global] Instance outcome_ret : MRet outcome := fun A a => Ok a.

#[global] Instance outcome_bind : MBind outcome := fun A B f x =>
  match x with
  | Ok a => f a
  | Raise e => Raise e
  end.

Fixpoint mapM {A B} (f : A -> outcome B) (l : list A) : outcome (list B) :=
  match l with
  | [] => Ok []
  | a :: l' =>
      match f a with
      | Raise e => Raise e
      | Ok b =>
          match mapM f l' with
          | Raise e => Raise e
          | Ok bs => Ok (b :: bs)
          end
      end
  end.

(* ===================================================================== *)
(** ** Strings *)
(* ===================================================================== *)

(** [str.isspace] on the code points below 256: TAB..CR, FS..US, the
    space, NEL and the no-break space. *)
Definition isspace (c : ascii) : bool :=
  let n := N_of_ascii c in
  ((9 <=? n) && (n <=? 13) || (28 <=? n) && (n <=? 32)
   || (n =? 133) || (n =? 160))%N.

Fixpoint lstrip (s : string) : string :=
  match s with
  | EmptyString => EmptyString
  | String c s' => if isspace c then lstrip s' else s
  end.

Fixpoint rstrip (s : string) : string :=
  match s with
  | EmptyString => EmptyString
  | String c s' =>
      match rstrip s' with
      | EmptyString => if isspace c then EmptyString else String c EmptyString
      | r => String c r
      end
  end.

(** [str.strip] *)
Definition strip (s : string) : string := rstrip (lstrip s).

(** Truth value of a [str]. *)
Definition str_truthy (s : string) : bool :=
  match s with EmptyString => false | _ => true end.

(** The characters of a [str], each as a [str] of length one. *)
Fixpoint chars (s : string) : list string :=
  match s with
  | EmptyString => []
  | String c s' => String c EmptyString :: chars s'
  end.

Fixpoint all_chars (p : ascii -> bool) (s : string) : bool :=
  match s with
  | EmptyString => true
  | String c s' => p c && all_chars p s'
  end.

(** [str.replace old new], scanning left to right; [old] is not empty at
    the call sites. *)
Fixpoint replace_fuel (fuel : nat) (old new s : string) : string :=
  match fuel with
  | O => s
  | S fuel' =>
      match s with
      | EmptyString => EmptyString
      | String c s' =>
          if String.prefix old s
          then new +:+ replace_fuel fuel' old new
                 (String.substring (String.length old)
                    (String.length s - String.length old) s)
          else String c (replace_fuel fuel' old new s')
      end
  end.

Definition replace (old new s : string) : string :=
  replace_fuel (S (String.length s)) old new s.

(* ===================================================================== *)
(** ** Python values *)
(* ===================================================================== *)

(** The values a request parameter, a JSON document or a metadata field
    can hold.  A [dict] lists its items in insertion order; its keys are
    [str], as in a decoded JSON object. *)
Inductive pyval :=
| PyNone
| PyBool (b : bool)
| PyInt (z : Z)
| PyFloat (q : Qc)
| PyStr (s : string)
| PyList (l : list pyval)
| PyDict (d : list (string * pyval)).

Definition is_str (v : pyval) : bool :=
  match v with PyStr _ => true | _ => false end.

(** [str.strip(x)]: the unbound method refuses an argument that is not a
    [str]. *)
Definition str_strip (x : pyval) : outcome string :=
  match x with
  | PyStr s => Ok (strip s)
  | _ => Raise (mk_exn TypeError
                  "descriptor 'strip' for 'str' objects doesn't apply to this object")
  end.

(** [iter(v)]: the items a [for] or [map] draws from [v]. *)
Definition py_iter (v : pyval) : outcome (list pyval) :=
  match v with
  | PyList l => Ok l
  | PyStr s => Ok (map PyStr (chars s))
  | PyDict d => Ok (map (fun kv => PyStr (fst kv)) d)
  | _ => Raise (mk_exn TypeError "object is not iterable")
  end.

(** [list(map(str.strip, v))] *)
Definition list_map_str_strip (v : pyval) : outcome (list string) :=
  items ← py_iter v; mapM str_strip items.

(* ===================================================================== *)
(** ** The JSON decoder *)
(* ===================================================================== *)

(** [json.loads] belongs to the Python standard library.  The module
    depends on it through this interface: the two literals the code and
    its callers pass, and the fact that a blank text is no JSON
    document. *)
Class JsonDecoder := {
  json_loads : string -> outcome pyval;
  json_loads_empty_array : json_loads "[]" = Ok (PyList []);
  json_loads_null : json_loads "null" = Ok PyNone;
  json_loads_blank : forall s,
    strip s = "" ->
    exists msg, json_loads s = Raise (mk_exn JSONDecodeError msg)
}.

(** *** A decoder for a fragment of JSON

    [null] and arrays of string literals without escapes, with JSON
    white space (space, TAB, LF, CR) around the tokens; every other text
    is rejected.  It instantiates the interface in the examples. *)
Module SampleJson.

Definition json_ws (c : ascii) : bool :=
  let n := N_of_ascii c in
  ((n =? 32) || (n =? 9) || (n =? 10) || (n =? 13))%N.

Definition quote : ascii := ascii_of_nat 34.
Definition backslash : ascii := ascii_of_nat 92.

Inductive scan_state :=
| AtStart
| Null (seen : nat)
| AfterNull
| AfterOpen
| InString (rev_acc : list ascii)
| AfterValue
| AfterComma
| AfterClose.

Definition string_of_rev (rev_acc : list ascii) : string :=
  fold_left (fun s c => String c s) rev_acc EmptyString.

Fixpoint scan (st : scan_state) (items : list string) (s : string)
  : option pyval :=
  match s with
  | EmptyString =>
      match st with
      | AfterNull => Some PyNone
      | AfterClose => Some (PyList (map PyStr (rev items)))
      | _ => None
      end
  | String c s' =>
      match st with
      | AtStart =>
          if json_ws c then scan AtStart items s'
          else if Ascii.eqb c "[" then scan AfterOpen items s'
          else if Ascii.eqb c "n" then scan (Null 1) items s'
          else None
      | Null 1 => if Ascii.eqb c "u" then scan (Null 2) items s' else None
      | Null 2 => if Ascii.eqb c "l" then scan (Null 3) items s' else None
      | Null 3 => if Ascii.eqb c "l" then scan AfterNull items s' else None
      | Null _ => None
      | AfterNull => if json_ws c then scan AfterNull items s' else None
      | AfterOpen =>
          if json_ws c then scan AfterOpen items s'
          else if Ascii.eqb c "]" then scan AfterClose items s'
          else if Ascii.eqb c quote then scan (InString []) items s'
          else None
      | InString acc =>
          if Ascii.eqb c quote
          then scan AfterValue (string_of_rev acc :: items) s'
          else if Ascii.eqb c backslash then None
          else scan (InString (c :: acc)) items s'
      | AfterValue =>
          if json_ws c then scan AfterValue items s'
          else if Ascii.eqb c "," then scan AfterComma items s'
          else if Ascii.eqb c "]" then scan AfterClose items s'
          else None
      | AfterComma =>
          if json_ws c then scan AfterComma items s'
          else if Ascii.eqb c quote then scan (InString []) items s'
          else None
      | AfterClose => if json_ws c then scan AfterClose items s' else None
      end
  end.

Definition loads (s : string) : outcome pyval :=
  match scan AtStart [] s with
  | Some v => Ok v
  | None => Raise (mk_exn JSONDecodeError "Expecting value")
  end.

End SampleJson.

(* ===================================================================== *)
(** ** The document-name filter *)
(* ===================================================================== *)

Section DocumentNames.
Context `{JsonDecoder}.

(** The [if]/[elif]/[else] in front of the decoder: [None], a blank
    [str] and every value that is not a [str] become the text ["[]"]. *)
Definition default_document_names (document_names : pyval) : string :=
  match document_names with
  | PyNone => "[]"
  | PyStr s => if str_truthy (strip s) then s else "[]"
  | _ => "[]"
  end.

(** The [try] block of [QA_RAG] that computes [parsed_document_names];
    its handler lists [json.JSONDecodeError], [TypeError] and
    [ValueError]. *)
Definition parse_document_names (document_names : pyval)
  : outcome (list string) :=
  let document_names := default_document_names document_names in
  match v ← json_loads document_names; list_map_str_strip v with
  | Ok parsed_document_names => Ok parsed_document_names
  | Raise e =>
      if caught_by [JSONDecodeError; TypeError; ValueError] e
      then Ok []
      else Raise e
  end.

End DocumentNames.

(* ===================================================================== *)
(** ** Messages and histories *)
(* ===================================================================== *)

(** A message object: its [type] attribute (the role, possibly [None]),
    its text and the provider's response metadata. *)
Record BaseMessage := mk_message {
  msg_type : option string;
  msg_content : string;
  response_metadata : pyval
}.

Definition HumanMessage (content : string) : BaseMessage :=
  mk_message (Some "human") content (PyDict []).

Definition AIMessage (content : string) : BaseMessage :=
  mk_message (Some "ai") content (PyDict []).

(** What a list of stored records can hold: [None], a bare [str] (the
    tests store one), or a message object. *)
Inductive raw_record :=
| RawNone
| RawStr (s : string)
| RawMessage (m : BaseMessage).

(** Truth value: [None] and the empty [str] are false, a message object
    defines neither [__bool__] nor [__len__]. *)
Definition truthy (r : raw_record) : bool :=
  match r with
  | RawNone => false
  | RawStr s => str_truthy s
  | RawMessage _ => true
  end.

(** [hasattr(r, 'type')] *)
Definition has_type (r : raw_record) : bool :=
  match r with RawMessage _ => true | _ => false end.

(** [r.type is not None], for an [r] that has the attribute. *)
Definition type_is_not_None (r : raw_record) : bool :=
  match r with
  | RawMessage m => match msg_type m with Some _ => true | None => false end
  | _ => false
  end.

(** Reading an attribute of an object the module does not define. *)
Inductive attr_read (A : Type) :=
| AttrMissing
| AttrRaises (e : exn)
| AttrValue (a : A).
Arguments AttrMissing {A}.
Arguments AttrRaises {A} e.
Arguments AttrValue {A} a.

(** [hasattr] answers [False] on [AttributeError] and lets every other
    exception through. *)
Definition hasattr {A} (r : attr_read A) : outcome bool :=
  match r with
  | AttrMissing => Ok false
  | AttrRaises e =>
      if issubclass (exn_type e) AttributeError then Ok false else Raise e
  | AttrValue _ => Ok true
  end.

Definition getattr {A} (name : string) (r : attr_read A) : outcome A :=
  match r with
  | AttrMissing =>
      Raise (mk_exn AttributeError ("object has no attribute '" +:+ name +:+ "'"))
  | AttrRaises e => Raise e
  | AttrValue a => Ok a
  end.

(** An iterable: the items it yields and the exception that ends the
    iteration, if one does. *)
Record iterable (A : Type) := mk_iterable {
  it_items : list A;
  it_raises : option exn
}.
Arguments mk_iterable {A} _ _.
Arguments it_items {A} _.
Arguments it_raises {A} _.

(** The history object of the graph-store library.  [neo_stored] is the
    session's persisted sequence; [neo_messages_attr] is what reading
    the attribute [_messages] gives (the library does not document it,
    the tests set it on a mock); [neo_messages_prop] is what the
    library's own property [messages] evaluates to; the two error
    fields say whether the store refuses a write. *)
Record Neo4jChatMessageHistory := mk_neo4j_history {
  neo_stored : list raw_record;
  neo_messages_attr : attr_read (iterable raw_record);
  neo_messages_prop : outcome (list raw_record);
  neo_add_error : option exn;
  neo_clear_error : option exn
}.

Definition neo_add_message (h : Neo4jChatMessageHistory) (m : BaseMessage)
  : outcome Neo4jChatMessageHistory :=
  match neo_add_error h with
  | Some e => Raise e
  | None =>
      Ok (mk_neo4j_history (neo_stored h ++ [RawMessage m])
            (neo_messages_attr h) (neo_messages_prop h)
            (neo_add_error h) (neo_clear_error h))
  end.

Definition neo_clear (h : Neo4jChatMessageHistory)
  : outcome Neo4jChatMessageHistory :=
  match neo_clear_error h with
  | Some e => Raise e
  | None =>
      Ok (mk_neo4j_history [] (neo_messages_attr h) (neo_messages_prop h)
            (neo_add_error h) (neo_clear_error h))
  end.

(** The loop both validators run: keep the records that pass [keep], in
    order, appending each to [valid_messages]; an exception of the
    iterable leaves the loop. *)
Definition validation_loop (keep : raw_record -> bool)
    (raw_messages : iterable raw_record) : outcome (list raw_record) :=
  let valid_messages :=
    fold_left (fun valid message =>
                 if keep message then valid ++ [message] else valid)
      (it_items raw_messages) [] in
  match it_raises raw_messages with
  | Some e => Raise e
  | None => Ok valid_messages
  end.

(** [message and hasattr(message, 'type') and message.type is not None] *)
Definition keep_truthy_typed (message : raw_record) : bool :=
  truthy message && has_type message && type_is_not_None message.

(** [hasattr(message, 'type') and message.type is not None] *)
Definition keep_typed (message : raw_record) : bool :=
  has_type message && type_is_not_None message.

Module SafeNeo4jChatMessageHistory.

(** The wrapper class.  It defines [session_id], [messages],
    [add_message] and [clear], and nothing else. *)
Record t := mk {
  neo4j_history : Neo4jChatMessageHistory;
  _session_id : string;
  _cached_messages : option (list raw_record);
  _messages_validated : bool
}.

(** [__init__], for the library object the constructor call returned. *)
Definition init (neo : Neo4jChatMessageHistory) (session_id : string) : t :=
  mk neo session_id None false.

(** [self.neo4j_history._messages if hasattr(self.neo4j_history,
    '_messages') else []] *)
Definition raw_messages_of (neo : Neo4jChatMessageHistory)
  : outcome (iterable raw_record) :=
  present ← hasattr (neo_messages_attr neo);
  if (present : bool) then getattr "_messages" (neo_messages_attr neo)
  else Ok (mk_iterable [] None).

(** [_validate_and_cache_messages]: the value returned and the wrapper
    afterwards. *)
Definition _validate_and_cache_messages (self : t)
  : option (list raw_record) * t :=
  if _messages_validated self then (_cached_messages self, self)
  else
    match raw ← raw_messages_of (neo4j_history self);
          validation_loop keep_truthy_typed raw with
    | Ok valid_messages =>
        (Some valid_messages,
         mk (neo4j_history self) (_session_id self) (Some valid_messages) true)
    | Raise _ =>
        (Some [], mk (neo4j_history self) (_session_id self) (Some []) true)
    end.

(** The property [messages]. *)
Definition messages (self : t) : option (list raw_record) * t :=
  _validate_and_cache_messages self.

Definition add_message (self : t) (m : BaseMessage) : t :=
  match neo_add_message (neo4j_history self) m with
  | Ok neo' => mk neo' (_session_id self) None false
  | Raise _ => self
  end.

Definition clear (self : t) : t :=
  match neo_clear (neo4j_history self) with
  | Ok neo' => mk neo' (_session_id self) (Some []) true
  | Raise _ => self
  end.

End SafeNeo4jChatMessageHistory.

(** The in-memory history of the chat library: a list of messages;
    [add_user_message] wraps the text in a [HumanMessage]. *)
Module ChatMessageHistory.

Record t := mk { messages : list raw_record }.

Definition init : t := mk [].

Definition add_message (self : t) (m : BaseMessage) : t :=
  mk (messages self ++ [RawMessage m]).

Definition add_user_message (self : t) (text : string) : t :=
  add_message self (HumanMessage text).

Definition clear (self : t) : t := mk [].

End ChatMessageHistory.

(** A history handle: the durable wrapper or the in-memory history. *)
Inductive history :=
| Durable (h : SafeNeo4jChatMessageHistory.t)
| Volatile (h : ChatMessageHistory.t).

(** The sequence a handle stores. *)
Definition stored (h : history) : list raw_record :=
  match h with
  | Durable w => neo_stored (SafeNeo4jChatMessageHistory.neo4j_history w)
  | Volatile c => ChatMessageHistory.messages c
  end.

(** [history.messages] *)
Definition history_messages (h : history)
  : option (list raw_record) * history :=
  match h with
  | Durable w =>
      let '(view, w') := SafeNeo4jChatMessageHistory.messages w in
      (view, Durable w')
  | Volatile c => (Some (ChatMessageHistory.messages c), h)
  end.

(** [history.clear()] *)
Definition history_clear (h : history) : outcome history :=
  match h with
  | Durable w => Ok (Durable (SafeNeo4jChatMessageHistory.clear w))
  | Volatile c => Ok (Volatile (ChatMessageHistory.clear c))
  end.

(** [history.add_user_message(text)]: the wrapper class has no such
    method, the attribute lookup fails. *)
Definition history_add_user_message (h : history) (text : string)
  : outcome history :=
  match h with
  | Durable _ =>
      Raise (mk_exn AttributeError
               "'SafeNeo4jChatMessageHistory' object has no attribute 'add_user_message'")
  | Volatile c => Ok (Volatile (ChatMessageHistory.add_user_message c text))
  end.

(** [history.add_message(message)] *)
Definition history_add_message (h : history) (m : BaseMessage) : outcome history :=
  match h with
  | Durable w => Ok (Durable (SafeNeo4jChatMessageHistory.add_message w m))
  | Volatile c => Ok (Volatile (ChatMessageHistory.add_message c m))
  end.

(** The objects [validate_and_clean_messages] is handed: the library
    object itself, the wrapper, or the in-memory history.  Only the
    first can have an attribute [_messages]. *)
Inductive history_like :=
| OfNeo4j (h : Neo4jChatMessageHistory)
| OfHandle (h : history).

Definition validate_and_clean_messages (h : history_like) : list raw_record :=
  let body : outcome (list raw_record) :=
    match h with
    | OfNeo4j neo =>
        present ← hasattr (neo_messages_attr neo);
        if (present : bool) then
          raw_messages ← getattr "_messages" (neo_messages_attr neo);
          validation_loop keep_truthy_typed raw_messages
        else
          messages ← neo_messages_prop neo;
          validation_loop keep_typed (mk_iterable messages None)
    | OfHandle hd =>
        match fst (history_messages hd) with
        | Some messages => validation_loop keep_typed (mk_iterable messages None)
        | None => Raise (mk_exn TypeError "'NoneType' object is not iterable")
        end
    end in
  match body with
  | Ok valid_messages => valid_messages
  | Raise _ => []
  end.

Definition safe_get_messages (h : history_like) : list raw_record :=
  validate_and_clean_messages h.

(* ===================================================================== *)
(** ** Constants, built-ins and chat-mode settings *)
(* ===================================================================== *)

(** A key of [CHAT_TOKEN_CUT_OFF]: a tuple of model names or, where the
    table writes a parenthesised name without a comma, a [str]. *)
Inductive model_names :=
| NamesTuple (names : list string)
| NamesStr (name : string).

(** Modelled from the spec: [src/shared/constants.py] is not among the
    sources.  The mode names, the table from model-name patterns to a
    maximum document count, the system prompt as a function of its
    [context] slot, and the default similarity threshold are taken as
    they are named in [QA_integration.py]. *)
Class Constants := {
  CHAT_GRAPH_MODE : string;
  CHAT_DEFAULT_MODE : string;
  CHAT_ENTITY_VECTOR_MODE : string;
  CHAT_TOKEN_CUT_OFF : list (model_names * Z);
  CHAT_SYSTEM_TEMPLATE : string -> string;
  CHAT_SEARCH_KWARG_SCORE_THRESHOLD : Qc
}.

(** The built-ins [str] and [int] on arbitrary values. *)
Class Builtins := {
  py_str : pyval -> string;
  py_str_str : forall s, py_str (PyStr s) = s;
  py_int : pyval -> outcome Z;
  py_int_int : forall z, py_int (PyInt z) = Ok z
}.

(** Modelled from the spec: one entry of [CHAT_MODE_CONFIG_MAP], with
    the fields the data model lists (retrieval query template, index
    name, optional keyword index, node label, embedding property, text
    properties, result cap, document-filter permission) and the key
    [mode] that [get_chat_mode_settings] writes. *)
Record ChatModeSettings := mk_settings {
  retrieval_query : option string;
  index_name : option string;
  keyword_index : option string;
  node_label : option string;
  embedding_node_property : option string;
  text_node_properties : list string;
  top_k : Z;
  document_filter : bool;
  mode : option string
}.

(** [chat_mode_settings["mode"] = mode] *)
Definition set_mode (m : string) (s : ChatModeSettings) : ChatModeSettings :=
  mk_settings (retrieval_query s) (index_name s) (keyword_index s)
    (node_label s) (embedding_node_property s) (text_node_properties s)
    (top_k s) (document_filter s) (Some m).

(** [chat_mode_settings["mode"]] *)
Definition get_mode (s : ChatModeSettings) : outcome string :=
  match mode s with
  | Some m => Ok m
  | None => Raise (mk_exn KeyError "'mode'")
  end.

Section Settings.
Context `{Constants}.

(** [get_chat_mode_settings(mode, settings_map)].  The map is the
    shared module-level dictionary; each of its entries is an object
    of its own, so the key under which an entry sits identifies it.
    The function returns the entry itself, not a copy: the result is
    the entry's key, the entry as it is after the write, and the map
    after the write. *)
Definition get_chat_mode_settings (mode : string)
    (settings_map : gmap string ChatModeSettings)
  : outcome (string * ChatModeSettings * gmap string ChatModeSettings) :=
  match settings_map !! CHAT_DEFAULT_MODE with
  | None => Raise (mk_exn KeyError CHAT_DEFAULT_MODE)
  | Some default_settings =>
      let '(key, chat_mode_settings) :=
        match settings_map !! mode with
        | Some s => (mode, s)
        | None => (CHAT_DEFAULT_MODE, default_settings)
        end in
      let chat_mode_settings := set_mode mode chat_mode_settings in
      Ok (key, chat_mode_settings, <[key := chat_mode_settings]> settings_map)
  end.

End Settings.

(* ===================================================================== *)
(** ** Operations on Python values used by the synthesizer *)
(* ===================================================================== *)

Fixpoint assoc_get {V} (k : string) (d : list (string * V)) : option V :=
  match d with
  | [] => None
  | (k', v) :: d' => if String.eqb k k' then Some v else assoc_get k d'
  end.

(** [d.get(k, dflt)] for a [d] that must be a [dict]. *)
Definition py_get (d : pyval) (k : string) (dflt : pyval) : outcome pyval :=
  match d with
  | PyDict items => Ok (default dflt (assoc_get k items))
  | _ => Raise (mk_exn AttributeError "object has no attribute 'get'")
  end.

(** [x[k]] for a [str] key [k]. *)
Definition py_getitem (x : pyval) (k : string) : outcome pyval :=
  match x with
  | PyDict items =>
      match assoc_get k items with
      | Some v => Ok v
      | None => Raise (mk_exn KeyError ("'" +:+ k +:+ "'"))
      end
  | PyList _ => Raise (mk_exn TypeError "list indices must be integers or slices, not str")
  | PyStr _ => Raise (mk_exn TypeError "string indices must be integers, not 'str'")
  | _ => Raise (mk_exn TypeError "object is not subscriptable")
  end.

Fixpoint is_substring (needle s : string) : bool :=
  String.prefix needle s ||
  match s with
  | EmptyString => false
  | String _ s' => is_substring needle s'
  end.

(** [k in x] for a [str] [k]: a key of a [dict], an element of a [list],
    a substring of a [str]. *)
Definition py_contains (k : string) (x : pyval) : outcome bool :=
  match x with
  | PyDict items => Ok (match assoc_get k items with Some _ => true | None => false end)
  | PyList l =>
      Ok (existsb (fun v => match v with PyStr s => String.eqb k s | _ => false end) l)
  | PyStr s => Ok (is_substring k s)
  | _ => Raise (mk_exn TypeError "argument is not iterable")
  end.

(** Values that can be hashed: everything but [list] and [dict]. *)
Definition hashable (v : pyval) : bool :=
  match v with
  | PyList _ | PyDict _ => false
  | _ => true
  end.

(** The number a [bool], [int] or [float] stands for. *)
Definition numeric (v : pyval) : option Qc :=
  match v with
  | PyBool b => Some (if b then 1%Qc else 0%Qc)
  | PyInt z => Some (Q2Qc (inject_Z z))
  | PyFloat q => Some q
  | _ => None
  end.

(** [a == b] on hashable values: numbers compare by value across the
    three numeric types. *)
Definition py_eqb (a b : pyval) : bool :=
  match numeric a, numeric b with
  | Some x, Some y => bool_decide (x = y)
  | _, _ =>
      match a, b with
      | PyNone, PyNone => true
      | PyStr s, PyStr t => String.eqb s t
      | _, _ => false
      end
  end.

(** [s.add(v)] on a set kept as the list of its members in insertion
    order. *)
Definition set_add (v : pyval) (s : list pyval) : outcome (list pyval) :=
  if hashable v
  then Ok (if existsb (py_eqb v) s then s else s ++ [v])
  else Raise (mk_exn TypeError "unhashable type").

(** [s.update(items)]: members are added one by one; the first
    unhashable item raises and leaves the earlier ones in the set. *)
Fixpoint set_update (items : list pyval) (s : list pyval)
  : list pyval * option exn :=
  match items with
  | [] => (s, None)
  | v :: items' =>
      match set_add v s with
      | Ok s' => set_update items' s'
      | Raise e => (s, Some e)
      end
  end.

(** [d.setdefault(k, set())] on a dictionary of sets. *)
Definition setdefault_set (k : string) (d : list (string * list pyval))
  : list (string * list pyval) :=
  match assoc_get k d with
  | Some _ => d
  | None => d ++ [(k, [])]
  end.

Fixpoint assoc_set {V} (k : string) (v : V) (d : list (string * V))
  : list (string * V) :=
  match d with
  | [] => [(k, v)]
  | (k', v') :: d' =>
      if String.eqb k k' then (k, v) :: d' else (k', v') :: assoc_set k v d'
  end.

(* ===================================================================== *)
(** ** Document selection and formatting *)
(* ===================================================================== *)

(** The value the state of a document holds under
    [query_similarity_score].  The embeddings filter of the retriever
    chain puts a float there: a number (represented by the rational it
    denotes), an infinity, or NaN, which no comparison orders.
    [ScoreNone] is [None], which [<] refuses to compare. *)
Inductive py_score :=
| ScoreNumber (q : Qc)
| ScoreInfinity (positive : bool)
| ScoreNaN
| ScoreNone.

#[global] Instance py_score_eq_dec : EqDecision py_score.
Proof. solve_decision. Defined.

(** A retrieved document: its text, its metadata dictionary, and the
    entry [query_similarity_score] of its state, when the state has
    one. *)
Record Document := mk_document {
  page_content : string;
  metadata : list (string * pyval);
  query_similarity_score : option py_score
}.

(** [doc.state.get("query_similarity_score", 0)] *)
Definition sort_key (doc : Document) : py_score :=
  default (ScoreNumber 0%Qc) (query_similarity_score doc).

(** [a < b] on two keys of which none is [None]: a comparison with NaN
    is false. *)
Definition score_lt (a b : py_score) : bool :=
  match a, b with
  | ScoreNumber x, ScoreNumber y => bool_decide (x < y)%Qc
  | ScoreNumber _, ScoreInfinity true => true
  | ScoreInfinity false, ScoreNumber _ => true
  | ScoreInfinity false, ScoreInfinity true => true
  | _, _ => false
  end.

Definition is_nan (a : py_score) : bool :=
  match a with ScoreNaN => true | _ => false end.

Definition is_none (a : py_score) : bool :=
  match a with ScoreNone => true | _ => false end.

(** The stable sort in descending order of the key.  The built-in sort
    is stable, also under [reverse=True]: documents with equal keys
    keep their input order, so on keys that [<] orders the result is
    determined by the input.  Insertion from the right computes it. *)
Fixpoint insert_desc (x : Document) (l : list Document) : list Document :=
  match l with
  | [] => [x]
  | y :: l' =>
      if score_lt (sort_key x) (sort_key y)
      then y :: insert_desc x l'
      else x :: l
  end.

Definition sorted_reverse (documents : list Document) : list Document :=
  foldr insert_desc [] documents.

(** [sorted] belongs to Python.  Two of its answers do not follow from
    the order of the keys, and the module depends on them through this
    interface: the order it gives the documents when a key is NaN
    (every comparison with NaN is false, so the result depends on the
    algorithm; it is a permutation of the input), and the text of the
    [TypeError] with which a comparison with [None] ends. *)
Class Sorting := {
  sorted_with_nan : list Document -> list Document;
  sorted_with_nan_perm : forall documents,
    sorted_with_nan documents ≡ₚ documents;
  sorted_type_error : list Document -> string
}.

(** [sorted(documents, key=lambda doc: doc.state.get(
    "query_similarity_score", 0), reverse=True)].  Sorting two or more
    documents compares every key at least once, so a key [None] among
    them raises; a single document is returned without a comparison. *)
Definition py_sorted `{Sorting} (documents : list Document)
  : outcome (list Document) :=
  if existsb (fun doc => is_none (sort_key doc)) documents
     && (1 <? length documents)%nat
  then Raise (mk_exn TypeError (sorted_type_error documents))
  else if existsb (fun doc => is_nan (sort_key doc)) documents
       then Ok (sorted_with_nan documents)
       else Ok (sorted_reverse documents).

(** [l[:k]]; a negative [k] counts from the end. *)
Definition slice_to {A} (k : Z) (l : list A) : list A :=
  if k <? 0 then take (Z.to_nat (Z.of_nat (length l) + k)) l
  else take (Z.to_nat k) l.

(** [model in model_names] *)
Definition model_in (model : string) (k : model_names) : bool :=
  match k with
  | NamesTuple names => existsb (String.eqb model) names
  | NamesStr name => is_substring model name
  end.

(** The [for]/[break] over [CHAT_TOKEN_CUT_OFF.items()]. *)
Fixpoint lookup_cutoff (model : string) (items : list (model_names * Z))
    (prompt_token_cutoff : Z) : Z :=
  match items with
  | [] => prompt_token_cutoff
  | (names, value) :: rest =>
      if model_in model names then value
      else lookup_cutoff model rest prompt_token_cutoff
  end.

Definition nl : string := String (ascii_of_nat 10) EmptyString.

(** [sep.join(parts)] *)
Fixpoint join (sep : string) (parts : list string) : string :=
  match parts with
  | [] => ""
  | [p] => p
  | p :: rest => p +:+ sep +:+ join sep rest
  end.

(** What the loop of [format_documents] accumulates. *)
Record formatted := mk_formatted {
  formatted_docs : list string;
  sources : list pyval;
  entities : list (string * list pyval);
  global_communities : list pyval
}.

(** [entities.setdefault(k, set()).update(items)] *)
Definition update_entity_set (k : string) (items : list pyval)
    (ents : list (string * list pyval))
  : list (string * list pyval) * option exn :=
  let ents := setdefault_set k ents in
  let '(s, err) := set_update items (default [] (assoc_get k ents)) in
  (assoc_set k s ents, err).

(** [[entry['entityids'] for entry in entries if 'entityids' in entry]] *)
Fixpoint collect_entity_ids (entries : list pyval) : outcome (list pyval) :=
  match entries with
  | [] => Ok []
  | entry :: rest =>
      present ← py_contains "entityids" entry;
      if (present : bool) then
        v ← py_getitem entry "entityids";
        vs ← collect_entity_ids rest;
        Ok (v :: vs)
      else collect_entity_ids rest
  end.

(** [if k in meta: entities.setdefault(k, set()).update(meta[k])]; the
    set is created before [meta[k]] is evaluated. *)
Definition update_from (k : string) (meta : pyval)
    (ents : list (string * list pyval))
  : list (string * list pyval) * option exn :=
  match py_contains k meta with
  | Raise e => (ents, Some e)
  | Ok false => (ents, None)
  | Ok true =>
      let ents := setdefault_set k ents in
      match v ← py_getitem meta k; py_iter v with
      | Raise e => (ents, Some e)
      | Ok items =>
          let '(s, err) := set_update items (default [] (assoc_get k ents)) in
          (assoc_set k s ents, err)
      end
  end.

Fixpoint filterM {A} (p : A -> outcome bool) (l : list A) : outcome (list A) :=
  match l with
  | [] => Ok []
  | a :: l' =>
      keep ← p a;
      rest ← filterM p l';
      Ok (if (keep : bool) then a :: rest else rest)
  end.

(** The [communitydetails] block: the ids already collected, then the
    entries of this document whose id is not among them. *)
Definition extend_communities (details : pyval) (communities : list pyval)
  : outcome (list pyval) :=
  ids ← mapM (fun entry => py_getitem entry "id") communities;
  existing_ids ← foldl (fun acc i => s ← acc; set_add i s) (Ok []) ids;
  entries ← py_iter details;
  new_entries ← filterM (fun entry =>
                   i ← py_getitem entry "id";
                   if hashable i then Ok (negb (existsb (py_eqb i) existing_ids))
                   else Raise (mk_exn TypeError "unhashable type")) entries;
  Ok (communities ++ new_entries).

Section FormatDocuments.
Context `{Constants} `{Builtins} `{Sorting}.

(** The [entities] block of the loop body. *)
Definition collect_entities (chat_mode_settings : ChatModeSettings)
    (meta : pyval) (ents : list (string * list pyval))
  : list (string * list pyval) * option exn :=
  match get_mode chat_mode_settings with
  | Raise e => (ents, Some e)
  | Ok m =>
      if String.eqb m CHAT_ENTITY_VECTOR_MODE then
        match entries ← py_iter meta; collect_entity_ids entries with
        | Raise e => (ents, Some e)
        | Ok entity_ids => update_entity_set "entityids" entity_ids ents
        end
      else
        match update_from "entityids" meta ents with
        | (ents, Some e) => (ents, Some e)
        | (ents, None) => update_from "relationshipids" meta ents
        end
  end.

Definition format_doc (source : pyval) (doc : Document) : string :=
  "Document start" +:+ nl
  +:+ "This Document belongs to the source " +:+ py_str source +:+ nl
  +:+ "Content: " +:+ page_content doc +:+ nl
  +:+ "Document end" +:+ nl.

(** One turn of the loop, [try] and [except] included: an exception
    is logged and the document left out, with the additions made
    before the exception kept. *)
Definition format_one (chat_mode_settings : ChatModeSettings)
    (acc : formatted) (doc : Document) : formatted :=
  let source := default (PyStr "unknown") (assoc_get "source" (metadata doc)) in
  match set_add source (sources acc) with
  | Raise _ => acc
  | Ok sources1 =>
      let '(entities1, err) :=
        match assoc_get "entities" (metadata doc) with
        | None => (entities acc, None)
        | Some meta => collect_entities chat_mode_settings meta (entities acc)
        end in
      let skipped :=
        mk_formatted (formatted_docs acc) sources1 entities1
          (global_communities acc) in
      match err with
      | Some _ => skipped
      | None =>
          let communities1 :=
            match assoc_get "communitydetails" (metadata doc) with
            | None => Ok (global_communities acc)
            | Some details => extend_communities details (global_communities acc)
            end in
          match communities1 with
          | Raise _ => skipped
          | Ok communities1 =>
              mk_formatted (formatted_docs acc ++ [format_doc source doc])
                sources1 entities1 communities1
          end
      end
  end.

(** [prompt_token_cutoff] after the lookup loop. *)
Definition prompt_token_cutoff (model : string) : Z :=
  lookup_cutoff model CHAT_TOKEN_CUT_OFF 4.

(** [sorted_documents] after the slice. *)
Definition sorted_documents (documents : list Document) (model : string)
  : outcome (list Document) :=
  ranked ← py_sorted documents;
  Ok (slice_to (prompt_token_cutoff model) ranked).

(** The loop over the documents selected: the accumulators when it
    ends. *)
Definition format_loop (chat_mode_settings : ChatModeSettings)
    (selected : list Document) : formatted :=
  foldl (format_one chat_mode_settings) (mk_formatted [] [] [] []) selected.

(** [format_documents]: the sort is outside the [try] of the loop, so
    its exception leaves the function. *)
Definition format_documents (documents : list Document) (model : string)
    (chat_mode_settings : ChatModeSettings)
  : outcome (string * list pyval * list (string * list pyval) * list pyval) :=
  selected ← sorted_documents documents model;
  let acc := format_loop chat_mode_settings selected in
  Ok (join (nl +:+ nl) (formatted_docs acc), sources acc, entities acc,
      global_communities acc).

End FormatDocuments.

(* ===================================================================== *)
(** ** Collaborators and the record of their calls *)
(* ===================================================================== *)

(** The chat-model classes [get_total_tokens] tells apart. *)
Inductive provider :=
| ChatOpenAI
| AzureChatOpenAI
| ChatFireworks
| ChatGroq
| ChatVertexAI
| ChatBedrock
| ChatAnthropic
| ChatOllama
| OtherChatModel.

(** A language-model client: its class and its answer to a prompt. *)
Record LLM := mk_llm {
  llm_class : provider;
  llm_invoke : list raw_record -> outcome BaseMessage
}.

(** One intermediate step of the graph chain: a dictionary that may
    hold a [query] and may hold a [context]. *)
Record chain_step := mk_step {
  step_query : option string;
  step_context : option pyval
}.

(** The dictionary the graph chain returns. *)
Record cypher_result := mk_cypher_result {
  cypher_answer : option string;          (* [.get("result")] *)
  intermediate_steps : list chain_step    (* [.get("intermediate_steps", [])] *)
}.

Record GraphCypherQAChain := mk_graph_chain {
  chain_invoke : string -> outcome cypher_result
}.

(** The retriever chain built by [create_document_retriever_chain]:
    what invoking it on the messages of the turn returns.  The chain
    is the library's; while it runs it has the chat model rewrite the
    question of a turn that has earlier messages, which is part of this
    answer and is not recorded as a call of the module. *)
Record DocRetriever := mk_doc_retriever {
  retriever_invoke : list raw_record -> outcome (list Document)
}.

(** What the collaborators answer during one execution. *)
Record World := mk_world {
  environ : gmap string string;
  new_neo4j_history : string -> outcome Neo4jChatMessageHistory;
  get_llm : string -> outcome (LLM * string);
  graph_chain_from_llm : outcome GraphCypherQAChain;
  vector_from_existing_graph : string -> option string -> outcome unit;
  as_retriever : outcome unit;
  retriever_chain : outcome DocRetriever
}.

(** The calls made to collaborators, in order. *)
Inductive event :=
| OpenHistory (session_id : string)
| GetLLM (model : string)
| BuildGraphChain
| InvokeGraphChain (question : string)
| OpenVectorIndex (index : string) (keyword_index : option string)
| BuildRetriever (search_k ef_ratio : Z) (score_threshold : Qc)
    (filter : option (list string))
| BuildRetrieverChain
| InvokeRetriever (messages : list raw_record)
| InvokeLLM (prompt : list raw_record)
| StartSummarizer (h : history) (messages : list raw_record).

(** The events of the retrieval pipeline and of response synthesis. *)
Definition is_retrieval (ev : event) : bool :=
  match ev with
  | OpenVectorIndex _ _ | BuildRetriever _ _ _ _ | BuildRetrieverChain
  | InvokeRetriever _ => true
  | _ => false
  end.

Definition is_model_call (ev : event) : bool :=
  match ev with
  | GetLLM _ | InvokeLLM _ | BuildGraphChain | InvokeGraphChain _ => true
  | _ => false
  end.

(** A computation that may raise and that calls collaborators: its
    outcome and the calls it made, in order. *)
Definition traced (A : Type) : Type := (outcome A * list event)%type.

#[global] Instance traced_ret : MRet traced := fun A a => (Ok a, []).

#[global] Instance traced_bind : MBind traced := fun A B f c =>
  match c with
  | (Ok a, evs) => let '(r, evs') := f a in (r, evs ++ evs')
  | (Raise e, evs) => (Raise e, evs)
  end.

(** A call to a collaborator: the event and the answer. *)
Definition call {A} (ev : event) (answer : outcome A) : traced A :=
  (answer, [ev]).

Definition lift {A} (x : outcome A) : traced A := (x, []).

(** [try: body except Exception as e: handler(e)] *)
Definition try_except {A} (body : traced A) (handler : exn -> traced A)
  : traced A :=
  match body with
  | (Ok a, evs) => (Ok a, evs)
  | (Raise e, evs) => let '(r, evs') := handler e in (r, evs ++ evs')
  end.

(* ===================================================================== *)
(** ** Token accounting *)
(* ===================================================================== *)

Section Tokens.
Context `{Builtins}.

Definition get_total_tokens (ai_response : BaseMessage) (llm : LLM) : pyval :=
  let md := response_metadata ai_response in
  let total_tokens : outcome pyval :=
    match llm_class llm with
    | ChatOpenAI | AzureChatOpenAI | ChatFireworks | ChatGroq =>
        usage ← py_get md "token_usage" (PyDict []);
        py_get usage "total_tokens" (PyInt 0)
    | ChatVertexAI =>
        usage ← py_get md "usage_metadata" (PyDict []);
        py_get usage "prompt_token_count" (PyInt 0)
    | ChatBedrock =>
        usage ← py_get md "usage" (PyDict []);
        py_get usage "total_tokens" (PyInt 0)
    | ChatAnthropic =>
        usage ← py_get md "usage" (PyDict []);
        i ← py_get usage "input_tokens" (PyInt 0);
        input_tokens ← py_int i;
        usage ← py_get md "usage" (PyDict []);
        o ← py_get usage "output_tokens" (PyInt 0);
        output_tokens ← py_int o;
        Ok (PyInt (input_tokens + output_tokens))
    | ChatOllama => py_get md "prompt_eval_count" (PyInt 0)
    | OtherChatModel => Ok (PyInt 0)
    end in
  match total_tokens with
  | Ok v => v
  | Raise _ => PyInt 0
  end.

End Tokens.

(* ===================================================================== *)
(** ** The summarizer *)
(* ===================================================================== *)

Definition summarization_instruction : string :=
  "Summarize the above chat messages into a concise message, focusing on key points and relevant details that could be useful for future conversations. Exclude all introductions and extraneous information.".

Definition summary_marker : string :=
  "Our current conversation summary till now".

(** [summarize_and_log(history, stored_messages, llm)]: the value
    returned, the history afterwards, and the calls made.  Each of the
    three history updates takes effect as it runs; an exception between
    them leaves the earlier ones in place. *)
Definition summarize_and_log (h : history) (stored_messages : list raw_record)
    (llm : LLM) : bool * history * list event :=
  match stored_messages with
  | [] => (false, h, [])
  | _ =>
      let prompt :=
        stored_messages ++ [RawMessage (HumanMessage summarization_instruction)] in
      match llm_invoke llm prompt with
      | Raise _ => (false, h, [InvokeLLM prompt])
      | Ok summary_message =>
          match history_clear h with
          | Raise _ => (false, h, [InvokeLLM prompt])
          | Ok h1 =>
              match history_add_user_message h1 summary_marker with
              | Raise _ => (false, h1, [InvokeLLM prompt])
              | Ok h2 =>
                  match history_add_message h2 summary_message with
                  | Raise _ => (false, h2, [InvokeLLM prompt])
                  | Ok h3 => (true, h3, [InvokeLLM prompt])
                  end
              end
          end
      end
  end.

(* ===================================================================== *)
(** ** The response envelope *)
(* ===================================================================== *)

(** The [info] block, with the keys that tell the paths apart: a key a
    path does not write is [None].  The keys holding result metadata
    ([sources], [nodedetails], [entities], [metric_details], [metrics])
    are not represented. *)
Record Info := mk_info {
  info_model : option string;
  info_total_tokens : option pyval;
  info_response_time : Z;
  info_mode : string;
  info_error : option string;
  info_cypher_query : option string;
  info_context : option pyval
}.

Record Envelope := mk_envelope {
  session_id : string;
  message : string;
  info : Info;
  user : string
}.

(** [result["session_id"] = session_id] *)
Definition set_session_id (sid : string) (result : Envelope) : Envelope :=
  mk_envelope sid (message result) (info result) (user result).

(** [f"{type(e).__name__}: {str(e)}"] *)
Definition describe (e : exn) : string :=
  class_name (exn_type e) +:+ ": " +:+ exn_str e.

(* ===================================================================== *)
(** ** The graph-query responder *)
(* ===================================================================== *)

Record graph_response := mk_graph_response {
  response : option string;
  cypher_query : string;
  context : pyval
}.

(** [cypher_string.replace("cypher\n", "").replace("\n", " ").strip()] *)
Definition clean_cypher (cypher_string : string) : string :=
  strip (replace nl " " (replace ("cypher" +:+ nl) "" cypher_string)).

(** The loop over the intermediate steps. *)
Definition scan_steps (steps : list chain_step) : string * pyval :=
  fold_left (fun acc step =>
               match step_query step, step_context step with
               | Some cypher_string, _ => (clean_cypher cypher_string, snd acc)
               | None, Some ctx => (fst acc, ctx)
               | None, None => acc
               end)
    steps ("", PyList []).

(** [create_graph_chain]: its handler logs and falls off the end of the
    function, which then returns [None]. *)
Definition create_graph_chain (W : World) (model : string)
  : traced (option (GraphCypherQAChain * LLM * string)) :=
  try_except
    ('(cypher_llm, model_name) ← call (GetLLM model) (get_llm W model);
     '(qa_llm, model_name) ← call (GetLLM model) (get_llm W model);
     graph_chain ← call BuildGraphChain (graph_chain_from_llm W);
     mret (Some (graph_chain, qa_llm, model_name)))
    (fun _ => mret None).

(** [get_graph_response]: likewise [None] after an exception. *)
Definition get_graph_response (graph_chain : GraphCypherQAChain)
    (question : string) : traced (option graph_response) :=
  try_except
    (cypher_res ← call (InvokeGraphChain question)
                    (chain_invoke graph_chain question);
     let '(cypher_query, context) := scan_steps (intermediate_steps cypher_res) in
     mret (Some (mk_graph_response (cypher_answer cypher_res) cypher_query context)))
    (fun _ => mret None).

(** [AIMessage(content=c)]: the constructor validates that the content
    is there. *)
Definition new_AIMessage (c : option string) : outcome BaseMessage :=
  match c with
  | Some text => Ok (AIMessage text)
  | None => Raise (mk_exn ValidationError "1 validation error for AIMessage")
  end.

(** The [except] block of [process_graph_response].  It reads the local
    variable [model_version], which the first statement of the [try]
    block binds. *)
Definition graph_failure (model_version : option string) (e : exn)
  : outcome Envelope :=
  match model_version with
  | None =>
      Raise (mk_exn UnboundLocalError
               "cannot access local variable 'model_version' where it is not associated with a value")
  | Some model_version =>
      Ok (mk_envelope "" "Something went wrong"
            (mk_info (Some model_version) None 0 "graph" (Some (describe e))
               (Some "") (Some (PyStr "")))
            "chatbot")
  end.

Definition process_graph_response (W : World) (model question : string)
    (messages : list raw_record) (h : history) : traced Envelope :=
  match create_graph_chain W model with
  | (Raise e, evs) => (graph_failure None e, evs)
  | (Ok None, evs) =>
      (graph_failure None
         (mk_exn TypeError "cannot unpack non-iterable NoneType object"), evs)
  | (Ok (Some (graph_chain, qa_llm, model_version)), evs) =>
      let '(result, evs') :=
        try_except
          (graph_response ← get_graph_response graph_chain question;
           match graph_response with
           | None =>
               lift (Raise (mk_exn AttributeError
                              "'NoneType' object has no attribute 'get'"))
           | Some graph_response =>
               let ai_response_content := response graph_response in
               ai_response ← lift (new_AIMessage ai_response_content);
               let messages := messages ++ [RawMessage ai_response] in
               _ ← call (StartSummarizer h messages) (Ok ());
               mret (mk_envelope "" (msg_content ai_response)
                       (mk_info (Some model_version) None 0 "graph" None
                          (Some (cypher_query graph_response))
                          (Some (context graph_response)))
                       "chatbot")
           end)
          (fun e => lift (graph_failure (Some model_version) e)) in
      (result, evs ++ evs')
  end.

(* ===================================================================== *)
(** ** The retrieval path *)
(* ===================================================================== *)

(** [str.isdigit] on one code point below 256: the ASCII digits and the
    superscripts two, three and one. *)
Definition isdigit_char (c : ascii) : bool :=
  let n := N_of_ascii c in
  ((48 <=? n) && (n <=? 57) || (n =? 178) || (n =? 179) || (n =? 185))%N.

Definition str_isdigit (s : string) : bool :=
  str_truthy s && all_chars isdigit_char s.

Definition is_ascii_digit (c : ascii) : bool :=
  let n := N_of_ascii c in ((48 <=? n) && (n <=? 57))%N.

Fixpoint digits_value (acc : Z) (s : string) : Z :=
  match s with
  | EmptyString => acc
  | String c s' => digits_value (10 * acc + Z.of_N (N_of_ascii c) - 48) s'
  end.

(** [int(s)] for an [s] on which [isdigit] holds: the superscript digits
    are refused. *)
Definition int_of_digits (s : string) : outcome Z :=
  if all_chars is_ascii_digit s then Ok (digits_value 0 s)
  else Raise (mk_exn ValueError "invalid literal for int() with base 10").

(** [get_env_var(key, default)] and [os.getenv(key, default)] *)
Definition get_env_var (W : World) (key dflt : string) : string :=
  default dflt (environ W !! key).

Definition falsy (o : option string) : bool :=
  match o with
  | Some s => negb (str_truthy s)
  | None => true
  end.

(** [initialize_neo4j_vector]; its handler logs and re-raises. *)
Definition initialize_neo4j_vector (W : World)
    (chat_mode_settings : ChatModeSettings) : traced unit :=
  if falsy (retrieval_query chat_mode_settings)
     || falsy (index_name chat_mode_settings)
  then lift (Raise (mk_exn ValueError
                      "Required settings 'retrieval_query' or 'index_name' are missing."))
  else
    let index := default "" (index_name chat_mode_settings) in
    let keyword :=
      if falsy (keyword_index chat_mode_settings) then None
      else keyword_index chat_mode_settings in
    call (OpenVectorIndex index keyword)
      (vector_from_existing_graph W index keyword).

(** [create_retriever] *)
Definition create_retriever (W : World) (document_names : list string)
    (chat_mode_settings : ChatModeSettings) (search_k : Z)
    (score_threshold : Qc) (ef_ratio : Z) : traced unit :=
  let filter :=
    match document_names with
    | _ :: _ =>
        if document_filter chat_mode_settings then Some document_names else None
    | [] => None
    end in
  call (BuildRetriever search_k ef_ratio score_threshold filter)
    (as_retriever W).

Definition index_name_text `{Builtins} (chat_mode_settings : ChatModeSettings)
  : string :=
  match index_name chat_mode_settings with
  | Some s => s
  | None => py_str PyNone
  end.

Section RetrievalPath.
Context `{Constants} `{Builtins} `{Sorting}.

(** [get_neo4j_retriever], called with the default [score_threshold]:
    every exception is replaced by a plain [Exception] that names the
    index. *)
Definition get_neo4j_retriever (W : World) (document_names : list string)
    (chat_mode_settings : ChatModeSettings) : traced unit :=
  try_except
    (_ ← initialize_neo4j_vector W chat_mode_settings;
     let search_k := top_k chat_mode_settings in
     let raw := get_env_var W "EFFECTIVE_SEARCH_RATIO" "2" in
     ef_ratio ← lift (if str_isdigit raw then int_of_digits raw else Ok 2);
     create_retriever W document_names chat_mode_settings search_k
       CHAT_SEARCH_KWARG_SCORE_THRESHOLD ef_ratio)
    (fun e =>
       lift (Raise (mk_exn ExceptionC
         ("An error occurred while retrieving the Neo4jVector index or creating the retriever. Please drop and create a new vector index '"
          +:+ index_name_text chat_mode_settings +:+ "': " +:+ exn_str e)))).

(** [setup_chat]; its handler logs and re-raises. *)
Definition setup_chat (W : World) (model : string)
    (document_names : list string) (chat_mode_settings : ChatModeSettings)
  : traced (LLM * DocRetriever * string) :=
  let model :=
    if String.eqb model "diffbot"
    then get_env_var W "DEFAULT_DIFFBOT_CHAT_MODEL" "openai_gpt_4o"
    else model in
  '(llm, model_name) ← call (GetLLM model) (get_llm W model);
  _ ← get_neo4j_retriever W document_names chat_mode_settings;
  doc_retriever ← call BuildRetrieverChain (retriever_chain W);
  mret (llm, doc_retriever, model_name).

(** [retrieve_documents]: an exception of the pipeline becomes
    [docs = None]. *)
Definition retrieve_documents (doc_retriever : DocRetriever)
    (messages : list raw_record) : traced (option (list Document)) :=
  try_except
    (docs ← call (InvokeRetriever messages)
              (retriever_invoke doc_retriever messages);
     mret (Some docs))
    (fun _ => mret None).

(** The prompt of the answering chain: the system template with the
    context, the earlier messages, the question. *)
Definition rag_prompt (messages : list raw_record) (formatted_docs : string)
    (question : string) : list raw_record :=
  [RawMessage (mk_message (Some "system")
                 (CHAT_SYSTEM_TEMPLATE formatted_docs) (PyDict []))]
  ++ removelast messages
  ++ [RawMessage (HumanMessage ("User question: " +:+ question))].

(** [process_documents]: content, token count and formatted context
    (the structured result is not represented); its handler logs and
    re-raises. *)
Definition process_documents (docs : list Document) (question : string)
    (messages : list raw_record) (llm : LLM) (model : string)
    (chat_mode_settings : ChatModeSettings)
  : traced (string * pyval * string) :=
  '(formatted_docs, _, _, _) ←
    lift (format_documents docs model chat_mode_settings);
  let prompt := rag_prompt messages formatted_docs question in
  ai_response ← call (InvokeLLM prompt) (llm_invoke llm prompt);
  let content := msg_content ai_response in
  let total_tokens := get_total_tokens ai_response llm in
  mret (content, total_tokens, formatted_docs).

Definition no_documents : string :=
  "I couldn't find any relevant documents to answer your question.".

Definition process_chat_response (W : World) (messages : list raw_record)
    (h : history) (question model : string) (document_names : list string)
    (chat_mode_settings : ChatModeSettings) : traced Envelope :=
  try_except
    ('(llm, doc_retriever, model_version) ←
       setup_chat W model document_names chat_mode_settings;
     docs ← retrieve_documents doc_retriever messages;
     '(content, total_tokens, formatted_docs) ←
       match docs with
       | Some (d :: ds) =>
           process_documents (d :: ds) question messages llm model
             chat_mode_settings
       | _ => mret (no_documents, PyInt 0, "")
       end;
     let ai_response := AIMessage content in
     let messages := messages ++ [RawMessage ai_response] in
     _ ← call (StartSummarizer h messages) (Ok ());
     m ← lift (get_mode chat_mode_settings);
     mret (mk_envelope "" content
             (mk_info (Some model_version) (Some total_tokens) 0 m None
                None None)
             "chatbot"))
    (fun e =>
       m ← lift (get_mode chat_mode_settings);
       mret (mk_envelope "" "Something went wrong"
               (mk_info None (Some (PyInt 0)) 0 m (Some (describe e))
                  None None)
               "chatbot")).

End RetrievalPath.

(* ===================================================================== *)
(** ** The orchestrator *)
(* ===================================================================== *)

(** The objects that outlive a request: the mode-configuration map, the
    map of in-memory histories, and the record of collaborator calls. *)
Record state := mk_state {
  settings_map : gmap string ChatModeSettings;
  history_dict : gmap string ChatMessageHistory.t;
  trace : list event
}.

(** [SessionChatHistory.get_chat_history]: the in-memory history of the
    session, created on first use. *)
Definition get_chat_history (session : string)
    (dict : gmap string ChatMessageHistory.t)
  : ChatMessageHistory.t * gmap string ChatMessageHistory.t :=
  match dict !! session with
  | None => (ChatMessageHistory.init, <[session := ChatMessageHistory.init]> dict)
  | Some h => (h, dict)
  end.

(** [create_neo4j_chat_message_history]: the durable wrapper when
    [write_access] holds, else the in-memory history; a fresh in-memory
    history when the constructor raises. *)
Definition create_neo4j_chat_message_history (W : World) (session : string)
    (write_access : bool) (st : state) : history * state :=
  if write_access then
    let tr := trace st ++ [OpenHistory session] in
    let st' := mk_state (settings_map st) (history_dict st) tr in
    match new_neo4j_history W session with
    | Ok neo => (Durable (SafeNeo4jChatMessageHistory.init neo session), st')
    | Raise _ => (Volatile ChatMessageHistory.init, st')
    end
  else
    let '(h, dict) := get_chat_history session (history_dict st) in
    (Volatile h, mk_state (settings_map st) dict (trace st)).

(** Truth value of a list. *)
Definition list_truthy {A} (l : list A) : bool :=
  match l with [] => false | _ => true end.

Definition advisory : string :=
  "Please deselect all documents in the table before using this chat mode".

Section Orchestrator.
Context `{Constants} `{Builtins} `{Sorting} `{JsonDecoder}.

(** [QA_RAG].  The list [messages] is the list object the handle holds
    (the wrapper's cache, or the message list of the in-memory
    history), so the appends also show in the handle, and for a request
    without write access in the history the session map holds.  The
    embedding passes [messages] by value and leaves the handle and the
    registered history as they were read: neither the envelope nor a
    property below reads the handle's list again, and none reads the
    session map after a request without write access. *)
Definition QA_RAG (W : World) (model question : string)
    (document_names : pyval) (session mode : string) (write_access : bool)
    (st : state) : outcome Envelope * state :=
  let '(h, st) := create_neo4j_chat_message_history W session write_access st in
  let '(h, messages) :=
    match history_messages h with
    | (Some messages, h) => (h, messages)
    | (None, _) => (Volatile ChatMessageHistory.init, [])
    end in
  let user_question := HumanMessage question in
  let messages := messages ++ [RawMessage user_question] in
  let '(result, st) :=
    if String.eqb mode CHAT_GRAPH_MODE then
      let '(result, evs) :=
        process_graph_response W model question messages h in
      (result, mk_state (settings_map st) (history_dict st) (trace st ++ evs))
    else
      match get_chat_mode_settings mode (settings_map st) with
      | Raise e => (Raise e, st)
      | Ok (_, chat_mode_settings, settings) =>
          let st := mk_state settings (history_dict st) (trace st) in
          match parse_document_names document_names with
          | Raise e => (Raise e, st)
          | Ok parsed_document_names =>
              if list_truthy parsed_document_names
                 && negb (document_filter chat_mode_settings)
              then
                match get_mode chat_mode_settings with
                | Raise e => (Raise e, st)
                | Ok m =>
                    (Ok (mk_envelope "" advisory
                           (mk_info (Some "") (Some (PyInt 0)) 0 m None
                              None None)
                           "chatbot"), st)
                end
              else
                let '(result, evs) :=
                  process_chat_response W messages h question model
                    parsed_document_names chat_mode_settings in
                (result,
                 mk_state (settings_map st) (history_dict st) (trace st ++ evs))
          end
      end in
  match result with
  | Ok result => (Ok (set_session_id session result), st)
  | Raise e => (Raise e, st)
  end.

End Orchestrator.


(* ===================================================================== *)
(** ** Environment configuration *)
(* ===================================================================== *)

(** [str.lower] on one code point below 256: the ASCII capitals and the
    Latin-1 capitals (all of 192..222 but the multiplication sign). *)
Definition lower_char (c : ascii) : ascii :=
  let n := N_of_ascii c in
  if ((65 <=? n) && (n <=? 90)
      || (192 <=? n) && (n <=? 222) && negb (n =? 215))%N
  then ascii_of_N (n + 32)
  else c.

Fixpoint lower (s : string) : string :=
  match s with
  | EmptyString => EmptyString
  | String c s' => String (lower_char c) (lower s')
  end.

(** [str(b)] for a [bool]. *)
Definition str_of_bool (b : bool) : string := if b then "True" else "False".

(** [backend/src/environment_config.py]. *)
Module EnvironmentConfig.

(** The file at [env_file_path] as [_load_environment] meets it: absent,
    failing to load, or holding variables. *)
Inductive dotenv_file :=
| NoFile
| Unreadable (e : exn)
| FileVars (vars : gmap string string).

(** The configuration object together with what it reads and writes:
    the process environment [os.environ] and the file. *)
Record t := mk {
  os_environ : gmap string string;
  env_file : dotenv_file;
  _loaded : bool
}.

(** [_load_environment]: [load_dotenv(..., override=False)] adds the
    variables of the file that the environment does not define; an
    exception leaves [_loaded] false. *)
Definition _load_environment (self : t) : t :=
  match env_file self with
  | NoFile => mk (os_environ self) NoFile true
  | Unreadable e => mk (os_environ self) (Unreadable e) false
  | FileVars vars => mk (os_environ self ∪ vars) (FileVars vars) true
  end.

(** [__init__] *)
Definition init (environ : gmap string string) (file : dotenv_file) : t :=
  _load_environment (mk environ file false).

Definition missing_required (key : string) : exn :=
  mk_exn ValueError
    ("Required environment variable '" +:+ key
     +:+ "' not found in system environment or .env file").

(** [get(key, default, required)]: the value returned or the exception,
    and the object afterwards. *)
Definition get (self : t) (key : string) (dflt : option string)
    (required : bool) : outcome (option string) * t :=
  match os_environ self !! key with
  | Some value => (Ok (Some value), self)
  | None =>
      let self := if _loaded self then self else _load_environment self in
      match os_environ self !! key with
      | Some value => (Ok (Some value), self)
      | None =>
          if required then (Raise (missing_required key), self)
          else (Ok dflt, self)
      end
  end.

(** [get_bool(key, default)]: the text is compared, in lower case, with
    the four words that mean true; a value that is no [str] goes
    through [bool]. *)
Definition get_bool (self : t) (key : string) (dflt : bool)
  : outcome bool * t :=
  match get self key (Some (str_of_bool dflt)) false with
  | (Ok (Some value), self) =>
      (Ok (existsb (String.eqb (lower value)) ["true"; "1"; "yes"; "on"]), self)
  | (Ok None, self) => (Ok false, self)
  | (Raise e, self) => (Raise e, self)
  end.

(** The loop of [validate_required_vars]: a [ValueError] of [get] puts
    the name on the list of missing variables. *)
Fixpoint validate_loop (self : t) (required_vars : list string)
    (missing_vars : list string) (validated_vars : list (string * option string))
  : outcome (list string * list (string * option string)) * t :=
  match required_vars with
  | [] => (Ok (missing_vars, validated_vars), self)
  | var :: rest =>
      match get self var None true with
      | (Ok value, self) =>
          validate_loop self rest missing_vars (assoc_set var value validated_vars)
      | (Raise e, self) =>
          if issubclass (exn_type e) ValueError
          then validate_loop self rest (missing_vars ++ [var]) validated_vars
          else (Raise e, self)
      end
  end.

Definition validate_required_vars (self : t) (required_vars : list string)
  : outcome (list (string * option string)) * t :=
  match validate_loop self required_vars [] [] with
  | (Raise e, self) => (Raise e, self)
  | (Ok (missing_vars, validated_vars), self) =>
      match missing_vars with
      | _ :: _ =>
          (Raise (mk_exn ValueError
                    ("Missing required environment variables: "
                     +:+ join ", " missing_vars)), self)
      | [] => (Ok validated_vars, self)
      end
  end.

End EnvironmentConfig.

(* ===================================================================== *)
(** ** Clearing a history *)
(* ===================================================================== *)

(** The dictionary [clear_chat_history] returns. *)
Record clear_reply := mk_clear_reply {
  reply_session_id : string;
  reply_message : string;
  reply_user : string
}.

(** [clear_chat_history(graph, session_id, local)]: the reply, the
    handle after the call (when one was obtained) and the state.  The
    in-memory history is the object the session map holds, so clearing
    it shows in the map. *)
Definition clear_chat_history (W : World) (session : string) (local : bool)
    (st : state) : clear_reply * option history * state :=
  let cleared :=
    mk_clear_reply session "The chat history has been cleared." "chatbot" in
  if negb local then
    let st' :=
      mk_state (settings_map st) (history_dict st)
        (trace st ++ [OpenHistory session]) in
    match new_neo4j_history W session with
    | Raise _ =>
        (mk_clear_reply session "Failed to clear chat history." "chatbot",
         None, st')
    | Ok neo =>
        let h :=
          SafeNeo4jChatMessageHistory.clear
            (SafeNeo4jChatMessageHistory.init neo session) in
        (cleared, Some (Durable h), st')
    end
  else
    let '(h, dict) := get_chat_history session (history_dict st) in
    let h := ChatMessageHistory.clear h in
    (cleared, Some (Volatile h),
     mk_state (settings_map st) (<[session := h]> dict) (trace st)).

(* ===================================================================== *)
(** ** The session operations on the graph store *)
(* ===================================================================== *)

(** Truth value of a Python value. *)
Definition py_truthy (v : pyval) : bool :=
  match v with
  | PyNone => false
  | PyBool b => b
  | PyInt z => negb (z =? 0)
  | PyFloat q => negb (bool_decide (q = 0%Qc))
  | PyStr s => str_truthy s
  | PyList l => list_truthy l
  | PyDict d => list_truthy d
  end.

(** A row of the listing query.  A timestamp is represented by its ISO
    text, [None] when the property is null. *)
Record session_row := mk_session_row {
  row_session_id : string;
  row_created_at : option string;
  row_updated_at : option string;
  row_message_count : Z
}.

(** A row of the messages query. *)
Record message_row := mk_message_row {
  row_message_type : option string;
  row_content : option string;
  row_additional_kwargs : pyval;
  row_message_created_at : option string
}.

(** [graph.query] on the five queries of the module: the rows each
    returns, or the exception. *)
Record GraphStore := mk_graph_store {
  query_sessions : Z -> Z -> outcome (list session_row);     (* limit, offset *)
  query_session_count : outcome (list Z);
  query_session : string -> outcome (list session_row);
  query_messages : string -> outcome (list message_row);
  query_delete : string -> outcome unit
}.

Record chat_history_entry := mk_chat_history_entry {
  entry_session_id : string;
  entry_created_at : option string;
  entry_updated_at : option string;
  entry_message_count : Z
}.

Record pagination := mk_pagination {
  total_count : Z;
  total_pages : Z;
  current_page : Z;
  page_limit : Z;
  page_offset : Z;
  has_next : bool;
  has_previous : bool
}.

(** The pagination block computed from the total, the limit and the
    offset; [//] is the division that rounds down. *)
Definition paginate (total limit offset : Z) : pagination :=
  mk_pagination total
    (if 0 <? limit then (total + limit - 1) / limit else 0)
    (if 0 <? limit then offset / limit + 1 else 1)
    limit offset
    (offset + limit <? total)
    (0 <? offset).

Definition entry_of_row (record : session_row) : chat_history_entry :=
  mk_chat_history_entry (row_session_id record) (row_created_at record)
    (row_updated_at record) (row_message_count record).

(** [get_chat_histories(graph, limit, offset)] *)
Definition get_chat_histories (graph : GraphStore) (limit offset : Z)
  : outcome (list chat_history_entry * pagination) :=
  let body : outcome (list chat_history_entry * pagination) :=
    result ← query_sessions graph limit offset;
    count_result ← query_session_count graph;
    let total_count :=
      match count_result with
      | total :: _ => total
      | [] => 0
      end in
    let chat_histories := map entry_of_row result in
    Ok (chat_histories, paginate total_count limit offset) in
  match body with
  | Ok response_data => Ok response_data
  | Raise e =>
      Raise (mk_exn ExceptionC
               ("Failed to retrieve chat histories: " +:+ exn_str e))
  end.

Record message_entry := mk_message_entry {
  entry_type : option string;
  entry_content : option string;
  entry_additional_kwargs : pyval;
  entry_message_created_at : option string
}.

Record session_detail := mk_session_detail {
  detail_session_id : string;
  detail_created_at : option string;
  detail_updated_at : option string;
  detail_message_count : Z;
  detail_messages : list message_entry
}.

(** [record["additional_kwargs"] if record["additional_kwargs"] else {}] *)
Definition entry_of_message_row (record : message_row) : message_entry :=
  mk_message_entry (row_message_type record) (row_content record)
    (if py_truthy (row_additional_kwargs record)
     then row_additional_kwargs record else PyDict [])
    (row_message_created_at record).

(** [get_chat_history_by_session_id(graph, session_id)]: the exception
    raised for a missing session is raised inside the [try] block and
    wrapped like any other. *)
Definition get_chat_history_by_session_id (graph : GraphStore)
    (session : string) : outcome session_detail :=
  let body : outcome session_detail :=
    session_result ← query_session graph session;
    match session_result with
    | [] =>
        Raise (mk_exn ExceptionC
                 ("Chat history not found for session: " +:+ session))
    | session_data :: _ =>
        messages_result ← query_messages graph session;
        let messages := map entry_of_message_row messages_result in
        Ok (mk_session_detail (row_session_id session_data)
              (row_created_at session_data) (row_updated_at session_data)
              (Z.of_nat (length messages)) messages)
    end in
  match body with
  | Ok response_data => Ok response_data
  | Raise e =>
      Raise (mk_exn ExceptionC
               ("Failed to retrieve chat history: " +:+ exn_str e))
  end.

Record delete_reply := mk_delete_reply {
  deleted_session_id : string;
  deleted_message : string;
  deleted : bool
}.

(** [delete_chat_history(graph, session_id)] *)
Definition delete_chat_history (graph : GraphStore) (session : string)
  : outcome delete_reply :=
  match query_delete graph session with
  | Ok _ => Ok (mk_delete_reply session "Chat history deleted successfully" true)
  | Raise e =>
      Raise (mk_exn ExceptionC ("Failed to delete chat history: " +:+ exn_str e))
  end.

(* ===================================================================== *)
(** ** Vocabulary of the further properties *)
(* ===================================================================== *)

(** The variables the file contributes. *)
Definition file_lookup (file : EnvironmentConfig.dotenv_file) (key : string)
  : option string :=
  match file with
  | EnvironmentConfig.FileVars vars => vars !! key
  | _ => None
  end.

(** The value a configuration built from a process environment and a
    file gives a key: the environment first, then the file. *)
Definition configured (environ : gmap string string)
    (file : EnvironmentConfig.dotenv_file) (key : string) : option string :=
  match environ !! key with
  | Some v => Some v
  | None => file_lookup file key
  end.

(** The environment a read of the object works on: the process
    environment, after the load the read triggers when the object has
    not loaded its file yet. *)
Definition effective (self : EnvironmentConfig.t) : gmap string string :=
  EnvironmentConfig.os_environ
    (if EnvironmentConfig._loaded self then self
     else EnvironmentConfig._load_environment self).

(** The four words [get_bool] reads as true. *)
Definition true_words : list string := ["true"; "1"; "yes"; "on"].

(** Truth of [o is not None]. *)
Definition is_some {A} (o : option A) : bool :=
  match o with Some _ => true | None => false end.

(** The required variables that neither the environment nor the file
    defines, in the order of the request. *)
Definition missing_of (self : EnvironmentConfig.t) (required_vars : list string)
  : list string :=
  List.filter (fun var => negb (is_some (effective self !! var))) required_vars.


(** The model name [setup_chat] asks the model factory for. *)
Definition chat_model (W : World) (model : string) : string :=
  if String.eqb model "diffbot"
  then get_env_var W "DEFAULT_DIFFBOT_CHAT_MODEL" "openai_gpt_4o"
  else model.

(** The exception [get_neo4j_retriever] raises for the cause [cause]. *)
Definition retriever_error `{Builtins} (chat_mode_settings : ChatModeSettings)
    (cause : string) : exn :=
  mk_exn ExceptionC
    ("An error occurred while retrieving the Neo4jVector index or creating the retriever. Please drop and create a new vector index '"
     +:+ index_name_text chat_mode_settings +:+ "': " +:+ cause).

(** The context block the answering prompt carries. *)
Definition context_of `{Constants} `{Builtins} `{Sorting}
    (docs : list Document) (model : string)
    (chat_mode_settings : ChatModeSettings) : outcome string :=
  '(formatted_docs, _, _, _) ← format_documents docs model chat_mode_settings;
  Ok formatted_docs.

(** The envelope of a turn answered from documents. *)
Definition answer `{Builtins} (model_version m : string) (reply : BaseMessage)
    (llm : LLM) : Envelope :=
  mk_envelope "" (msg_content reply)
    (mk_info (Some model_version) (Some (get_total_tokens reply llm)) 0 m
       None None None)
    "chatbot".

(** The filter [create_retriever] hands to the vector store. *)
Definition retriever_filter (document_names : list string)
    (chat_mode_settings : ChatModeSettings) : option (list string) :=
  match document_names with
  | _ :: _ =>
      if document_filter chat_mode_settings then Some document_names else None
  | [] => None
  end.

Definition starts_summarizer (ev : event) : bool :=
  match ev with StartSummarizer _ _ => true | _ => false end.

Definition invokes_model (ev : event) : bool :=
  match ev with InvokeLLM _ => true | _ => false end.

Definition opens_history (ev : event) : bool :=
  match ev with OpenHistory _ => true | _ => false end.

(** The events a request adds after it obtained its history. *)
Definition opening (session : string) (write_access : bool) : list event :=
  if write_access then [OpenHistory session] else [].

(** The last statements of [QA_RAG]: the session id is written into the
    envelope a responder returned. *)
Definition stamped (session : string) (r : outcome Envelope) : outcome Envelope :=
  match r with
  | Ok result => Ok (set_session_id session result)
  | Raise e => Raise e
  end.

(** The failure envelope of the graph path, once the model version is
    known. *)
Definition graph_failed (model_version : string) (e : exn) : Envelope :=
  mk_envelope "" "Something went wrong"
    (mk_info (Some model_version) None 0 "graph" (Some (describe e))
       (Some "") (Some (PyStr "")))
    "chatbot".

(** The envelope of an answered graph turn. *)
Definition graph_answer (model_version text : string) (res : cypher_result)
  : Envelope :=
  mk_envelope "" text
    (mk_info (Some model_version) None 0 "graph" None
       (Some (fst (scan_steps (intermediate_steps res))))
       (Some (snd (scan_steps (intermediate_steps res)))))
    "chatbot".

(** A text without a line feed. *)
Definition single_line (s : string) : bool :=
  all_chars (fun c => negb (Ascii.eqb c (ascii_of_nat 10))) s.

(** The values of JSON that are no array, object or string. *)
Definition is_scalar (v : pyval) : bool :=
  match v with
  | PyNone | PyBool _ | PyInt _ | PyFloat _ => true
  | _ => false
  end.
(* ===================================================================== *)
(** ** Vocabulary of the properties *)
(* ===================================================================== *)

(** The role of a stored record: [None] itself and a bare [str] have
    none, a message object has the value of its [type]. *)
Definition role (r : raw_record) : option string :=
  match r with
  | RawMessage m => msg_type m
  | _ => None
  end.

(** A record is well formed when its role resolves. *)
Definition well_formed (r : raw_record) : bool :=
  match role r with Some _ => true | None => false end.

Fixpoint count_if {A} (p : A -> bool) (l : list A) : nat :=
  match l with
  | [] => O
  | a :: l' => if p a then S (count_if p l') else count_if p l'
  end.

(** Reading the raw records raises: the attribute read itself, or the
    iteration over its value. *)
Definition read_raises (neo : Neo4jChatMessageHistory) : Prop :=
  (exists e, neo_messages_attr neo = AttrRaises e) \/
  (exists items e, neo_messages_attr neo = AttrValue (mk_iterable items (Some e))).

(** The reading of C4 in the specification: the view of a wrapper built
    on a library object is made of the well-formed records of the
    sequence the session stores. *)
Definition view_of_stored_records : Prop :=
  forall neo session,
    Exists (fun r => well_formed r = false) (neo_stored neo) ->
    exists view,
      fst (SafeNeo4jChatMessageHistory.messages
             (SafeNeo4jChatMessageHistory.init neo session)) = Some view /\
      length view = count_if well_formed (neo_stored neo).

(** The filter values the specification lists as normalized to the
    empty list: [None], a blank text (the empty text included), the
    texts [null] and [[]], a text the decoder rejects, and every value
    that is not a [str]. *)
Inductive unusable_filter `{JsonDecoder} : pyval -> Prop :=
| unusable_None : unusable_filter PyNone
| unusable_blank s : strip s = "" -> unusable_filter (PyStr s)
| unusable_null : unusable_filter (PyStr "null")
| unusable_empty_array : unusable_filter (PyStr "[]")
| unusable_malformed s msg :
    json_loads s = Raise (mk_exn JSONDecodeError msg) ->
    unusable_filter (PyStr s)
| unusable_not_str v : is_str v = false -> unusable_filter v.

(** A text that decodes to an array of the strings [names]. *)
Definition json_array_of_strings `{JsonDecoder} (d : pyval)
    (names : list string) : Prop :=
  exists s, d = PyStr s /\ json_loads s = Ok (PyList (map PyStr names)).

(** The reading of C8 in the specification: no resolution changes the
    shared map. *)
Definition settings_never_mutated `{Constants} : Prop :=
  forall mode settings_map key chat_mode_settings settings_map',
    get_chat_mode_settings mode settings_map
    = Ok (key, chat_mode_settings, settings_map') ->
    settings_map' = settings_map.

(** A key that [<] orders against the others: a number or an
    infinity. *)
Definition ordered (a : py_score) : bool :=
  match a with
  | ScoreNumber _ | ScoreInfinity _ => true
  | ScoreNaN | ScoreNone => false
  end.

(** [a <= b] on ordered keys. *)
Definition score_le (a b : py_score) : bool :=
  match a, b with
  | ScoreNumber x, ScoreNumber y => bool_decide (x <= y)%Qc
  | ScoreInfinity false, (ScoreNumber _ | ScoreInfinity _) => true
  | (ScoreNumber _ | ScoreInfinity true), ScoreInfinity true => true
  | _, _ => false
  end.

(** Descending order of the similarity score. *)
Definition score_ge (a b : Document) : Prop :=
  score_le (sort_key b) (sort_key a) = true.

(** The documents of one score, in the order they have in [l]. *)
Definition with_score (k : py_score) (l : list Document) : list Document :=
  List.filter (fun d => bool_decide (sort_key d = k)) l.

(** The source a document is tagged with in the context block. *)
Definition source_of (doc : Document) : pyval :=
  default (PyStr "unknown") (assoc_get "source" (metadata doc)).

(** An entry of [communitydetails] whose [id] can be read and put
    into a set. *)
Definition identified (entry : pyval) : bool :=
  match py_getitem entry "id" with
  | Ok i => hashable i
  | Raise _ => false
  end.

(** A document the loop of [format_documents] formats, none of the
    statements of the loop body raising on it: its source can be put
    into a set, its [entities], when it has the key, are read without
    an exception, and its [communitydetails], when it has the key, is
    an iterable of identified entries. *)
Definition formats `{Constants} (chat_mode_settings : ChatModeSettings)
    (doc : Document) : bool :=
  hashable (source_of doc)
  && match assoc_get "entities" (metadata doc) with
     | None => true
     | Some meta =>
         match snd (collect_entities chat_mode_settings meta []) with
         | None => true
         | Some _ => false
         end
     end
  && match assoc_get "communitydetails" (metadata doc) with
     | None => true
     | Some details =>
         match py_iter details with
         | Ok entries => forallb identified entries
         | Raise _ => false
         end
     end.

(** The reading of C9 in the specification: whatever the scores of the
    documents, those selected are the input documents in descending
    order of the score, cut at the cutoff of the model. *)
Definition always_sorted_and_truncated `{Constants} `{Sorting} : Prop :=
  forall documents model,
    exists ranked,
      ranked ≡ₚ documents /\
      StronglySorted score_ge ranked /\
      sorted_documents documents model
      = Ok (take (Z.to_nat (prompt_token_cutoff model)) ranked).

(** A document with a source that can be put into a set and with
    neither [entities] nor [communitydetails] in its metadata. *)
Definition plain (doc : Document) : bool :=
  hashable (source_of doc)
  && match assoc_get "entities" (metadata doc) with
     | None => true
     | Some _ => false
     end
  && match assoc_get "communitydetails" (metadata doc) with
     | None => true
     | Some _ => false
     end.

(** The block of the context that stands for a document. *)
Definition block `{Builtins} (doc : Document) : string :=
  format_doc (source_of doc) doc.

(** The call that starts the retrieval pipeline. *)
Definition invokes_retriever (ev : event) : bool :=
  match ev with InvokeRetriever _ => true | _ => false end.

(** The calls an execution added to the record. *)
Definition new_calls (before after : state) : list event :=
  drop (length (trace before)) (trace after).

(** The degraded envelope of a turn whose retrieval found nothing. *)
Definition degraded (model_version m : string) : Envelope :=
  mk_envelope "" no_documents
    (mk_info (Some model_version) (Some (PyInt 0)) 0 m None None None)
    "chatbot".

(** The failure envelope of the retrieval path. *)
Definition failure (m : string) (e : exn) : Envelope :=
  mk_envelope "" "Something went wrong"
    (mk_info None (Some (PyInt 0)) 0 m (Some (describe e)) None None)
    "chatbot".

Definition summarization_prompt (stored_messages : list raw_record)
  : list raw_record :=
  stored_messages ++ [RawMessage (HumanMessage summarization_instruction)].

(* ===================================================================== *)
(** ** Sample data *)
(* ===================================================================== *)

(** The objects the examples below run on: a decoder-independent set of
    built-ins and constants, a stored session, a mode-configuration map,
    candidate documents and three sets of collaborators. *)

(** Sample built-ins: [str] of a value that is not a [str] is a
    placeholder, [int] accepts [int] and [bool]. *)
#[local] Instance sample_builtins : Builtins := {|
  py_str v := match v with PyStr s => s | PyNone => "None" | _ => "<value>" end;
  py_str_str := fun _ => eq_refl;
  py_int v := match v with
              | PyInt z => Ok z
              | PyBool b => Ok (if b then 1 else 0)
              | _ => Raise (mk_exn TypeError "int() argument")
              end;
  py_int_int := fun _ => eq_refl
|}.

(** Sample constants, with the table of cut-offs in the three shapes of
    key the lookup meets. *)
#[local] Instance sample_constants : Constants := {|
  CHAT_GRAPH_MODE := "graph";
  CHAT_DEFAULT_MODE := "graph_vector_fulltext";
  CHAT_ENTITY_VECTOR_MODE := "entity_vector";
  CHAT_TOKEN_CUT_OFF :=
    [(NamesTuple ["openai_gpt_3.5"; "gemini_1.5_pro"], 4);
     (NamesTuple ["diffbot"; "openai_gpt_4o"], 28);
     (NamesStr "ollama_llama3", 2)];
  CHAT_SYSTEM_TEMPLATE := fun context => "Answer from the context. " +:+ context;
  CHAT_SEARCH_KWARG_SCORE_THRESHOLD := 0%Qc
|}.

(** Sample answers of the built-in sort: no example below sorts a NaN
    key or compares with [None]. *)
#[local] Instance sample_sorting : Sorting := {|
  sorted_with_nan := fun documents => documents;
  sorted_with_nan_perm := fun documents => Permutation_refl documents;
  sorted_type_error := fun _ =>
    "'<' not supported between instances of 'NoneType' and 'float'"
|}.

Definition dquote : string := String (ascii_of_nat 34) EmptyString.

(** Two file names, the second padded with spaces, as a JSON text. *)
Definition two_names_json : string :=
  "[" +:+ dquote +:+ "a.pdf" +:+ dquote +:+ ", "
  +:+ dquote +:+ "  b.pdf " +:+ dquote +:+ "]".

Definition sample_raw : list raw_record :=
  [RawNone;
   RawMessage (HumanMessage "hi");
   RawStr "invalid_message";
   RawMessage (mk_message None "lost role" (PyDict []));
   RawMessage (AIMessage "hello")].

Definition sample_neo : Neo4jChatMessageHistory :=
  mk_neo4j_history sample_raw (AttrValue (mk_iterable sample_raw None))
    (Raise (mk_exn ValueError "Got unexpected message type: None")) None None.

(** A library object whose records cannot be read. *)
Definition broken_neo : Neo4jChatMessageHistory :=
  mk_neo4j_history []
    (AttrRaises (mk_exn (OtherError "ServiceUnavailable") "store unreachable"))
    (Raise (mk_exn (OtherError "ServiceUnavailable") "store unreachable"))
    None None.

(** A library object that stores the records of the session and has no
    attribute [_messages]; its own property fails on the malformed
    records. *)
Definition detached_neo : Neo4jChatMessageHistory :=
  mk_neo4j_history sample_raw AttrMissing
    (Raise (mk_exn ValueError "Got unexpected message type: None")) None None.

Definition sample_reply (text : string) : BaseMessage :=
  mk_message (Some "ai") text
    (PyDict [("token_usage", PyDict [("total_tokens", PyInt 42)])]).

Definition sample_llm : LLM :=
  mk_llm ChatOpenAI (fun _ => Ok (sample_reply "answer")).

(** A durable session that stores one exchange. *)
Definition stored_exchange : list raw_record :=
  [RawMessage (HumanMessage "hi"); RawMessage (AIMessage "hello")].

Definition durable_session : history :=
  Durable (SafeNeo4jChatMessageHistory.init
             (mk_neo4j_history stored_exchange
                (AttrValue (mk_iterable stored_exchange None))
                (Ok stored_exchange) None None)
             "s1").

Definition vector_settings : ChatModeSettings :=
  mk_settings (Some "RETURN text") (Some "vector") None (Some "Chunk")
    (Some "embedding") ["text"] 5 true None.

Definition entity_settings : ChatModeSettings :=
  mk_settings (Some "RETURN entities") (Some "entity_vector") None
    (Some "__Entity__") (Some "embedding") ["id"] 10 false None.

Definition fulltext_settings : ChatModeSettings :=
  mk_settings (Some "RETURN text") (Some "vector") (Some "keyword")
    (Some "Chunk") (Some "embedding") ["text"] 5 true None.

Definition sample_settings_map : gmap string ChatModeSettings :=
  <["vector" := vector_settings]>
    (<["entity_vector" := entity_settings]>
       (<["graph_vector_fulltext" := fulltext_settings]> ∅)).

Definition sample_doc (text : string) (score : Q) : Document :=
  mk_document text [("source", PyStr "a.pdf")]
    (Some (ScoreNumber (Q2Qc score))).

(** Three candidates; the last two share the highest score. *)
Definition sample_documents : list Document :=
  [sample_doc "one" (1 # 5); sample_doc "two" (9 # 10);
   sample_doc "three" (9 # 10)].

(** Two documents whose scores the sort cannot order: one holds NaN,
    one holds [None]. *)
Definition nan_doc : Document :=
  mk_document "void" [("source", PyStr "a.pdf")] (Some ScoreNaN).

Definition unscored_doc : Document :=
  mk_document "blank" [("source", PyStr "a.pdf")] (Some ScoreNone).

Definition sample_graph_chain : GraphCypherQAChain :=
  mk_graph_chain (fun _ =>
    Ok (mk_cypher_result (Some "42")
          [mk_step (Some ("cypher" +:+ nl +:+ "MATCH (n)" +:+ nl +:+ "RETURN n "))
             None;
           mk_step None (Some (PyList []))])).

Definition sample_retriever : DocRetriever :=
  mk_doc_retriever (fun _ => Ok sample_documents).

Definition failing_retriever : DocRetriever :=
  mk_doc_retriever (fun _ =>
    Raise (mk_exn (OtherError "ServiceUnavailable") "index unreachable")).

(** Every collaborator answers. *)
Definition sample_world : World :=
  mk_world ∅ (fun _ => Ok sample_neo) (fun m => Ok (sample_llm, m))
    (Ok sample_graph_chain) (fun _ _ => Ok ()) (Ok ()) (Ok sample_retriever).

(** The retrieval pipeline raises when it is invoked. *)
Definition world_without_index : World :=
  mk_world ∅ (fun _ => Ok sample_neo) (fun m => Ok (sample_llm, m))
    (Ok sample_graph_chain) (fun _ _ => Ok ()) (Ok ()) (Ok failing_retriever).

(** No chat model can be obtained. *)
Definition world_without_model : World :=
  mk_world ∅ (fun _ => Ok sample_neo)
    (fun _ => Raise (mk_exn ValueError "unsupported model"))
    (Ok sample_graph_chain) (fun _ _ => Ok ()) (Ok ()) (Ok sample_retriever).

Definition sample_state : state := mk_state sample_settings_map ∅ [].


(* ===================================================================== *)
(** ** Further sample data *)
(* ===================================================================== *)

(** A process environment with an API key, and a file that defines the
    store address and, once more, the API key. *)
Definition sample_environ : gmap string string :=
  <["OPENAI_API_KEY" := "sk-system"]> ∅.

Definition sample_env_file : EnvironmentConfig.dotenv_file :=
  EnvironmentConfig.FileVars
    (<["OPENAI_API_KEY" := "sk-file"]>
       (<["NEO4J_URI" := "neo4j://db:7687"]> ∅)).

Definition sample_config : EnvironmentConfig.t :=
  EnvironmentConfig.init sample_environ sample_env_file.


(** A mode configuration that names no index. *)
Definition incomplete_settings : ChatModeSettings :=
  mk_settings (Some "RETURN text") None None (Some "Chunk")
    (Some "embedding") ["text"] 5 true (Some "vector").

Definition sample_turn : list raw_record :=
  stored_exchange ++ [RawMessage (HumanMessage "What is X?")].

(** A store with three sessions, listed two to a page. *)
Definition sample_rows : list session_row :=
  [mk_session_row "s1" (Some "2024-05-01T10:00:00") (Some "2024-05-02T10:00:00") 4;
   mk_session_row "s2" None None 0].

Definition sample_store : GraphStore :=
  mk_graph_store (fun _ _ => Ok sample_rows) (Ok [3])
    (fun s => if String.eqb s "s1" then Ok (take 1 sample_rows) else Ok [])
    (fun _ => Ok [mk_message_row (Some "human") (Some "hi") PyNone None;
                  mk_message_row (Some "ai") (Some "hello")
                    (PyDict [("k", PyInt 1)]) (Some "2024-05-01T10:00:01")])
    (fun _ => Ok ()).

(** A JSON text that holds one string, and a text of a thousand opening
    brackets, nested too deep for the decoder. *)
Definition quoted_name : string := dquote +:+ "a b" +:+ dquote.

Definition deep_text : string :=
  string_of_list_ascii (List.repeat "["%char 1000).

(** The sample decoder, extended by these two texts: the first decodes
    to a string; on the second the decoder of the standard library
    exceeds the recursion limit and raises [RecursionError]. *)
Definition wider_loads (s : string) : outcome pyval :=
  if String.eqb s quoted_name then Ok (PyStr "a b")
  else if String.eqb s deep_text
       then Raise (mk_exn RecursionError
                     "maximum recursion depth exceeded while decoding a JSON array from a unicode string")
       else SampleJson.loads s.

(* ===================================================================== *)
(** * Properties *)
(* ===================================================================== *)

(** ** The exception monad *)

Lemma bind_Ok {A B} (a : A) (f : A -> outcome B) : (Ok a ≫= f) = f a.
Proof. reflexivity. Qed.

Lemma bind_Raise {A B} (e : exn) (f : A -> outcome B) :
  (Raise e ≫= f) = Raise e.
Proof. reflexivity. Qed.

(** ** Strings and the sample decoder *)

Lemma rstrip_empty_all_space (s : string) :
  rstrip s = "" -> all_chars isspace s = true.
Proof.
  induction s as [|c s IH]; simpl; [reflexivity|].
  destruct (rstrip s) eqn:Hr.
  - destruct (isspace c); [intros _; simpl; now apply IH | discriminate].
  - discriminate.
Qed.

Lemma lstrip_all_space (s : string) :
  all_chars isspace (lstrip s) = true -> all_chars isspace s = true.
Proof.
  induction s as [|c s IH]; simpl; [reflexivity|].
  destruct (isspace c) eqn:Hc; simpl.
  - exact IH.
  - rewrite Hc. simpl. discriminate.
Qed.

Lemma strip_empty_all_space (s : string) :
  strip s = "" -> all_chars isspace s = true.
Proof.
  intros Hs. apply lstrip_all_space, rstrip_empty_all_space, Hs.
Qed.

Lemma all_space_strip_empty (s : string) :
  all_chars isspace s = true -> strip s = "".
Proof.
  unfold strip. induction s as [|c s IH]; simpl; [reflexivity|].
  intros Hc. apply andb_prop in Hc as [Hc Hs]. rewrite Hc. now apply IH.
Qed.

Lemma sample_scan_blank (s : string) :
  all_chars isspace s = true -> SampleJson.scan SampleJson.AtStart [] s = None.
Proof.
  induction s as [|c s IH]; simpl; [reflexivity|].
  intros Hc. apply andb_prop in Hc as [Hc Hs].
  destruct (SampleJson.json_ws c); [now apply IH|].
  destruct (Ascii.eqb c "[") eqn:E1.
  { apply Ascii.eqb_eq in E1. subst c. discriminate Hc. }
  destruct (Ascii.eqb c "n") eqn:E2.
  { apply Ascii.eqb_eq in E2. subst c. discriminate Hc. }
  reflexivity.
Qed.

Lemma sample_loads_blank (s : string) :
  strip s = "" ->
  exists msg, SampleJson.loads s = Raise (mk_exn JSONDecodeError msg).
Proof.
  intros Hs. unfold SampleJson.loads.
  rewrite sample_scan_blank by now apply strip_empty_all_space.
  eexists. reflexivity.
Qed.

(** The sample decoder meets the decoder interface. *)
#[local] Instance sample_decoder : JsonDecoder := {|
  json_loads := SampleJson.loads;
  json_loads_empty_array := eq_refl;
  json_loads_null := eq_refl;
  json_loads_blank := sample_loads_blank
|}.

Lemma wider_loads_blank (s : string) :
  strip s = "" ->
  exists msg, wider_loads s = Raise (mk_exn JSONDecodeError msg).
Proof.
  intros Hs. unfold wider_loads.
  destruct (String.eqb s quoted_name) eqn:E1.
  { apply String.eqb_eq in E1. subst s. vm_compute in Hs. discriminate Hs. }
  destruct (String.eqb s deep_text) eqn:E2.
  { apply String.eqb_eq in E2. subst s. vm_compute in Hs. discriminate Hs. }
  now apply sample_loads_blank.
Qed.

(** The wider decoder meets the decoder interface. *)
#[local] Instance wider_decoder : JsonDecoder | 100 := {|
  json_loads := wider_loads;
  json_loads_empty_array := eq_refl;
  json_loads_null := eq_refl;
  json_loads_blank := wider_loads_blank
|}.

(** ** The document-name filter *)

Lemma mapM_str_strip (names : list string) :
  mapM str_strip (map PyStr names) = Ok (map strip names).
Proof.
  induction names as [|n names IH]; simpl; [reflexivity|].
  now rewrite IH.
Qed.

Section DocumentNamesFacts.
Context `{JsonDecoder}.

Lemma parse_default : forall d,
  default_document_names d = "[]" -> parse_document_names d = Ok [].
Proof.
  intros d Hd. unfold parse_document_names. rewrite Hd.
  rewrite json_loads_empty_array. reflexivity.
Qed.

(** What the normalization does achieve: [None], an empty or blank
    text, ["null"], ["[]"], a text the decoder rejects with
    [JSONDecodeError] and a value that is not a text are normalized to
    the empty list and nothing is raised; a text that decodes to an
    array of strings is normalized to that array with each element
    stripped. *)
Lemma document_names_normalized (d : pyval) :
  (unusable_filter d -> parse_document_names d = Ok []) /\
  (forall names, json_array_of_strings d names ->
     parse_document_names d = Ok (map strip names)).
Proof.
  split.
  - intros Hd. destruct Hd as [|s Hs| | |s msg Hs|v Hv].
    + now apply parse_default.
    + apply parse_default. simpl. now rewrite Hs.
    + unfold parse_document_names. simpl.
      rewrite json_loads_null. reflexivity.
    + now apply parse_default.
    + destruct (str_truthy (strip s)) eqn:Hb.
      * unfold parse_document_names. simpl. rewrite Hb, Hs. reflexivity.
      * apply parse_default. simpl. now rewrite Hb.
    + apply parse_default. destruct v; try reflexivity. discriminate Hv.
  - intros names (s & -> & Hs).
    assert (Hb : str_truthy (strip s) = true).
    { destruct (strip s) eqn:Hstrip; [|reflexivity].
      destruct (json_loads_blank s Hstrip) as [msg Hmsg]. congruence. }
    unfold parse_document_names. simpl. rewrite Hb, Hs. simpl.
    unfold list_map_str_strip. simpl. now rewrite mapM_str_strip.
Qed.

End DocumentNamesFacts.

Lemma document_names_normalized_sample :
  parse_document_names (PyStr "not json") = Ok [] /\
  parse_document_names (PyStr two_names_json) = Ok ["a.pdf"; "b.pdf"].
Proof.
  split.
  - apply (proj1 (document_names_normalized (PyStr "not json"))).
    apply (unusable_malformed "not json" "Expecting value"). reflexivity.
  - apply (proj2 (document_names_normalized (PyStr two_names_json))
             ["a.pdf"; "  b.pdf "]).
    exists two_names_json. split; reflexivity.
Qed.

(** C2, on a malformed text the decoder does not reject with
    [JSONDecodeError].  A text of a thousand opening brackets is no
    JSON document; decoding it exceeds the recursion limit, the
    [RecursionError] is none of the three classes the handler of the
    normalization lists, and it leaves [QA_RAG]. *)
Theorem malformed_filter_escapes :
  fst (@QA_RAG sample_constants sample_builtins sample_sorting wider_decoder
         sample_world "openai_gpt_4o" "What is X?" (PyStr deep_text)
         "s1" "vector" true sample_state)
  = Raise (mk_exn RecursionError
             "maximum recursion depth exceeded while decoding a JSON array from a unicode string").
Proof. vm_compute. reflexivity. Qed.

(** ** The validated view of the durable history *)

Lemma keep_truthy_typed_well_formed (r : raw_record) :
  keep_truthy_typed r = well_formed r.
Proof.
  destruct r as [|s|m]; unfold keep_truthy_typed, well_formed; simpl.
  - reflexivity.
  - now rewrite andb_false_r.
  - now destruct (msg_type m).
Qed.

Lemma validation_fold (keep : raw_record -> bool) (l acc : list raw_record) :
  fold_left (fun valid message =>
               if keep message then valid ++ [message] else valid) l acc
  = acc ++ List.filter keep l.
Proof.
  revert acc. induction l as [|r l IH]; intros acc; simpl.
  - now rewrite app_nil_r.
  - rewrite IH. destruct (keep r); [|reflexivity].
    now rewrite <- app_assoc.
Qed.

Lemma validation_loop_ok (keep : raw_record -> bool) (l : list raw_record) :
  validation_loop keep (mk_iterable l None) = Ok (List.filter keep l).
Proof. unfold validation_loop. simpl. now rewrite validation_fold. Qed.

Lemma filter_ext_bool {A} (p q : A -> bool) (l : list A) :
  (forall a, p a = q a) -> List.filter p l = List.filter q l.
Proof.
  intros Hpq. induction l as [|a l IH]; simpl; [reflexivity|].
  now rewrite Hpq, IH.
Qed.

Lemma filter_length_count {A} (p : A -> bool) (l : list A) :
  length (List.filter p l) = count_if p l.
Proof.
  induction l as [|a l IH]; simpl; [reflexivity|].
  destruct (p a); simpl; now rewrite IH.
Qed.

Lemma filter_sublist {A} (p : A -> bool) (l : list A) :
  sublist (List.filter p l) l.
Proof.
  induction l as [|a l IH]; simpl; [constructor|].
  destruct (p a); now constructor.
Qed.

Lemma filter_all {A} (p : A -> bool) (l : list A) :
  Forall (fun a => p a = true) (List.filter p l).
Proof.
  induction l as [|a l IH]; simpl; [constructor|].
  destruct (p a) eqn:Hp; [constructor|]; assumption.
Qed.

Lemma raw_messages_of_value (neo : Neo4jChatMessageHistory)
    (it : iterable raw_record) :
  neo_messages_attr neo = AttrValue it ->
  SafeNeo4jChatMessageHistory.raw_messages_of neo = Ok it.
Proof.
  intros Hattr. unfold SafeNeo4jChatMessageHistory.raw_messages_of.
  now rewrite Hattr.
Qed.

(** Whatever the library object does, an unvalidated wrapper answers
    with a list. *)
Lemma messages_unvalidated (self : SafeNeo4jChatMessageHistory.t) :
  SafeNeo4jChatMessageHistory._messages_validated self = false ->
  exists view, fst (SafeNeo4jChatMessageHistory.messages self) = Some view.
Proof.
  intros Hv.
  unfold SafeNeo4jChatMessageHistory.messages,
    SafeNeo4jChatMessageHistory._validate_and_cache_messages.
  rewrite Hv.
  destruct (_ ← _; _) as [valid|e]; simpl; eauto.
Qed.

Lemma messages_read_raises (self : SafeNeo4jChatMessageHistory.t) :
  SafeNeo4jChatMessageHistory._messages_validated self = false ->
  read_raises (SafeNeo4jChatMessageHistory.neo4j_history self) ->
  fst (SafeNeo4jChatMessageHistory.messages self) = Some [].
Proof.
  intros Hv Hr.
  unfold SafeNeo4jChatMessageHistory.messages,
    SafeNeo4jChatMessageHistory._validate_and_cache_messages,
    SafeNeo4jChatMessageHistory.raw_messages_of.
  rewrite Hv.
  destruct Hr as [[e He]|(items & e & He)]; rewrite He; simpl.
  - destruct (exn_type e); reflexivity.
  - reflexivity.
Qed.

Lemma messages_attr_missing (self : SafeNeo4jChatMessageHistory.t) :
  SafeNeo4jChatMessageHistory._messages_validated self = false ->
  neo_messages_attr (SafeNeo4jChatMessageHistory.neo4j_history self)
  = AttrMissing ->
  fst (SafeNeo4jChatMessageHistory.messages self) = Some [].
Proof.
  intros Hv Hattr.
  unfold SafeNeo4jChatMessageHistory.messages,
    SafeNeo4jChatMessageHistory._validate_and_cache_messages,
    SafeNeo4jChatMessageHistory.raw_messages_of.
  now rewrite Hv, Hattr.
Qed.

(** C4, as amended.  The wrapper reads the records from the attribute
    [_messages] of the library object, not from the store.  For a
    wrapper that has not validated yet and records [raw] held by that
    attribute (with or without malformed entries), the validated view
    is the list of the well-formed entries of [raw]: its length is
    their number, it keeps their relative order, and it holds no
    malformed entry; the cleaning function applied to the library
    object gives the same list.  When the library object has no such
    attribute, the view is the empty list, whatever the session stores.
    When reading the records raises, the view is the empty list and
    nothing propagates. *)
Theorem validated_view (self : SafeNeo4jChatMessageHistory.t)
    (raw : list raw_record) :
  SafeNeo4jChatMessageHistory._messages_validated self = false ->
  let neo := SafeNeo4jChatMessageHistory.neo4j_history self in
  (neo_messages_attr neo = AttrValue (mk_iterable raw None) ->
   exists view,
     fst (SafeNeo4jChatMessageHistory.messages self) = Some view /\
     validate_and_clean_messages (OfNeo4j neo) = view /\
     view = List.filter well_formed raw /\
     length view = count_if well_formed raw /\
     sublist view raw /\
     Forall (fun r => well_formed r = true) view) /\
  (neo_messages_attr neo = AttrMissing ->
   fst (SafeNeo4jChatMessageHistory.messages self) = Some []) /\
  (read_raises neo ->
   fst (SafeNeo4jChatMessageHistory.messages self) = Some []).
Proof.
  intros Hv neo. split; [|split].
  - intros Hattr. exists (List.filter well_formed raw).
    assert (Hloop : validation_loop keep_truthy_typed (mk_iterable raw None)
                    = Ok (List.filter well_formed raw)).
    { rewrite validation_loop_ok. f_equal.
      apply filter_ext_bool, keep_truthy_typed_well_formed. }
    repeat split.
    + unfold SafeNeo4jChatMessageHistory.messages,
        SafeNeo4jChatMessageHistory._validate_and_cache_messages.
      rewrite Hv. fold neo. rewrite (raw_messages_of_value neo _ Hattr).
      rewrite bind_Ok, Hloop. reflexivity.
    + unfold validate_and_clean_messages. rewrite Hattr.
      unfold hasattr, getattr. rewrite !bind_Ok, Hloop. reflexivity.
    + apply filter_length_count.
    + apply filter_sublist.
    + apply filter_all.
  - now apply messages_attr_missing.
  - now apply messages_read_raises.
Qed.

(** *** On a stored session with malformed records *)

Lemma validated_view_witness :
  (exists view,
     fst (SafeNeo4jChatMessageHistory.messages
            (SafeNeo4jChatMessageHistory.init sample_neo "s1")) = Some view /\
     view = [RawMessage (HumanMessage "hi"); RawMessage (AIMessage "hello")] /\
     length view = 2%nat) /\
  fst (SafeNeo4jChatMessageHistory.messages
         (SafeNeo4jChatMessageHistory.init detached_neo "s1")) = Some [] /\
  fst (SafeNeo4jChatMessageHistory.messages
         (SafeNeo4jChatMessageHistory.init broken_neo "s1")) = Some [].
Proof.
  split; [|split].
  - destruct (proj1 (validated_view
                       (SafeNeo4jChatMessageHistory.init sample_neo "s1")
                       sample_raw eq_refl) eq_refl)
      as (view & Hm & _ & Hview & Hlen & _).
    exists view. repeat split; [exact Hm | exact Hview | exact Hlen].
  - apply (proj1 (proj2 (validated_view
                    (SafeNeo4jChatMessageHistory.init detached_neo "s1")
                    [] eq_refl))).
    reflexivity.
  - apply (proj2 (proj2 (validated_view
                    (SafeNeo4jChatMessageHistory.init broken_neo "s1")
                    [] eq_refl))).
    left. eexists. reflexivity.
Defined.

(** The claim as the specification states it, over the records the
    session stores, fails: a library object that stores two well-formed
    records among malformed ones and has no attribute [_messages] gives
    the empty view. *)
Lemma stored_records_not_viewed :
  ~ view_of_stored_records /\
  neo_stored detached_neo = sample_raw /\
  count_if well_formed (neo_stored detached_neo) = 2%nat /\
  fst (SafeNeo4jChatMessageHistory.messages
         (SafeNeo4jChatMessageHistory.init detached_neo "s1")) = Some [].
Proof.
  split; [|repeat split].
  intros Hview.
  destruct (Hview detached_neo "s1") as (view & Hread & Hlen).
  - apply Exists_cons_hd. reflexivity.
  - vm_compute in Hread. injection Hread as <-. discriminate Hlen.
Qed.

(** ** The summarizer *)

(** C7.  On an empty message sequence the summarizer returns false,
    leaves the history as it is and calls nothing: no clear, no append,
    no model call. *)
Theorem summarize_empty (h : history) (llm : LLM) :
  summarize_and_log h [] llm = (false, h, []).
Proof. reflexivity. Qed.

(** On the in-memory history a successful model call replaces the
    sequence by the marker and the summary. *)
Lemma summarize_volatile (c : ChatMessageHistory.t)
    (stored_messages : list raw_record) (llm : LLM) (summary : BaseMessage) :
  stored_messages <> [] ->
  llm_invoke llm (summarization_prompt stored_messages) = Ok summary ->
  summarize_and_log (Volatile c) stored_messages llm
  = (true,
     Volatile (ChatMessageHistory.mk
                 [RawMessage (HumanMessage summary_marker); RawMessage summary]),
     [InvokeLLM (summarization_prompt stored_messages)]).
Proof.
  intros Hne Hllm. unfold summarize_and_log.
  destruct stored_messages as [|r l]; [congruence|].
  fold (summarization_prompt (r :: l)). rewrite Hllm. reflexivity.
Qed.

(** On the durable wrapper the same call clears the store and then
    fails on the missing method [add_user_message]: the summarizer
    returns false and the history stays cleared. *)
Lemma summarize_durable (w : SafeNeo4jChatMessageHistory.t)
    (stored_messages : list raw_record) (llm : LLM) (summary : BaseMessage) :
  stored_messages <> [] ->
  llm_invoke llm (summarization_prompt stored_messages) = Ok summary ->
  summarize_and_log (Durable w) stored_messages llm
  = (false, Durable (SafeNeo4jChatMessageHistory.clear w),
     [InvokeLLM (summarization_prompt stored_messages)]).
Proof.
  intros Hne Hllm. unfold summarize_and_log.
  destruct stored_messages as [|r l]; [congruence|].
  fold (summarization_prompt (r :: l)). rewrite Hllm. reflexivity.
Qed.

(** C6, on the durable handle.  The model call succeeds on a sequence
    of two messages, yet the summarizer returns false and the store
    holds no message afterwards instead of the marker and the
    summary. *)
Theorem summarize_durable_session :
  let '(ok, h, calls) :=
    summarize_and_log durable_session stored_exchange sample_llm in
  ok = false /\ stored h = [] /\
  calls = [InvokeLLM (summarization_prompt stored_exchange)] /\
  llm_invoke sample_llm (summarization_prompt stored_exchange)
  = Ok (sample_reply "answer").
Proof. repeat split. Qed.

(** ** Chat-mode settings *)

Section SettingsFacts.
Context `{Constants}.

Lemma set_mode_idempotent (m : string) (s : ChatModeSettings) :
  set_mode m (set_mode m s) = set_mode m s.
Proof. reflexivity. Qed.

(** C8, as the code has it.  Resolving [mode] writes the mode name
    under the key [mode] of the entry it returns (the entry of [mode]
    when the map has one, else the entry of the default mode); the
    other fields of that entry and the other entries of the map are
    unchanged, and resolving the same mode once more changes nothing
    further. *)
Theorem resolution_writes_mode_only (mode : string)
    (settings_map settings_map' : gmap string ChatModeSettings)
    (key : string) (chat_mode_settings : ChatModeSettings) :
  get_chat_mode_settings mode settings_map
  = Ok (key, chat_mode_settings, settings_map') ->
  key = (if decide (is_Some (settings_map !! mode)) then mode
         else CHAT_DEFAULT_MODE) /\
  (exists before,
     settings_map !! key = Some before /\
     chat_mode_settings = set_mode mode before) /\
  settings_map' !! key = Some chat_mode_settings /\
  (forall other, other <> key -> settings_map' !! other = settings_map !! other) /\
  get_chat_mode_settings mode settings_map'
  = Ok (key, chat_mode_settings, settings_map').
Proof.
  unfold get_chat_mode_settings. intros Hget.
  destruct (settings_map !! CHAT_DEFAULT_MODE) as [dflt|] eqn:Hd; [|discriminate].
  destruct (settings_map !! mode) as [s|] eqn:Hm;
    injection Hget as <- <- <-.
  - split; [now rewrite decide_True by eauto|].
    split; [eauto|].
    split; [apply lookup_insert_eq|].
    split; [intros other Hne; now apply lookup_insert_ne|].
    rewrite lookup_insert_eq.
    destruct (decide (mode = CHAT_DEFAULT_MODE)) as [Heq|Hne].
    + rewrite <- Heq, lookup_insert_eq. now rewrite insert_insert_eq.
    + rewrite lookup_insert_ne, Hd by done. now rewrite insert_insert_eq.
  - split; [rewrite decide_False; [done|intros [? ?]; congruence]|].
    split; [eauto|].
    split; [apply lookup_insert_eq|].
    split; [intros other Hne; now apply lookup_insert_ne|].
    rewrite lookup_insert_eq.
    destruct (decide (mode = CHAT_DEFAULT_MODE)) as [Heq|Hne]; [congruence|].
    rewrite lookup_insert_ne, Hm by done. now rewrite insert_insert_eq.
Qed.

End SettingsFacts.

Lemma sample_resolution :
  get_chat_mode_settings "vector" sample_settings_map
  = Ok ("vector", set_mode "vector" vector_settings,
        <["vector" := set_mode "vector" vector_settings]> sample_settings_map).
Proof. vm_compute. reflexivity. Qed.

Lemma resolution_writes_mode_only_witness :
  sample_settings_map !! "vector" = Some vector_settings /\
  <["vector" := set_mode "vector" vector_settings]> sample_settings_map
    !! "vector" = Some (set_mode "vector" vector_settings) /\
  <["vector" := set_mode "vector" vector_settings]> sample_settings_map
    !! "entity_vector" = sample_settings_map !! "entity_vector".
Proof.
  destruct (resolution_writes_mode_only "vector" sample_settings_map
              (<["vector" := set_mode "vector" vector_settings]> sample_settings_map)
              "vector" (set_mode "vector" vector_settings) sample_resolution)
    as (_ & _ & Hkey & Hother & _).
  split; [vm_compute; reflexivity|]. split; [exact Hkey|].
  apply Hother. discriminate.
Defined.

(** C8 as stated fails: resolving the configured mode [vector] changes
    its entry in the shared map, and two resolutions of unknown modes
    leave different values in the entry of the default mode, the entry
    both of them return. *)
Lemma settings_are_mutated :
  ~ settings_never_mutated /\
  (let default := "graph_vector_fulltext" in
   let m1 := <[default := set_mode "first" fulltext_settings]> sample_settings_map in
   let m2 := <[default := set_mode "second" fulltext_settings]> m1 in
   get_chat_mode_settings "first" sample_settings_map
   = Ok (default, set_mode "first" fulltext_settings, m1) /\
   get_chat_mode_settings "second" m1
   = Ok (default, set_mode "second" fulltext_settings, m2) /\
   (mode <$> m1 !! default) = Some (Some "first") /\
   (mode <$> m2 !! default) = Some (Some "second")).
Proof.
  split.
  - intros Hnever.
    specialize (Hnever _ _ _ _ _ sample_resolution).
    apply (f_equal (fun m => mode <$> m !! "vector")) in Hnever.
    vm_compute in Hnever. discriminate Hnever.
  - repeat split; vm_compute; reflexivity.
Qed.

(** ** Document selection *)

Lemma insert_desc_perm (x : Document) (l : list Document) :
  insert_desc x l ≡ₚ x :: l.
Proof.
  induction l as [|y l IH]; simpl; [reflexivity|].
  destruct (score_lt _ _); [|reflexivity].
  rewrite IH. apply Permutation_swap.
Qed.

Lemma sorted_reverse_perm (l : list Document) : sorted_reverse l ≡ₚ l.
Proof.
  induction l as [|x l IH]; simpl; [reflexivity|].
  now rewrite insert_desc_perm, IH.
Qed.

Lemma score_lt_le (a b : py_score) :
  score_lt a b = true -> score_le a b = true.
Proof.
  destruct a as [x|[|]| |], b as [y|[|]| |]; simpl;
    try (intros ?; first [reflexivity | discriminate]).
  rewrite !bool_decide_eq_true. apply Qclt_le_weak.
Qed.

Lemma score_not_lt_le (a b : py_score) :
  ordered a = true -> ordered b = true ->
  score_lt a b = false -> score_le b a = true.
Proof.
  destruct a as [x|[|]| |], b as [y|[|]| |]; simpl;
    try (intros ? ? ?; first [reflexivity | discriminate]).
  intros _ _. rewrite bool_decide_eq_false, bool_decide_eq_true.
  apply Qcnot_lt_le.
Qed.

Lemma score_le_trans (a b c : py_score) :
  score_le a b = true -> score_le b c = true -> score_le a c = true.
Proof.
  destruct a as [x|[|]| |], b as [y|[|]| |], c as [z|[|]| |]; simpl;
    try (intros ? ?; first [reflexivity | discriminate]).
  rewrite !bool_decide_eq_true. apply Qcle_trans.
Qed.

Lemma score_lt_neq (a b : py_score) : score_lt a b = true -> a <> b.
Proof.
  destruct a as [x|[|]| |], b as [y|[|]| |]; simpl;
    try (intros ?; first [discriminate | congruence]).
  rewrite bool_decide_eq_true. intros Hlt [= ->].
  now apply Qclt_not_eq in Hlt.
Qed.

Lemma insert_desc_sorted (x : Document) (l : list Document) :
  ordered (sort_key x) = true ->
  Forall (fun d => ordered (sort_key d) = true) l ->
  StronglySorted score_ge l -> StronglySorted score_ge (insert_desc x l).
Proof.
  intros Hx Hl Hsorted. induction Hsorted as [|y l Hsorted IH Hy]; simpl.
  - repeat constructor.
  - inversion Hl as [|? ? Hyo Hlo]; subst.
    destruct (score_lt (sort_key x) (sort_key y)) eqn:Hlt.
    + constructor; [now apply IH|].
      rewrite insert_desc_perm. constructor; [|exact Hy].
      now apply score_lt_le.
    + apply score_not_lt_le in Hlt; [|assumption..].
      constructor; [now constructor|].
      constructor; [exact Hlt|].
      eapply Forall_impl; [|exact Hy].
      intros z Hz. unfold score_ge in *.
      now apply score_le_trans with (sort_key y).
Qed.

Lemma sorted_reverse_ordered (l : list Document) :
  Forall (fun d => ordered (sort_key d) = true) l ->
  Forall (fun d => ordered (sort_key d) = true) (sorted_reverse l).
Proof. intros Hl. now rewrite sorted_reverse_perm. Qed.

Lemma sorted_reverse_sorted (l : list Document) :
  Forall (fun d => ordered (sort_key d) = true) l ->
  StronglySorted score_ge (sorted_reverse l).
Proof.
  induction 1 as [|x l Hx Hl IH]; simpl; [constructor|].
  apply insert_desc_sorted; [exact Hx | now apply sorted_reverse_ordered | exact IH].
Qed.

Lemma insert_desc_stable (k : py_score) (x : Document) (l : list Document) :
  with_score k (insert_desc x l) = with_score k (x :: l).
Proof.
  unfold with_score. induction l as [|y l IH]; [reflexivity|].
  cbn [insert_desc].
  destruct (score_lt (sort_key x) (sort_key y)) eqn:Hlt; [|reflexivity].
  cbn [List.filter] in *. rewrite IH.
  apply score_lt_neq in Hlt.
  repeat case_bool_decide; try reflexivity. congruence.
Qed.

Lemma sorted_reverse_stable (k : py_score) (l : list Document) :
  with_score k (sorted_reverse l) = with_score k l.
Proof.
  induction l as [|x l IH]; [reflexivity|].
  change (sorted_reverse (x :: l)) with (insert_desc x (sorted_reverse l)).
  rewrite insert_desc_stable.
  unfold with_score in *. cbn [List.filter]. now rewrite IH.
Qed.

Lemma existsb_ordered (p : py_score -> bool) (l : list Document) :
  (forall a, ordered a = true -> p a = false) ->
  Forall (fun d => ordered (sort_key d) = true) l ->
  existsb (fun doc => p (sort_key doc)) l = false.
Proof.
  intros Hp. induction 1 as [|x l Hx _ IH]; simpl; [reflexivity|].
  now rewrite (Hp _ Hx), IH.
Qed.

(** On keys that [<] orders, the built-in sort is the stable sort. *)
Lemma py_sorted_ordered `{Sorting} (l : list Document) :
  Forall (fun d => ordered (sort_key d) = true) l ->
  py_sorted l = Ok (sorted_reverse l).
Proof.
  intros Hl. unfold py_sorted.
  rewrite (existsb_ordered is_none), (existsb_ordered is_nan);
    [reflexivity | | assumption | | assumption];
    now intros [| | |].
Qed.

Lemma lookup_cutoff_find (model : string) (items : list (model_names * Z))
    (dflt : Z) :
  lookup_cutoff model items dflt
  = match List.find (fun kv => model_in model (fst kv)) items with
    | Some kv => snd kv
    | None => dflt
    end.
Proof.
  induction items as [|[names value] items IH]; simpl; [reflexivity|].
  destruct (model_in model names); [reflexivity | exact IH].
Qed.

Lemma lookup_cutoff_nonneg (model : string) (items : list (model_names * Z))
    (dflt : Z) :
  Forall (fun kv => 0 <= snd kv) items -> 0 <= dflt ->
  0 <= lookup_cutoff model items dflt.
Proof.
  induction 1 as [|[names value] items Hv _ IH]; simpl; intros Hd; [exact Hd|].
  destruct (model_in model names); [exact Hv | now apply IH].
Qed.

Lemma slice_to_take {A} (k : Z) (l : list A) :
  0 <= k -> slice_to k l = take (Z.to_nat k) l.
Proof.
  intros Hk. unfold slice_to.
  destruct (k <? 0) eqn:E; [|reflexivity].
  apply Z.ltb_lt in E. lia.
Qed.

(** *** What makes the loop leave a document out

    Whether a statement of the loop body raises depends on the document
    alone, not on what the loop has collected before it. *)

Lemma set_update_error (items s s' : list pyval) :
  snd (set_update items s) = snd (set_update items s').
Proof.
  revert s s'. induction items as [|v items IH]; intros s s'; simpl;
    [reflexivity|].
  unfold set_add. destruct (hashable v); [apply IH | reflexivity].
Qed.

Lemma update_entity_set_error (k : string) (items : list pyval)
    (ents ents' : list (string * list pyval)) :
  snd (update_entity_set k items ents) = snd (update_entity_set k items ents').
Proof.
  unfold update_entity_set.
  pose proof (set_update_error items
                (default [] (assoc_get k (setdefault_set k ents)))
                (default [] (assoc_get k (setdefault_set k ents')))) as Herr.
  destruct (set_update items (default [] (assoc_get k (setdefault_set k ents)))),
    (set_update items (default [] (assoc_get k (setdefault_set k ents')))).
  exact Herr.
Qed.

Lemma update_from_error (k : string) (meta : pyval)
    (ents ents' : list (string * list pyval)) :
  snd (update_from k meta ents) = snd (update_from k meta ents').
Proof.
  unfold update_from.
  destruct (py_contains k meta) as [[|]|e]; try reflexivity.
  destruct (_ ≫= _) as [items|e]; [|reflexivity].
  pose proof (set_update_error items
                (default [] (assoc_get k (setdefault_set k ents)))
                (default [] (assoc_get k (setdefault_set k ents')))) as Herr.
  destruct (set_update items (default [] (assoc_get k (setdefault_set k ents)))),
    (set_update items (default [] (assoc_get k (setdefault_set k ents')))).
  exact Herr.
Qed.

Lemma mapM_identified (communities : list pyval) :
  forallb identified communities = true ->
  exists ids,
    mapM (fun entry => py_getitem entry "id") communities = Ok ids /\
    forallb hashable ids = true.
Proof.
  induction communities as [|entry communities IH]; simpl.
  - exists []. now split.
  - intros Hall. apply andb_prop in Hall as [Hentry Hrest].
    destruct (IH Hrest) as (ids & -> & Hids).
    unfold identified in Hentry.
    destruct (py_getitem entry "id") as [i|e]; [|discriminate].
    exists (i :: ids). simpl. now rewrite Hentry.
Qed.

Lemma set_of_hashable (ids s : list pyval) :
  forallb hashable ids = true ->
  exists s', foldl (fun acc i => s ← acc; set_add i s) (Ok s) ids = Ok s'.
Proof.
  revert s. induction ids as [|i ids IH]; intros s; simpl; [eauto|].
  intros Hall. apply andb_prop in Hall as [Hi Hrest].
  unfold set_add at 2. rewrite Hi. cbn [mbind outcome_bind].
  now apply IH.
Qed.

Lemma filterM_identified (existing : list pyval) (entries : list pyval) :
  let p := fun entry =>
             i ← py_getitem entry "id";
             if hashable i then Ok (negb (existsb (py_eqb i) existing))
             else Raise (mk_exn TypeError "unhashable type") in
  if forallb identified entries
  then exists kept, filterM p entries = Ok kept /\
                    forallb identified kept = true
  else exists e, filterM p entries = Raise e.
Proof.
  cbv zeta. induction entries as [|entry entries IH]; simpl.
  - exists []. now split.
  - unfold identified at 1.
    destruct (py_getitem entry "id") as [i|e] eqn:Hid;
      cbn [mbind outcome_bind andb]; [|eauto].
    destruct (hashable i) eqn:Hi; cbn [mbind outcome_bind andb]; [|eauto].
    destruct (forallb identified entries).
    + destruct IH as (kept & -> & Hkept). cbn [mbind outcome_bind].
      eexists. split; [reflexivity|].
      destruct (negb _); [|exact Hkept].
      simpl. unfold identified at 1. now rewrite Hid, Hi.
    + destruct IH as (e & ->). cbn [mbind outcome_bind]. eauto.
Qed.

Lemma extend_communities_identified (details : pyval)
    (communities : list pyval) :
  forallb identified communities = true ->
  match py_iter details with
  | Ok entries =>
      if forallb identified entries
      then exists communities',
             extend_communities details communities = Ok communities' /\
             forallb identified communities' = true
      else exists e, extend_communities details communities = Raise e
  | Raise _ => exists e, extend_communities details communities = Raise e
  end.
Proof.
  intros Hall. unfold extend_communities.
  destruct (mapM_identified communities Hall) as (ids & -> & Hids).
  cbn [mbind outcome_bind].
  destruct (set_of_hashable ids [] Hids) as (existing & ->).
  cbn [mbind outcome_bind].
  destruct (py_iter details) as [entries|e]; cbn [mbind outcome_bind]; [|eauto].
  pose proof (filterM_identified existing entries) as Hfilter.
  cbv zeta in Hfilter.
  destruct (forallb identified entries).
  - destruct Hfilter as (kept & -> & Hkept). cbn [mbind outcome_bind].
    eexists. split; [reflexivity|].
    rewrite forallb_app. now rewrite Hall, Hkept.
  - destruct Hfilter as (e & ->). cbn [mbind outcome_bind]. eauto.
Qed.

Section SelectionFacts.
Context `{Constants} `{Builtins} `{Sorting}.

Lemma collect_entities_error (settings : ChatModeSettings) (meta : pyval)
    (ents ents' : list (string * list pyval)) :
  snd (collect_entities settings meta ents)
  = snd (collect_entities settings meta ents').
Proof.
  unfold collect_entities.
  destruct (get_mode settings) as [m|e]; [|reflexivity].
  destruct (String.eqb m CHAT_ENTITY_VECTOR_MODE).
  - destruct (_ ≫= _) as [entity_ids|e]; [|reflexivity].
    apply update_entity_set_error.
  - pose proof (update_from_error "entityids" meta ents ents') as Hfirst.
    destruct (update_from "entityids" meta ents) as [ents1 [e|]],
      (update_from "entityids" meta ents') as [ents1' [e'|]];
      simpl in Hfirst; try discriminate; [exact Hfirst|].
    apply update_from_error.
Qed.

(** One turn of the loop adds the block of the document when the
    document formats, and adds nothing when it does not. *)
Lemma format_one_block (settings : ChatModeSettings) (acc : formatted)
    (doc : Document) :
  forallb identified (global_communities acc) = true ->
  forallb identified (global_communities (format_one settings acc doc)) = true /\
  formatted_docs (format_one settings acc doc)
  = formatted_docs acc ++ (if formats settings doc then [block doc] else []).
Proof.
  intros Hacc. unfold format_one, formats, block. fold (source_of doc).
  unfold set_add. destruct (hashable (source_of doc)); cbn [andb];
    [|now rewrite app_nil_r].
  pose proof (fun meta =>
                collect_entities_error settings meta (entities acc) []) as Hents.
  destruct (assoc_get "entities" (metadata doc)) as [meta|].
  - specialize (Hents meta).
    destruct (collect_entities settings meta (entities acc)) as [ents1 err],
      (collect_entities settings meta []) as [ents0 err0].
    simpl in Hents. subst err0.
    destruct err as [e|]; cbn [andb global_communities formatted_docs];
      [now rewrite app_nil_r|].
    destruct (assoc_get "communitydetails" (metadata doc)) as [details|].
    + pose proof (extend_communities_identified details _ Hacc) as Hext.
      destruct (py_iter details) as [entries|e].
      * destruct (forallb identified entries).
        -- destruct Hext as (communities' & -> & Hcomm). now split.
        -- destruct Hext as (e & ->). cbn. now rewrite app_nil_r.
      * destruct Hext as (e' & ->). cbn. now rewrite app_nil_r.
    + now split.
  - cbn [andb].
    destruct (assoc_get "communitydetails" (metadata doc)) as [details|].
    + pose proof (extend_communities_identified details _ Hacc) as Hext.
      destruct (py_iter details) as [entries|e].
      * destruct (forallb identified entries).
        -- destruct Hext as (communities' & -> & Hcomm). now split.
        -- destruct Hext as (e & ->). cbn. now rewrite app_nil_r.
      * destruct Hext as (e' & ->). cbn. now rewrite app_nil_r.
    + now split.
Qed.

(** The loop formats the documents that format, in their order. *)
Lemma format_loop_blocks (settings : ChatModeSettings)
    (docs : list Document) (acc : formatted) :
  forallb identified (global_communities acc) = true ->
  formatted_docs (foldl (format_one settings) acc docs)
  = formatted_docs acc ++ map block (List.filter (formats settings) docs).
Proof.
  revert acc. induction docs as [|d docs IH]; intros acc Hacc; simpl.
  - now rewrite app_nil_r.
  - destruct (format_one_block settings acc d Hacc) as [Hacc' Hfmt].
    rewrite (IH _ Hacc'), Hfmt.
    destruct (formats settings d); simpl.
    + now rewrite <- app_assoc.
    + now rewrite app_nil_r.
Qed.

Lemma plain_formats (settings : ChatModeSettings) (doc : Document) :
  plain doc = true -> formats settings doc = true.
Proof.
  unfold plain, formats.
  destruct (hashable (source_of doc)); [|discriminate].
  destruct (assoc_get "entities" (metadata doc)); [discriminate|].
  now destruct (assoc_get "communitydetails" (metadata doc)).
Qed.

Lemma filter_all_true {A} (p : A -> bool) (l : list A) :
  forallb p l = true -> List.filter p l = l.
Proof.
  induction l as [|a l IH]; [reflexivity|].
  simpl. intros Hall. apply andb_prop in Hall as [-> Hl]. now rewrite IH.
Qed.

(** C9, as amended.  With a table of document counts (no negative
    entry) and similarity scores that are ordered (numbers or
    infinities, no NaN and no [None]),
    the documents handed to formatting are the input documents in
    descending order of their similarity score, documents of equal
    score in input order, cut after the first [cutoff] of them, where
    [cutoff] is the value of the first table entry whose names match the
    model and 4 when none does.  [format_documents] returns as context
    the blocks of those of them that format, in that order, joined by
    an empty line: at most [cutoff] documents, and all of the selected
    ones when each of them formats, as every plain document does. *)
Theorem documents_sorted_and_truncated (documents : list Document)
    (model : string) (chat_mode_settings : ChatModeSettings) :
  Forall (fun kv => 0 <= snd kv) CHAT_TOKEN_CUT_OFF ->
  Forall (fun doc => ordered (sort_key doc) = true) documents ->
  let cutoff := prompt_token_cutoff model in
  let ranked := sorted_reverse documents in
  let selected := take (Z.to_nat cutoff) ranked in
  let kept := List.filter (formats chat_mode_settings) selected in
  cutoff = match List.find (fun kv => model_in model (fst kv)) CHAT_TOKEN_CUT_OFF with
           | Some kv => snd kv
           | None => 4
           end /\
  ranked ≡ₚ documents /\
  StronglySorted score_ge ranked /\
  (forall k, with_score k ranked = with_score k documents) /\
  sorted_documents documents model = Ok selected /\
  (Z.of_nat (length selected) <= cutoff) /\
  (exists srcs ents communities,
     format_documents documents model chat_mode_settings
     = Ok (join (nl +:+ nl) (map block kept), srcs, ents, communities)) /\
  sublist kept selected /\
  (Z.of_nat (length kept) <= cutoff) /\
  (forallb (formats chat_mode_settings) selected = true -> kept = selected) /\
  (forallb plain selected = true -> kept = selected).
Proof.
  intros Htable Hordered cutoff ranked selected kept.
  assert (Hcut : 0 <= cutoff).
  { apply lookup_cutoff_nonneg; [exact Htable | lia]. }
  assert (Hsel : sorted_documents documents model = Ok selected).
  { unfold sorted_documents. rewrite (py_sorted_ordered _ Hordered).
    cbn [mbind outcome_bind]. fold ranked. fold cutoff.
    now rewrite slice_to_take. }
  assert (Hlen : Z.of_nat (length selected) <= cutoff).
  { unfold selected. rewrite length_take. lia. }
  assert (Hsub : sublist kept selected) by apply filter_sublist.
  split; [apply lookup_cutoff_find|].
  split; [apply sorted_reverse_perm|].
  split; [now apply sorted_reverse_sorted|].
  split; [intros k; apply sorted_reverse_stable|].
  split; [exact Hsel|].
  split; [exact Hlen|].
  split.
  { unfold format_documents. rewrite Hsel. cbn [mbind outcome_bind].
    unfold format_loop. rewrite format_loop_blocks by reflexivity.
    simpl. eauto. }
  split; [exact Hsub|].
  split; [apply sublist_length in Hsub; lia|].
  split; [apply filter_all_true|].
  intros Hplain. apply filter_all_true.
  apply forallb_forall. intros doc Hdoc. apply plain_formats.
  now apply (proj1 (forallb_forall plain selected) Hplain).
Qed.

End SelectionFacts.

Lemma documents_sorted_and_truncated_witness :
  prompt_token_cutoff "ollama_llama3" = 2 /\
  sorted_documents sample_documents "ollama_llama3"
  = Ok [sample_doc "two" (9 # 10); sample_doc "three" (9 # 10)] /\
  (exists srcs ents communities,
     format_documents sample_documents "ollama_llama3" vector_settings
     = Ok ("Document start" +:+ nl
           +:+ "This Document belongs to the source a.pdf" +:+ nl
           +:+ "Content: two" +:+ nl
           +:+ "Document end" +:+ nl
           +:+ nl +:+ nl
           +:+ "Document start" +:+ nl
           +:+ "This Document belongs to the source a.pdf" +:+ nl
           +:+ "Content: three" +:+ nl
           +:+ "Document end" +:+ nl,
           srcs, ents, communities)).
Proof.
  assert (Htable : Forall (fun kv => 0 <= snd kv) CHAT_TOKEN_CUT_OFF).
  { repeat constructor; simpl; lia. }
  assert (Hordered : Forall (fun doc => ordered (sort_key doc) = true)
                       sample_documents).
  { repeat constructor. }
  destruct (documents_sorted_and_truncated sample_documents "ollama_llama3"
              vector_settings Htable Hordered)
    as (_ & _ & _ & _ & Hsel & _ & Hfmt & _ & _ & _ & Hplain).
  split; [reflexivity|].
  split; [rewrite Hsel; vm_compute; reflexivity|].
  destruct Hfmt as (srcs & ents & communities & Hfmt).
  exists srcs, ents, communities. rewrite Hfmt, Hplain.
  - vm_compute. reflexivity.
  - vm_compute. reflexivity.
Defined.

(** The claim as the specification states it, for every list of
    documents, fails on scores that are not ordered.  With a score
    [None] among two documents the sort raises, so nothing is selected
    and [format_documents] raises; with a score NaN no arrangement of
    the documents is in descending order, whatever the sort returns. *)
Lemma unordered_scores_not_sorted :
  ~ always_sorted_and_truncated /\
  (exists text,
     format_documents [unscored_doc; sample_doc "one" (1 # 5)]
       "openai_gpt_4o" vector_settings
     = Raise (mk_exn TypeError text)) /\
  (forall ranked,
     ranked ≡ₚ [nan_doc; sample_doc "one" (1 # 5)] ->
     ~ StronglySorted score_ge ranked).
Proof.
  split; [|split].
  - intros Hsorted.
    destruct (Hsorted [unscored_doc; sample_doc "one" (1 # 5)] "openai_gpt_4o")
      as (ranked & _ & _ & Hsel).
    discriminate Hsel.
  - eexists. reflexivity.
  - intros ranked Hperm Hsorted. symmetry in Hperm.
    apply Permutation_length_2_inv in Hperm as [-> | ->];
      apply StronglySorted_inv in Hsorted as [_ Hhead];
      apply Forall_inv in Hhead; discriminate Hhead.
Qed.

(** ** The orchestrator *)

Lemma drop_app_own {A} (l k : list A) : drop (length l) (l ++ k) = k.
Proof. now rewrite drop_app_length. Qed.

Lemma create_history_state (W : World) (session : string)
    (write_access : bool) (st : state) :
  let st' := snd (create_neo4j_chat_message_history W session write_access st) in
  settings_map st' = settings_map st /\
  trace st' = trace st ++ (if write_access then [OpenHistory session] else []).
Proof.
  unfold create_neo4j_chat_message_history.
  destruct write_access.
  - destruct (new_neo4j_history W session); simpl; auto.
  - destruct (get_chat_history session (history_dict st)); simpl.
    now rewrite app_nil_r.
Qed.

Section OrchestratorFacts.
Context `{Constants} `{Builtins} `{Sorting} `{JsonDecoder}.

Lemma resolved_mode (mode : string) (settings_map : gmap string ChatModeSettings)
    (key : string) (s : ChatModeSettings)
    (settings_map' : gmap string ChatModeSettings) :
  get_chat_mode_settings mode settings_map = Ok (key, s, settings_map') ->
  get_mode s = Ok mode.
Proof.
  unfold get_chat_mode_settings.
  destruct (settings_map !! CHAT_DEFAULT_MODE); [|discriminate].
  destruct (settings_map !! mode); intros [= <- <- <-]; reflexivity.
Qed.

(** C10.  Whenever [QA_RAG] returns an envelope, on any path, its
    [session_id] is the session id the caller passed. *)
Theorem session_id_echoed (W : World) (model question : string)
    (document_names : pyval) (session mode : string) (write_access : bool)
    (st st' : state) (result : Envelope) :
  QA_RAG W model question document_names session mode write_access st
  = (Ok result, st') ->
  session_id result = session.
Proof.
  unfold QA_RAG. intros Hrun.
  repeat case_match; simplify_eq; reflexivity.
Qed.

Ltac run_traced :=
  repeat (case_match; simplify_eq;
          cbn [mbind mret traced_bind traced_ret app existsb
                 invokes_retriever orb] in *).

(** Setting up the chat builds the retriever without invoking it, and
    the retriever chain it returns is the one the collaborator gave. *)
Lemma setup_chat_spec (W : World) (model : string) (names : list string)
    (settings : ChatModeSettings) :
  let '(r, evs) := setup_chat W model names settings in
  existsb invokes_retriever evs = false /\
  forall llm dr mv, r = Ok (llm, dr, mv) -> retriever_chain W = Ok dr.
Proof.
  unfold setup_chat, get_neo4j_retriever, initialize_neo4j_vector,
    create_retriever, try_except, call, lift.
  cbn [mbind mret traced_bind traced_ret].
  run_traced; split; solve [reflexivity | congruence].
Qed.

(** With the mode written into the settings, [process_chat_response]
    always returns an envelope. *)
Lemma process_chat_response_returns (W : World) (messages : list raw_record)
    (h : history) (question model : string) (names : list string)
    (settings : ChatModeSettings) (m : string) :
  get_mode settings = Ok m ->
  exists env,
    fst (process_chat_response W messages h question model names settings)
    = Ok env.
Proof.
  intros Hm. unfold process_chat_response, try_except.
  destruct (_ ≫= _) as [[env|e] evs]; simpl; [eauto|].
  rewrite Hm. simpl. eauto.
Qed.

Lemma quiet_not_invoked (evs : list event) (messages : list raw_record) :
  existsb invokes_retriever evs = false -> ~ In (InvokeRetriever messages) evs.
Proof.
  intros Hquiet Hin.
  assert (existsb invokes_retriever evs = true) as Htrue.
  { apply existsb_exists. exists (InvokeRetriever messages). now split. }
  congruence.
Qed.

(** Synthesis never invokes the retriever. *)
Lemma process_documents_quiet (docs : list Document) (question : string)
    (messages : list raw_record) (llm : LLM) (model : string)
    (settings : ChatModeSettings) :
  existsb invokes_retriever
    (snd (process_documents docs question messages llm model settings)) = false.
Proof.
  unfold process_documents, lift.
  destruct (format_documents docs model settings) as [[[[ctx ?] ?] ?]|e];
    [|reflexivity].
  unfold call. cbn [mbind mret traced_bind traced_ret].
  destruct (llm_invoke llm _); reflexivity.
Qed.

(** When the retrieval pipeline is invoked and raises, the turn ends
    with the degraded envelope. *)
Lemma process_chat_response_degrades (W : World) (messages : list raw_record)
    (h : history) (question model : string) (names : list string)
    (settings : ChatModeSettings) (m : string) (dr : DocRetriever) :
  get_mode settings = Ok m ->
  retriever_chain W = Ok dr ->
  let '(r, evs) :=
    process_chat_response W messages h question model names settings in
  forall invoked e,
    In (InvokeRetriever invoked) evs ->
    retriever_invoke dr invoked = Raise e ->
    exists mv, r = Ok (degraded mv m).
Proof.
  intros Hm Hdr. unfold process_chat_response, try_except.
  pose proof (setup_chat_spec W model names settings) as Hsetup.
  destruct (setup_chat W model names settings) as [[[[llm dr'] mv]|e'] evs0].
  - destruct Hsetup as [Hquiet Hsame].
    assert (dr' = dr) as -> by (specialize (Hsame _ _ _ eq_refl); congruence).
    unfold retrieve_documents, try_except, call.
    cbn [mbind mret traced_bind traced_ret].
    destruct (retriever_invoke dr messages) as [docs|e0] eqn:Hinvoke.
    + (* the pipeline answered: the only invocation is on [messages] *)
      cbn [mbind mret traced_bind traced_ret].
      pose proof (process_documents_quiet) as Hsynth.
      destruct (match docs with
                | d :: ds =>
                    process_documents (d :: ds) question messages llm model settings
                | [] => mret (no_documents, PyInt 0, "")
                end) as [[[[content total] ctx]|e1] evs2] eqn:Hdocs.
      all: assert (Hq2 : existsb invokes_retriever evs2 = false)
             by (destruct docs as [|d ds];
                 [ unfold mret, traced_ret in Hdocs; now simplify_eq
                 | specialize (Hsynth (d :: ds) question messages llm model settings);
                   now rewrite Hdocs in Hsynth ]).
      all: cbn [mbind mret traced_bind traced_ret]; unfold lift; rewrite Hm;
        cbn [mbind mret traced_bind traced_ret];
        intros invoked e Hin Hraise; exfalso;
        rewrite !in_app_iff in Hin; simpl in Hin;
        pose proof (quiet_not_invoked _ invoked Hquiet);
        pose proof (quiet_not_invoked _ invoked Hq2);
        assert (invoked = messages) as -> by (intuition congruence);
        congruence.
    + cbn [mbind mret traced_bind traced_ret]. unfold lift. rewrite Hm.
      cbn [mbind mret traced_bind traced_ret]. intros _ _ _ _. now exists mv.
  - destruct Hsetup as [Hquiet _].
    cbn [mbind mret traced_bind traced_ret]. unfold lift. rewrite Hm.
    cbn [mbind mret traced_bind traced_ret].
    rewrite app_nil_r. intros invoked e Hin _.
    now apply quiet_not_invoked in Hin.
Qed.

(** The graph path never touches the retriever. *)
Lemma process_graph_response_quiet (W : World) (model question : string)
    (messages : list raw_record) (h : history) :
  existsb invokes_retriever
    (snd (process_graph_response W model question messages h)) = false.
Proof.
  unfold process_graph_response, create_graph_chain, get_graph_response,
    try_except, call, lift, mbind, mret, traced_bind, traced_ret.
  repeat (case_match; simplify_eq; simpl in * ); reflexivity.
Qed.

(** A failure of [create_graph_chain] leaves [process_graph_response]
    with a handler that reads an unbound variable. *)
Lemma process_graph_response_escapes (W : World) (model question : string)
    (messages : list raw_record) (h : history) (e : exn) :
  get_llm W model = Raise e ->
  process_graph_response W model question messages h
  = (Raise (mk_exn UnboundLocalError
              "cannot access local variable 'model_version' where it is not associated with a value"),
     [GetLLM model]).
Proof.
  intros Hllm.
  unfold process_graph_response, create_graph_chain, try_except, call.
  cbn [mbind mret traced_bind traced_ret]. rewrite Hllm. reflexivity.
Qed.

(** An envelope of the retrieval path reports no error, or it is the
    failure envelope of the exception that reached the handler. *)
Lemma process_chat_response_shape (W : World) (messages : list raw_record)
    (h : history) (question model : string) (names : list string)
    (settings : ChatModeSettings) (m : string) (env : Envelope) :
  get_mode settings = Ok m ->
  fst (process_chat_response W messages h question model names settings)
  = Ok env ->
  info_error (info env) = None \/ exists e, env = failure m e.
Proof.
  intros Hm. unfold process_chat_response, try_except.
  destruct (setup_chat W model names settings) as [[[[llm dr] mv]|e] evs0];
    cbn [mbind mret traced_bind traced_ret].
  - destruct (retrieve_documents dr messages) as [[docs|e] evs1];
      cbn [mbind mret traced_bind traced_ret].
    + destruct (match docs with
                | Some (d :: ds) =>
                    process_documents (d :: ds) question messages llm model settings
                | _ => mret (no_documents, PyInt 0, "")
                end) as [[[[content total] ctx]|e] evs2];
        cbn [mbind mret traced_bind traced_ret]; unfold call, lift;
        rewrite Hm; cbn [mbind mret traced_bind traced_ret fst];
        intros [= <-]; [now left | right; now exists e].
    + unfold lift. rewrite Hm. cbn [mbind mret traced_bind traced_ret fst].
      intros [= <-]. right. now exists e.
  - unfold lift. rewrite Hm. cbn [mbind mret traced_bind traced_ret fst].
    intros [= <-]. right. now exists e.
Qed.

(** On the retrieval path, with the default mode configured and a
    filter that normalizes, [QA_RAG] returns an envelope: the answer of
    the turn, or the failure envelope naming the exception. *)
Lemma retrieval_path_returns (W : World) (model question : string)
    (document_names : pyval) (session mode : string) (write_access : bool)
    (st : state) (names : list string) :
  String.eqb mode CHAT_GRAPH_MODE = false ->
  is_Some (settings_map st !! CHAT_DEFAULT_MODE) ->
  parse_document_names document_names = Ok names ->
  exists env,
    fst (QA_RAG W model question document_names session mode write_access st)
    = Ok env /\
    (info_error (info env) = None \/
     exists e, env = set_session_id session (failure mode e)).
Proof.
  intros Hmode [dflt Hd] Hparse. unfold QA_RAG.
  pose proof (create_history_state W session write_access st) as [Hmap _].
  destruct (create_neo4j_chat_message_history W session write_access st)
    as [h0 st0]. simpl in Hmap.
  destruct (match history_messages h0 with
            | (Some messages, h) => (h, messages)
            | (None, _) => (Volatile ChatMessageHistory.init, [])
            end) as [h1 messages].
  rewrite Hmode, Hparse.
  destruct (get_chat_mode_settings mode (settings_map st0))
    as [[[key s] smap']|e] eqn:Hget.
  2:{ unfold get_chat_mode_settings in Hget. rewrite Hmap, Hd in Hget.
      destruct (settings_map st !! mode); discriminate. }
  pose proof (resolved_mode _ _ _ _ _ Hget) as Hm.
  destruct (list_truthy names && negb (document_filter s)).
  - rewrite Hm. simpl. eexists. split; [reflexivity|]. now left.
  - destruct (process_chat_response_returns W (messages ++ [RawMessage (HumanMessage question)])
                h1 question model names s mode Hm) as [env Henv].
    pose proof (process_chat_response_shape W _ h1 question model names s mode
                  env Hm Henv) as Hshape.
    destruct (process_chat_response W _ h1 question model names s)
      as [r evs]. simpl in Henv. subst r. simpl.
    eexists. split; [reflexivity|].
    destruct Hshape as [Hnone|[e ->]]; [now left | right; now exists e].
Qed.

(** On the retrieval path a filter text on which the decoder raises an
    exception that is none of the three classes the handler lists makes
    [QA_RAG] raise that exception. *)
Lemma undecodable_filter_escapes (W : World) (model question : string)
    (text : string) (session mode : string) (write_access : bool)
    (st : state) (e : exn) :
  String.eqb mode CHAT_GRAPH_MODE = false ->
  is_Some (settings_map st !! CHAT_DEFAULT_MODE) ->
  str_truthy (strip text) = true ->
  json_loads text = Raise e ->
  caught_by [JSONDecodeError; TypeError; ValueError] e = false ->
  fst (QA_RAG W model question (PyStr text) session mode write_access st)
  = Raise e.
Proof.
  intros Hmode [dflt Hd] Hb Hloads Hcaught. unfold QA_RAG.
  pose proof (create_history_state W session write_access st) as [Hmap _].
  destruct (create_neo4j_chat_message_history W session write_access st)
    as [h0 st0]. simpl in Hmap.
  destruct (match history_messages h0 with
            | (Some messages, h) => (h, messages)
            | (None, _) => (Volatile ChatMessageHistory.init, [])
            end) as [h1 messages].
  rewrite Hmode.
  assert (Hparse : parse_document_names (PyStr text) = Raise e).
  { unfold parse_document_names, default_document_names.
    rewrite Hb, Hloads. cbn [mbind outcome_bind]. now rewrite Hcaught. }
  rewrite Hparse.
  destruct (get_chat_mode_settings mode (settings_map st0))
    as [[[key s] smap']|e'] eqn:Hget; [reflexivity|].
  unfold get_chat_mode_settings in Hget. rewrite Hmap, Hd in Hget.
  destruct (settings_map st !! mode); discriminate.
Qed.

(** On the graph path a model that cannot be obtained makes [QA_RAG]
    raise. *)
Lemma graph_path_escapes (W : World) (model question : string)
    (document_names : pyval) (session mode : string) (write_access : bool)
    (st : state) (e : exn) :
  String.eqb mode CHAT_GRAPH_MODE = true ->
  get_llm W model = Raise e ->
  exists e',
    fst (QA_RAG W model question document_names session mode write_access st)
    = Raise e' /\ exn_type e' = UnboundLocalError.
Proof.
  intros Hmode Hllm. unfold QA_RAG.
  destruct (create_neo4j_chat_message_history W session write_access st)
    as [h0 st0].
  destruct (match history_messages h0 with
            | (Some messages, h) => (h, messages)
            | (None, _) => (Volatile ChatMessageHistory.init, [])
            end) as [h1 messages].
  rewrite Hmode, (process_graph_response_escapes _ _ _ _ _ _ Hllm). simpl.
  eexists. split; reflexivity.
Qed.

(** C3.  In a mode other than the graph mode whose settings forbid
    document filtering, a filter that normalizes to a non-empty list
    makes [QA_RAG] return the advisory envelope; the only collaborator
    call of the execution opens the history, so neither the retriever
    nor the language model is reached. *)
Theorem advisory_short_circuit (W : World) (model question : string)
    (document_names : pyval) (session mode : string) (write_access : bool)
    (st : state) (key : string) (settings : ChatModeSettings)
    (settings_map' : gmap string ChatModeSettings) (names : list string) :
  String.eqb mode CHAT_GRAPH_MODE = false ->
  get_chat_mode_settings mode (settings_map st)
  = Ok (key, settings, settings_map') ->
  document_filter settings = false ->
  parse_document_names document_names = Ok names ->
  names <> [] ->
  exists env st',
    QA_RAG W model question document_names session mode write_access st
    = (Ok env, st') /\
    message env = advisory /\
    session_id env = session /\
    new_calls st st' = (if write_access then [OpenHistory session] else []) /\
    Forall (fun ev => is_retrieval ev = false /\ is_model_call ev = false)
      (new_calls st st').
Proof.
  intros Hmode Hget Hfilter Hparse Hnames. unfold QA_RAG.
  pose proof (create_history_state W session write_access st) as [Hmap Htrace].
  destruct (create_neo4j_chat_message_history W session write_access st)
    as [h0 st0]. simpl in Hmap, Htrace.
  destruct (match history_messages h0 with
            | (Some messages, h) => (h, messages)
            | (None, _) => (Volatile ChatMessageHistory.init, [])
            end) as [h1 messages].
  rewrite Hmode, Hmap, Hget, Hparse, Hfilter.
  rewrite (resolved_mode _ _ _ _ _ Hget).
  destruct names as [|n names]; [congruence|]. simpl.
  eexists _, _. split; [reflexivity|].
  split; [reflexivity|]. split; [reflexivity|].
  assert (Hnew : new_calls st (mk_state settings_map' (history_dict st0) (trace st0))
                 = (if write_access then [OpenHistory session] else [])).
  { unfold new_calls. simpl. rewrite Htrace. apply drop_app_own. }
  split; [exact Hnew|]. rewrite Hnew.
  destruct write_access; repeat constructor.
Qed.

(** C5.  In every execution that invokes the retrieval pipeline and in
    which that invocation raises, [QA_RAG] returns an envelope: its
    message is the fixed sentence about missing documents, its token
    count is 0, and it reports no error. *)
Theorem retrieval_failure_degrades (W : World) (model question : string)
    (document_names : pyval) (session mode : string) (write_access : bool)
    (st : state) (dr : DocRetriever) :
  retriever_chain W = Ok dr ->
  let '(result, st') :=
    QA_RAG W model question document_names session mode write_access st in
  (exists invoked e,
     In (InvokeRetriever invoked) (new_calls st st') /\
     retriever_invoke dr invoked = Raise e) ->
  exists env,
    result = Ok env /\
    message env = no_documents /\
    info_total_tokens (info env) = Some (PyInt 0) /\
    info_error (info env) = None /\
    session_id env = session.
Proof.
  intros Hdr. unfold QA_RAG.
  pose proof (create_history_state W session write_access st) as [Hmap Htrace].
  destruct (create_neo4j_chat_message_history W session write_access st)
    as [h0 st0]. simpl in Hmap, Htrace.
  destruct (match history_messages h0 with
            | (Some messages, h) => (h, messages)
            | (None, _) => (Volatile ChatMessageHistory.init, [])
            end) as [h1 messages].
  assert (Hquiet : existsb invokes_retriever
                     (if write_access then [OpenHistory session] else []) = false).
  { now destruct write_access. }
  assert (Hnew : forall smap evs,
             new_calls st (mk_state smap (history_dict st0) (trace st0 ++ evs))
             = (if write_access then [OpenHistory session] else []) ++ evs).
  { intros smap evs. unfold new_calls. simpl.
    rewrite Htrace, <- app_assoc. apply drop_app_own. }
  assert (Hnew0 : forall smap,
             new_calls st (mk_state smap (history_dict st0) (trace st0))
             = (if write_access then [OpenHistory session] else [])).
  { intros smap. unfold new_calls. simpl. rewrite Htrace. apply drop_app_own. }
  assert (Hnone : forall smap r,
             let '(result, st') :=
               match r : outcome Envelope with
               | Ok result =>
                   (Ok (set_session_id session result),
                    mk_state smap (history_dict st0) (trace st0))
               | Raise e => (Raise e, mk_state smap (history_dict st0) (trace st0))
               end in
             (exists invoked e,
                In (InvokeRetriever invoked) (new_calls st st') /\
                retriever_invoke dr invoked = Raise e) ->
             exists env,
               result = Ok env /\ message env = no_documents /\
               info_total_tokens (info env) = Some (PyInt 0) /\
               info_error (info env) = None /\ session_id env = session).
  { intros smap [env|e]; intros (invoked & e' & Hin & _);
      rewrite Hnew0 in Hin; now apply quiet_not_invoked in Hin. }
  destruct (String.eqb mode CHAT_GRAPH_MODE).
  { pose proof (process_graph_response_quiet W model question
                  (messages ++ [RawMessage (HumanMessage question)]) h1) as Hg.
    destruct (process_graph_response W model question _ h1) as [r evs].
    simpl in Hg.
    destruct r; simpl; intros (invoked & e' & Hin & _);
      rewrite Hnew, in_app_iff in Hin;
      destruct Hin as [Hin|Hin]; now apply quiet_not_invoked in Hin. }
  destruct (get_chat_mode_settings mode (settings_map st0))
    as [[[key s] smap']|e] eqn:Hget.
  2:{ destruct st0 as [smap0 dict0 tr0]. exact (Hnone smap0 (Raise e)). }
  pose proof (resolved_mode _ _ _ _ _ Hget) as Hm.
  destruct (parse_document_names document_names) as [names|e].
  2:{ exact (Hnone smap' (Raise e)). }
  destruct (list_truthy names && negb (document_filter s)).
  { rewrite Hm. exact (Hnone smap' (Ok _)). }
  pose proof (process_chat_response_degrades W
                (messages ++ [RawMessage (HumanMessage question)]) h1 question
                model names s mode dr Hm Hdr) as Hdeg.
  destruct (process_chat_response W _ h1 question model names s) as [r evs].
  simpl.
  destruct r as [env|e]; simpl; intros (invoked & e' & Hin & Hraise);
    rewrite Hnew, in_app_iff in Hin;
    (destruct Hin as [Hin|Hin]; [now apply quiet_not_invoked in Hin|]);
    destruct (Hdeg invoked e' Hin Hraise) as [mv Hmv]; [|discriminate].
  injection Hmv as ->. eexists. repeat split.
Qed.

End OrchestratorFacts.

(** *** On the sample executions *)

Lemma advisory_short_circuit_witness :
  exists env st',
    QA_RAG sample_world "openai_gpt_4o" "What is X?" (PyStr two_names_json)
      "s1" "entity_vector" true sample_state = (Ok env, st') /\
    message env = advisory /\
    new_calls sample_state st' = [OpenHistory "s1"].
Proof.
  destruct (advisory_short_circuit sample_world "openai_gpt_4o" "What is X?"
              (PyStr two_names_json) "s1" "entity_vector" true sample_state
              "entity_vector" (set_mode "entity_vector" entity_settings)
              (<["entity_vector" := set_mode "entity_vector" entity_settings]>
                 sample_settings_map)
              ["a.pdf"; "b.pdf"])
    as (env & st' & Hrun & Hmsg & _ & Hnew & _).
  - reflexivity.
  - vm_compute. reflexivity.
  - reflexivity.
  - reflexivity.
  - discriminate.
  - exists env, st'. auto.
Defined.

Lemma retrieval_failure_degrades_witness :
  exists env,
    fst (QA_RAG world_without_index "openai_gpt_4o" "What is X?" (PyStr "[]")
           "s1" "vector" true sample_state) = Ok env /\
    message env = no_documents /\
    info_total_tokens (info env) = Some (PyInt 0).
Proof.
  pose proof (retrieval_failure_degrades world_without_index "openai_gpt_4o"
                "What is X?" (PyStr "[]") "s1" "vector" true sample_state
                failing_retriever eq_refl) as Hd.
  destruct (QA_RAG world_without_index "openai_gpt_4o" "What is X?"
              (PyStr "[]") "s1" "vector" true sample_state)
    as [result st'] eqn:Hrun.
  assert (Hst : st' = snd (QA_RAG world_without_index "openai_gpt_4o"
                             "What is X?" (PyStr "[]") "s1" "vector" true
                             sample_state)) by now rewrite Hrun.
  destruct Hd as (env & -> & Hmsg & Htokens & _).
  { exists [RawMessage (HumanMessage "hi"); RawMessage (AIMessage "hello");
            RawMessage (HumanMessage "What is X?")].
    eexists. split; [|reflexivity].
    rewrite Hst. vm_compute. auto 10. }
  exists env. auto.
Defined.

Lemma session_id_echoed_witness :
  (exists env st',
     QA_RAG sample_world "openai_gpt_4o" "What is X?" (PyStr "[]")
       "s1" "graph" true sample_state = (Ok env, st') /\
     session_id env = "s1") /\
  (exists env st',
     QA_RAG sample_world "openai_gpt_4o" "What is X?" (PyStr two_names_json)
       "s2" "entity_vector" true sample_state = (Ok env, st') /\
     session_id env = "s2") /\
  (exists env st',
     QA_RAG sample_world "openai_gpt_4o" "What is X?" (PyStr "[]")
       "s3" "vector" false sample_state = (Ok env, st') /\
     session_id env = "s3") /\
  (exists env st',
     QA_RAG world_without_model "openai_gpt_4o" "What is X?" (PyStr "[]")
       "s4" "vector" true sample_state = (Ok env, st') /\
     session_id env = "s4").
Proof.
  repeat split.
  all: match goal with
       | |- exists env st', ?run = _ /\ _ =>
           destruct run as [[env|e] st'] eqn:Hrun;
           [ exists env, st'; split;
             [ reflexivity
             | exact (session_id_echoed _ _ _ _ _ _ _ _ _ _ Hrun) ]
           | vm_compute in Hrun; discriminate Hrun ]
       end.
Defined.

(** C1, on the graph path.  The chat model cannot be obtained:
    [create_graph_chain] logs and returns nothing, unpacking its result
    raises, and the handler of [process_graph_response] raises in turn
    on the unbound [model_version]; the exception leaves [QA_RAG]. *)
Theorem graph_failure_escapes :
  fst (QA_RAG world_without_model "openai_gpt_4o" "What is X?" (PyStr "[]")
         "s1" "graph" true sample_state)
  = Raise (mk_exn UnboundLocalError
             "cannot access local variable 'model_version' where it is not associated with a value").
Proof. vm_compute. reflexivity. Qed.

(* ===================================================================== *)
(** * Further properties *)
(* ===================================================================== *)

(** ** Environment configuration *)

Lemma effective_lookup_own (self : EnvironmentConfig.t) (key v : string) :
  EnvironmentConfig.os_environ self !! key = Some v ->
  effective self !! key = Some v.
Proof.
  intros Hk. unfold effective, EnvironmentConfig._load_environment.
  destruct (EnvironmentConfig._loaded self); [exact Hk|].
  destruct (EnvironmentConfig.env_file self); simpl; try exact Hk.
  now apply lookup_union_Some_l.
Qed.

(** A read answers from the effective environment and leaves it as it
    is. *)
Lemma get_effective (self : EnvironmentConfig.t) (key : string)
    (dflt : option string) (required : bool) :
  fst (EnvironmentConfig.get self key dflt required)
  = match effective self !! key with
    | Some v => Ok (Some v)
    | None =>
        if required then Raise (EnvironmentConfig.missing_required key)
        else Ok dflt
    end /\
  effective (snd (EnvironmentConfig.get self key dflt required)) = effective self.
Proof.
  unfold EnvironmentConfig.get.
  destruct (EnvironmentConfig.os_environ self !! key) as [v|] eqn:Hk.
  { rewrite (effective_lookup_own _ _ _ Hk). now split. }
  unfold effective.
  destruct self as [env file loaded]; simpl in *.
  destruct loaded; simpl.
  { rewrite Hk. destruct required; now split. }
  unfold EnvironmentConfig._load_environment; simpl.
  destruct file as [|e|vars]; simpl.
  - rewrite Hk. destruct required; now split.
  - rewrite Hk. destruct required; now split.
  - destruct ((env ∪ vars) !! key); [now split|].
    destruct required; now split.
Qed.

Lemma effective_init (environ : gmap string string)
    (file : EnvironmentConfig.dotenv_file) (key : string) :
  effective (EnvironmentConfig.init environ file) !! key
  = configured environ file key.
Proof.
  unfold effective, EnvironmentConfig.init, EnvironmentConfig._load_environment,
    configured.
  destruct file as [|e|vars]; simpl.
  - now destruct (environ !! key).
  - now destruct (environ !! key).
  - destruct (environ !! key) as [v|] eqn:Hk.
    + now apply lookup_union_Some_l.
    + now rewrite lookup_union_r.
Qed.

(** X1.  A configuration object built over a process environment and a
    [.env] file answers a read with the value of the process
    environment when it defines the key, else with the value of the
    file, else with the default; a required key that neither defines
    raises [ValueError]. *)
Theorem environment_precedence (environ : gmap string string)
    (file : EnvironmentConfig.dotenv_file) (key : string)
    (dflt : option string) (required : bool) :
  fst (EnvironmentConfig.get (EnvironmentConfig.init environ file)
         key dflt required)
  = match environ !! key with
    | Some v => Ok (Some v)
    | None =>
        match file_lookup file key with
        | Some v => Ok (Some v)
        | None =>
            if required then Raise (EnvironmentConfig.missing_required key)
            else Ok dflt
        end
    end.
Proof.
  rewrite (proj1 (get_effective _ _ _ _)), effective_init.
  unfold configured. now destruct (environ !! key).
Qed.

(** X2.  Reading one variable never changes what a later read of any
    variable returns, whether or not the first read loaded the file. *)
Theorem reads_do_not_interfere (self : EnvironmentConfig.t)
    (key key' : string) (dflt dflt' : option string) (required required' : bool) :
  fst (EnvironmentConfig.get
         (snd (EnvironmentConfig.get self key dflt required))
         key' dflt' required')
  = fst (EnvironmentConfig.get self key' dflt' required').
Proof.
  rewrite !(proj1 (get_effective _ _ _ _)).
  now rewrite (proj2 (get_effective self key dflt required)).
Qed.

(** X3.  [get_bool] gives the default when neither the environment nor
    the file defines the key; otherwise it is true exactly when the
    value, put in lower case, is one of [true], [1], [yes], [on]. *)
Theorem get_bool_reads (environ : gmap string string)
    (file : EnvironmentConfig.dotenv_file) (key : string) (dflt : bool) :
  fst (EnvironmentConfig.get_bool (EnvironmentConfig.init environ file)
         key dflt)
  = Ok (match configured environ file key with
        | Some v => existsb (String.eqb (lower v)) true_words
        | None => dflt
        end).
Proof.
  unfold EnvironmentConfig.get_bool.
  pose proof (get_effective (EnvironmentConfig.init environ file) key
                (Some (str_of_bool dflt)) false) as [Hget _].
  rewrite effective_init in Hget.
  destruct (EnvironmentConfig.get _ key _ false) as [r self']. simpl in Hget.
  subst r. destruct (configured environ file key) as [v|]; simpl.
  - reflexivity.
  - now destruct dflt.
Qed.

Lemma assoc_get_set_eq {V} (k : string) (v : V) (d : list (string * V)) :
  assoc_get k (assoc_set k v d) = Some v.
Proof.
  induction d as [|[k' v'] d IH]; simpl.
  - now rewrite String.eqb_refl.
  - destruct (String.eqb k k') eqn:E; simpl.
    + now rewrite String.eqb_refl.
    + now rewrite E.
Qed.

Lemma assoc_get_set_ne {V} (k k' : string) (v : V) (d : list (string * V)) :
  k <> k' -> assoc_get k (assoc_set k' v d) = assoc_get k d.
Proof.
  intros Hne. induction d as [|[k0 v0] d IH]; simpl.
  - destruct (String.eqb k k') eqn:E; [|reflexivity].
    apply String.eqb_eq in E. contradiction.
  - destruct (String.eqb k' k0) eqn:E0; simpl.
    + apply String.eqb_eq in E0. subst k0.
      destruct (String.eqb k k') eqn:E; [|reflexivity].
      apply String.eqb_eq in E. contradiction.
    + now rewrite IH.
Qed.

Lemma validate_loop_spec (required_vars : list string) :
  forall (self : EnvironmentConfig.t) (missing : list string)
         (validated : list (string * option string)),
  exists validated' self',
    EnvironmentConfig.validate_loop self required_vars missing validated
    = (Ok (missing ++ missing_of self required_vars, validated'), self') /\
    (forall var,
       In var required_vars -> is_Some (effective self !! var) ->
       assoc_get var validated' = Some (effective self !! var)) /\
    (forall var,
       ~ In var required_vars ->
       assoc_get var validated' = assoc_get var validated).
Proof.
  induction required_vars as [|var rest IH]; intros self missing validated.
  - exists validated, self. simpl. rewrite app_nil_r.
    split; [reflexivity|]. split; [intros var []|reflexivity].
  - cbn [EnvironmentConfig.validate_loop].
    pose proof (get_effective self var None true) as [Hget Heff].
    destruct (EnvironmentConfig.get self var None true) as [r self1].
    simpl in Hget, Heff. subst r.
    unfold missing_of in *. cbn [List.filter].
    destruct (effective self !! var) as [v|] eqn:Hvar; cbn [negb is_some].
    + destruct (IH self1 missing (assoc_set var (Some v) validated))
        as (validated' & self' & Hloop & Hin & Hout).
      rewrite Heff in *. exists validated', self'.
      split; [exact Hloop|]. split.
      * intros var' [<-|Hrest] Hsome; [|now apply Hin].
        destruct (in_dec string_dec var rest) as [Hrest|Hrest];
          [now apply Hin|].
        rewrite (Hout _ Hrest), assoc_get_set_eq. now rewrite Hvar.
      * intros var' Hnot.
        rewrite Hout by (intros Hr; apply Hnot; now right).
        apply assoc_get_set_ne. intros ->. apply Hnot. now left.
    + simpl.
      destruct (IH self1 (missing ++ [var]) validated)
        as (validated' & self' & Hloop & Hin & Hout).
      rewrite Heff in *. exists validated', self'.
      split; [now rewrite Hloop, <- app_assoc|]. split.
      * intros var' [<-|Hrest] Hsome; [|now apply Hin].
        rewrite Hvar in Hsome. now destruct Hsome.
      * intros var' Hnot. apply Hout. intros Hr. apply Hnot. now right.
Qed.

(** X4.  [validate_required_vars] succeeds exactly when every required
    variable is defined by the environment or the file: the dictionary
    it returns then gives each of them its value.  Otherwise it raises
    [ValueError], and the text lists the undefined variables in the
    order of the request. *)
Theorem required_vars_validated (self : EnvironmentConfig.t)
    (required_vars : list string) :
  (missing_of self required_vars = [] ->
   exists validated,
     fst (EnvironmentConfig.validate_required_vars self required_vars)
     = Ok validated /\
     forall var, In var required_vars ->
       exists v, effective self !! var = Some v /\
                 assoc_get var validated = Some (Some v)) /\
  (missing_of self required_vars <> [] ->
   fst (EnvironmentConfig.validate_required_vars self required_vars)
   = Raise (mk_exn ValueError
              ("Missing required environment variables: "
               +:+ join ", " (missing_of self required_vars)))).
Proof.
  unfold EnvironmentConfig.validate_required_vars.
  destruct (validate_loop_spec required_vars self [] [])
    as (validated & self' & -> & Hin & _). simpl.
  split.
  - intros Hnone. rewrite Hnone. simpl. exists validated.
    split; [reflexivity|]. intros var Hvar.
    destruct (effective self !! var) as [v|] eqn:Hv.
    + exists v. split; [reflexivity|]. rewrite <- Hv. apply Hin; [exact Hvar|].
      rewrite Hv. eauto.
    + exfalso. unfold missing_of in Hnone.
      assert (Hmem : In var (List.filter
                (fun v => negb (is_some (effective self !! v))) required_vars)).
      { apply filter_In. split; [exact Hvar|]. now rewrite Hv. }
      rewrite Hnone in Hmem. exact Hmem.
  - intros Hsome. destruct (missing_of self required_vars); [congruence|].
    reflexivity.
Qed.

Lemma required_vars_validated_witness :
  (exists validated,
     fst (EnvironmentConfig.validate_required_vars sample_config
            ["OPENAI_API_KEY"; "NEO4J_URI"]) = Ok validated /\
     assoc_get "OPENAI_API_KEY" validated = Some (Some "sk-system")) /\
  fst (EnvironmentConfig.validate_required_vars sample_config
         ["GEMINI_ENABLED"; "OPENAI_API_KEY"; "GCS_FILE_CACHE"])
  = Raise (mk_exn ValueError
             "Missing required environment variables: GEMINI_ENABLED, GCS_FILE_CACHE").
Proof.
  split.
  - destruct (proj1 (required_vars_validated sample_config
                       ["OPENAI_API_KEY"; "NEO4J_URI"]))
      as (validated & Hrun & Hvars).
    { vm_compute. reflexivity. }
    exists validated. split; [exact Hrun|].
    destruct (Hvars "OPENAI_API_KEY") as (v & Hv & Hget); [now left|].
    rewrite Hget. vm_compute in Hv. now injection Hv as <-.
  - rewrite (proj2 (required_vars_validated sample_config
                      ["GEMINI_ENABLED"; "OPENAI_API_KEY"; "GCS_FILE_CACHE"])).
    + vm_compute. reflexivity.
    + vm_compute. discriminate.
Defined.

(** ** History handles *)

(** X5.  The session map hands out one in-memory history per session
    id: after a request the session is registered with the history
    returned, the other sessions are as before, and asking again
    returns the same history without changing the map; a history that
    was registered before is returned as it is. *)
Theorem session_history_registered (session : string)
    (dict : gmap string ChatMessageHistory.t) :
  let '(h, dict') := get_chat_history session dict in
  dict' !! session = Some h /\
  (forall other, other <> session -> dict' !! other = dict !! other) /\
  get_chat_history session dict' = (h, dict') /\
  (forall h0, dict !! session = Some h0 -> h = h0 /\ dict' = dict).
Proof.
  unfold get_chat_history.
  destruct (dict !! session) as [h0|] eqn:Hs.
  - rewrite Hs. repeat split; try congruence.
  - rewrite lookup_insert_eq. split; [reflexivity|].
    split; [intros other Hne; now apply lookup_insert_ne|].
    split; [reflexivity | discriminate].
Qed.

Lemma session_history_registered_witness :
  let '(h, dict') :=
    get_chat_history "s1" (<["s1" := ChatMessageHistory.mk stored_exchange]> ∅) in
  h = ChatMessageHistory.mk stored_exchange /\
  dict' !! "s2" = None.
Proof.
  pose proof (session_history_registered "s1"
                (<["s1" := ChatMessageHistory.mk stored_exchange]> ∅)) as Hreg.
  destruct (get_chat_history "s1" _) as [h dict'].
  destruct Hreg as (_ & Hother & _ & Hsame).
  split.
  - apply (Hsame (ChatMessageHistory.mk stored_exchange)).
    apply lookup_insert_eq.
  - rewrite Hother by discriminate. vm_compute. reflexivity.
Defined.

Lemma read_fills_cache (self : SafeNeo4jChatMessageHistory.t) :
  let '(view, self1) := SafeNeo4jChatMessageHistory.messages self in
  SafeNeo4jChatMessageHistory._messages_validated self1 = true /\
  SafeNeo4jChatMessageHistory._cached_messages self1 = view /\
  SafeNeo4jChatMessageHistory.neo4j_history self1
  = SafeNeo4jChatMessageHistory.neo4j_history self /\
  SafeNeo4jChatMessageHistory._session_id self1
  = SafeNeo4jChatMessageHistory._session_id self.
Proof.
  unfold SafeNeo4jChatMessageHistory.messages,
    SafeNeo4jChatMessageHistory._validate_and_cache_messages.
  destruct (SafeNeo4jChatMessageHistory._messages_validated self) eqn:Hv.
  - auto.
  - destruct (_ ≫= _); simpl; auto.
Qed.

Lemma read_of_cache (self : SafeNeo4jChatMessageHistory.t) :
  SafeNeo4jChatMessageHistory._messages_validated self = true ->
  SafeNeo4jChatMessageHistory.messages self
  = (SafeNeo4jChatMessageHistory._cached_messages self, self).
Proof.
  unfold SafeNeo4jChatMessageHistory.messages,
    SafeNeo4jChatMessageHistory._validate_and_cache_messages.
  now intros ->.
Qed.

(** X6.  Reading the wrapper's messages is memoized: a second read
    returns the view of the first and leaves the wrapper as the first
    read left it, whatever the library object holds. *)
Theorem wrapper_read_memoized (self : SafeNeo4jChatMessageHistory.t) :
  let '(view, self1) := SafeNeo4jChatMessageHistory.messages self in
  SafeNeo4jChatMessageHistory.messages self1 = (view, self1).
Proof.
  pose proof (read_fills_cache self) as Hread.
  destruct (SafeNeo4jChatMessageHistory.messages self) as [view self1].
  destruct Hread as (Hv & Hc & _). now rewrite read_of_cache, Hc.
Qed.

(** X7.  A write through the wrapper never raises and never leaves a
    stale view behind a read.  After a read, a message the store
    accepts makes the next read validate the raw records again, as a
    wrapper built anew on the updated store would; a clear the store
    accepts makes the next read return the empty list; a write the
    store refuses leaves the wrapper, and with it the view read
    before, as it was. *)
Theorem wrapper_writes_coherent (self : SafeNeo4jChatMessageHistory.t)
    (m : BaseMessage) :
  let neo := SafeNeo4jChatMessageHistory.neo4j_history self in
  let sid := SafeNeo4jChatMessageHistory._session_id self in
  let '(view, self1) := SafeNeo4jChatMessageHistory.messages self in
  match neo_add_message neo m with
  | Ok neo' =>
      neo_stored neo' = neo_stored neo ++ [RawMessage m] /\
      SafeNeo4jChatMessageHistory.messages
        (SafeNeo4jChatMessageHistory.add_message self1 m)
      = SafeNeo4jChatMessageHistory.messages
          (SafeNeo4jChatMessageHistory.init neo' sid)
  | Raise _ =>
      SafeNeo4jChatMessageHistory.messages
        (SafeNeo4jChatMessageHistory.add_message self1 m)
      = (view, self1)
  end /\
  match neo_clear neo with
  | Ok neo' =>
      neo_stored neo' = [] /\
      SafeNeo4jChatMessageHistory.messages
        (SafeNeo4jChatMessageHistory.clear self1)
      = (Some [], SafeNeo4jChatMessageHistory.mk neo' sid (Some []) true)
  | Raise _ =>
      SafeNeo4jChatMessageHistory.messages
        (SafeNeo4jChatMessageHistory.clear self1)
      = (view, self1)
  end.
Proof.
  cbv zeta.
  pose proof (read_fills_cache self) as Hread.
  destruct (SafeNeo4jChatMessageHistory.messages self) as [view self1].
  destruct Hread as (Hv & Hc & Hneo & Hsid).
  unfold SafeNeo4jChatMessageHistory.add_message,
    SafeNeo4jChatMessageHistory.clear.
  rewrite Hneo, Hsid. split.
  - destruct (neo_add_message _ m) as [neo'|e] eqn:Hadd.
    + split; [|reflexivity]. unfold neo_add_message in Hadd.
      destruct (neo_add_error _); [discriminate|]. now injection Hadd as <-.
    + now rewrite read_of_cache, Hc.
  - destruct (neo_clear _) as [neo'|e] eqn:Hclear.
    + split; [|reflexivity]. unfold neo_clear in Hclear.
      destruct (neo_clear_error _); [discriminate|]. now injection Hclear as <-.
    + now rewrite read_of_cache, Hc.
Qed.

(** X8.  Clearing a durable history always echoes the session id and
    does not touch the session map.  The reply says the history has
    been cleared whenever the history object could be built, also when
    the store refused the clear and still holds its messages; it says
    the clear failed only when building the history object raised. *)
Theorem clear_durable_history (W : World) (session : string) (st : state) :
  let '(reply, h, st') := clear_chat_history W session false st in
  reply_session_id reply = session /\
  history_dict st' = history_dict st /\
  (forall e, new_neo4j_history W session = Raise e ->
     reply_message reply = "Failed to clear chat history." /\ h = None) /\
  (forall neo, new_neo4j_history W session = Ok neo ->
     reply_message reply = "The chat history has been cleared." /\
     exists w, h = Some (Durable w) /\
       stored (Durable w)
       = match neo_clear_error neo with
         | None => []
         | Some _ => neo_stored neo
         end).
Proof.
  unfold clear_chat_history. simpl.
  destruct (new_neo4j_history W session) as [neo|e]; simpl.
  - split; [reflexivity|]. split; [reflexivity|].
    split; [intros e; discriminate|].
    intros neo' [= <-]. split; [reflexivity|].
    eexists. split; [reflexivity|].
    unfold SafeNeo4jChatMessageHistory.clear, neo_clear. simpl.
    now destruct (neo_clear_error neo).
  - split; [reflexivity|]. split; [reflexivity|].
    split; [intros e' _; now split | intros neo; discriminate].
Qed.

(** A store that holds an exchange and refuses to be cleared. *)
Lemma clear_durable_history_witness :
  let W := mk_world ∅
             (fun _ => Ok (mk_neo4j_history stored_exchange AttrMissing
                             (Ok stored_exchange) None
                             (Some (mk_exn (OtherError "ServiceUnavailable")
                                      "store unreachable"))))
             (get_llm sample_world) (graph_chain_from_llm sample_world)
             (vector_from_existing_graph sample_world)
             (as_retriever sample_world) (retriever_chain sample_world) in
  let '(reply, h, _) := clear_chat_history W "s1" false sample_state in
  reply_message reply = "The chat history has been cleared." /\
  (stored <$> h) = Some stored_exchange.
Proof.
  intros W.
  pose proof (clear_durable_history W "s1" sample_state) as Hclear.
  destruct (clear_chat_history W "s1" false sample_state) as [[reply h] st'].
  destruct Hclear as (_ & _ & _ & Hok).
  destruct (Hok _ eq_refl) as (Hmsg & w & -> & Hstored).
  split; [exact Hmsg|]. cbn [fmap option_fmap option_map]. now rewrite Hstored.
Defined.

(** X9.  Clearing an in-memory history calls no collaborator, leaves
    the session registered with an empty history, and leaves the other
    sessions of the map as they were. *)
Theorem clear_local_history (W : World) (session : string) (st : state) :
  let '(reply, h, st') := clear_chat_history W session true st in
  reply = mk_clear_reply session "The chat history has been cleared." "chatbot" /\
  trace st' = trace st /\
  history_dict st' !! session = Some ChatMessageHistory.init /\
  (stored <$> h) = Some [] /\
  (forall other, other <> session ->
     history_dict st' !! other = history_dict st !! other).
Proof.
  unfold clear_chat_history. simpl.
  pose proof (session_history_registered session (history_dict st)) as Hreg.
  destruct (get_chat_history session (history_dict st)) as [h dict'].
  destruct Hreg as (_ & Hother & _). simpl.
  split; [reflexivity|]. split; [reflexivity|].
  split; [apply lookup_insert_eq|]. split; [reflexivity|].
  intros other Hne. rewrite lookup_insert_ne by congruence. now apply Hother.
Qed.

Lemma clear_local_history_witness :
  let st := mk_state sample_settings_map
              (<["s1" := ChatMessageHistory.mk stored_exchange]>
                 (<["s2" := ChatMessageHistory.mk stored_exchange]> ∅)) [] in
  let '(_, _, st') := clear_chat_history sample_world "s1" true st in
  history_dict st' !! "s1" = Some ChatMessageHistory.init /\
  history_dict st' !! "s2" = Some (ChatMessageHistory.mk stored_exchange).
Proof.
  intros st.
  pose proof (clear_local_history sample_world "s1" st) as Hclear.
  destruct (clear_chat_history sample_world "s1" true st) as [[reply h] st'].
  destruct Hclear as (_ & _ & Hs1 & _ & Hother).
  split; [exact Hs1|]. rewrite Hother by discriminate.
  vm_compute. reflexivity.
Defined.

(** ** The summarizer, in full *)

(** X10.  The summarizer makes no model call on an empty sequence and
    exactly one otherwise.  It returns true exactly when the sequence is
    not empty, the model call succeeds and the handle is the in-memory
    history; when the model call raises, the handle is left as it
    was. *)
Theorem summarize_outcomes (h : history) (stored_messages : list raw_record)
    (llm : LLM) :
  let '(ok, h', calls) := summarize_and_log h stored_messages llm in
  calls = (match stored_messages with
           | [] => []
           | _ => [InvokeLLM (summarization_prompt stored_messages)]
           end) /\
  (ok = true <->
   stored_messages <> [] /\ (exists c, h = Volatile c) /\
   exists m, llm_invoke llm (summarization_prompt stored_messages) = Ok m) /\
  (forall e,
     llm_invoke llm (summarization_prompt stored_messages) = Raise e ->
     ok = false /\ h' = h).
Proof.
  unfold summarize_and_log.
  destruct stored_messages as [|r l].
  - split; [reflexivity|]. split.
    + split; [discriminate | intros [Hne _]; congruence].
    + now intros e _.
  - fold (summarization_prompt (r :: l)).
    destruct (llm_invoke llm (summarization_prompt (r :: l))) as [m|e].
    + destruct h as [w|c]; simpl.
      * split; [reflexivity|]. split; [|discriminate].
        split; [discriminate|]. intros (_ & [c Hc] & _). discriminate.
      * split; [reflexivity|]. split; [|discriminate].
        split; [|reflexivity]. intros _.
        split; [discriminate|]. split; eauto.
    + split; [reflexivity|]. split.
      * split; [discriminate|]. intros (_ & _ & [m Hm]). discriminate.
      * intros e' _. now split.
Qed.

Lemma summarize_outcomes_witness :
  fst (fst (summarize_and_log (Volatile (ChatMessageHistory.mk stored_exchange))
              stored_exchange sample_llm)) = true /\
  snd (fst (summarize_and_log durable_session stored_exchange
              (mk_llm ChatOpenAI
                 (fun _ => Raise (mk_exn (OtherError "RateLimitError") "busy")))))
  = durable_session.
Proof.
  split.
  - pose proof (summarize_outcomes (Volatile (ChatMessageHistory.mk stored_exchange))
                  stored_exchange sample_llm) as Hs.
    destruct (summarize_and_log _ stored_exchange sample_llm) as [[ok h'] calls].
    destruct Hs as (_ & Htrue & _). simpl. apply Htrue.
    split; [discriminate|]. split; eexists; reflexivity.
  - pose proof (summarize_outcomes durable_session stored_exchange
                  (mk_llm ChatOpenAI
                     (fun _ => Raise (mk_exn (OtherError "RateLimitError") "busy"))))
      as Hs.
    destruct (summarize_and_log durable_session stored_exchange _)
      as [[ok h'] calls].
    destruct Hs as (_ & _ & Hraise). simpl.
    now destruct (Hraise _ eq_refl).
Defined.

(** ** Cleaning the messages of a handle *)

Lemma keep_typed_well_formed (r : raw_record) : keep_typed r = well_formed r.
Proof.
  destruct r as [|s|m]; unfold keep_typed, well_formed; simpl;
    [reflexivity | reflexivity | now destruct (msg_type m)].
Qed.

Lemma filter_idempotent {A} (p : A -> bool) (l : list A) :
  List.filter p (List.filter p l) = List.filter p l.
Proof.
  induction l as [|a l IH]; simpl; [reflexivity|].
  destruct (p a) eqn:Hp; simpl; [rewrite Hp|]; now rewrite IH.
Qed.

(** X11.  Cleaning an in-memory history returns its well-formed
    messages in order and never raises; cleaning the result again
    changes nothing.  [safe_get_messages] gives the same list. *)
Theorem clean_in_memory_history (c : ChatMessageHistory.t) :
  let cleaned := validate_and_clean_messages (OfHandle (Volatile c)) in
  cleaned = List.filter well_formed (ChatMessageHistory.messages c) /\
  safe_get_messages (OfHandle (Volatile c)) = cleaned /\
  validate_and_clean_messages
    (OfHandle (Volatile (ChatMessageHistory.mk cleaned))) = cleaned.
Proof.
  assert (Hclean : forall c',
            validate_and_clean_messages (OfHandle (Volatile c'))
            = List.filter well_formed (ChatMessageHistory.messages c')).
  { intros c'. unfold validate_and_clean_messages, history_messages.
    cbn [fst]. rewrite validation_loop_ok.
    apply filter_ext_bool, keep_typed_well_formed. }
  simpl. split; [apply Hclean|]. split; [reflexivity|].
  rewrite (Hclean (ChatMessageHistory.mk _)), Hclean. simpl.
  apply filter_idempotent.
Qed.

(** ** Token accounting *)

Section TokenFacts.
Context `{Builtins}.

(** X12.  The token count of a reply.  Each known class of chat model
    reads its own place in the response metadata: the OpenAI, Azure,
    Fireworks and Groq clients the total under [token_usage], the
    Bedrock client the total under [usage], the Vertex client the
    prompt count under [usage_metadata], the Ollama client the
    top-level prompt count, and the Anthropic client the sum of the
    input and output counts under [usage].  The count is 0 for a class
    the function does not know, whatever the metadata holds, and for
    every class when the metadata is empty or is no dictionary. *)
Theorem tokens_by_provider (ai_response : BaseMessage) (llm : LLM) :
  (llm_class llm = OtherChatModel ->
   get_total_tokens ai_response llm = PyInt 0) /\
  (response_metadata ai_response = PyDict [] ->
   get_total_tokens ai_response llm = PyInt 0) /\
  ((forall items, response_metadata ai_response <> PyDict items) ->
   get_total_tokens ai_response llm = PyInt 0) /\
  (forall (items usage : list (string * pyval)) (v : pyval) (a b : Z),
     response_metadata ai_response = PyDict items ->
     (In (llm_class llm) [ChatOpenAI; AzureChatOpenAI; ChatFireworks; ChatGroq] ->
      assoc_get "token_usage" items = Some (PyDict usage) ->
      assoc_get "total_tokens" usage = Some v ->
      get_total_tokens ai_response llm = v) /\
     (llm_class llm = ChatBedrock ->
      assoc_get "usage" items = Some (PyDict usage) ->
      assoc_get "total_tokens" usage = Some v ->
      get_total_tokens ai_response llm = v) /\
     (llm_class llm = ChatVertexAI ->
      assoc_get "usage_metadata" items = Some (PyDict usage) ->
      assoc_get "prompt_token_count" usage = Some v ->
      get_total_tokens ai_response llm = v) /\
     (llm_class llm = ChatOllama ->
      assoc_get "prompt_eval_count" items = Some v ->
      get_total_tokens ai_response llm = v) /\
     (llm_class llm = ChatAnthropic ->
      assoc_get "usage" items = Some (PyDict usage) ->
      assoc_get "input_tokens" usage = Some (PyInt a) ->
      assoc_get "output_tokens" usage = Some (PyInt b) ->
      get_total_tokens ai_response llm = PyInt (a + b))).
Proof.
  unfold get_total_tokens. split; [|split; [|split]].
  - now intros ->.
  - intros ->. destruct (llm_class llm); simpl; try reflexivity.
    now rewrite py_int_int.
  - intros Hnot.
    destruct (response_metadata ai_response) as [| | | | |l|items];
      try (destruct (llm_class llm); reflexivity).
    now destruct (Hnot items).
  - intros items usage v a b Hmd. rewrite Hmd. repeat split.
    + intros Hclass Husage Htotal.
      assert (Hsame : match llm_class llm with
                      | ChatOpenAI | AzureChatOpenAI | ChatFireworks
                      | ChatGroq => True
                      | _ => False
                      end).
      { simpl in Hclass. destruct Hclass as [<-|[<-|[<-|[<-|[]]]]]; exact I. }
      destruct (llm_class llm); try contradiction;
        simpl; rewrite Husage; simpl; now rewrite Htotal.
    + intros -> Husage Htotal. simpl. rewrite Husage. simpl. now rewrite Htotal.
    + intros -> Husage Htotal. simpl. rewrite Husage. simpl. now rewrite Htotal.
    + intros -> Htotal. simpl. now rewrite Htotal.
    + intros -> Husage Hin Hout. simpl. rewrite Husage. simpl.
      rewrite Hin. simpl. rewrite py_int_int. simpl.
      rewrite Hout. simpl. now rewrite py_int_int.
Qed.

End TokenFacts.

Lemma tokens_by_provider_witness :
  get_total_tokens (sample_reply "answer")
    (mk_llm OtherChatModel (fun _ => Ok (AIMessage ""))) = PyInt 0 /\
  get_total_tokens (AIMessage "answer")
    (mk_llm ChatAnthropic (fun _ => Ok (AIMessage ""))) = PyInt 0 /\
  get_total_tokens (sample_reply "answer") sample_llm = PyInt 42 /\
  get_total_tokens
    (mk_message (Some "ai") "answer"
       (PyDict [("usage", PyDict [("input_tokens", PyInt 30);
                                  ("output_tokens", PyInt 12)])]))
    (mk_llm ChatAnthropic (fun _ => Ok (AIMessage ""))) = PyInt 42.
Proof.
  split; [|split; [|split]].
  - now apply (proj1 (tokens_by_provider (sample_reply "answer")
                        (mk_llm OtherChatModel (fun _ => Ok (AIMessage ""))))).
  - now apply (proj1 (proj2 (tokens_by_provider (AIMessage "answer")
                        (mk_llm ChatAnthropic (fun _ => Ok (AIMessage "")))))).
  - apply (proj1 (proj2 (proj2 (proj2
             (tokens_by_provider (sample_reply "answer") sample_llm)))
             [("token_usage", PyDict [("total_tokens", PyInt 42)])]
             [("total_tokens", PyInt 42)] (PyInt 42) 0 0 eq_refl));
      [simpl; auto | reflexivity | reflexivity].
  - apply (proj2 (proj2 (proj2 (proj2
             (proj2 (proj2 (proj2
                (tokens_by_provider
                   (mk_message (Some "ai") "answer"
                      (PyDict [("usage", PyDict [("input_tokens", PyInt 30);
                                                 ("output_tokens", PyInt 12)])]))
                   (mk_llm ChatAnthropic (fun _ => Ok (AIMessage ""))))))
                [("usage", PyDict [("input_tokens", PyInt 30);
                                   ("output_tokens", PyInt 12)])]
                [("input_tokens", PyInt 30); ("output_tokens", PyInt 12)]
                PyNone 30 12 eq_refl)))));
      reflexivity.
Defined.

(** ** The stages of the retrieval path *)

Section RetrievalFacts.
Context `{Constants} `{Builtins} `{Sorting}.

Ltac run_stage :=
  repeat (case_match; simplify_eq;
          cbn [mbind mret traced_bind traced_ret app fst snd] in * ).

(** What [setup_chat] records: the model request, then the vector
    index, the retriever and the retriever chain, as far as it gets. *)
Lemma setup_chat_events (W : World) (model : string) (names : list string)
    (settings : ChatModeSettings) :
  forall ev, In ev (snd (setup_chat W model names settings)) ->
    ev = GetLLM (chat_model W model) \/
    (exists index kw, ev = OpenVectorIndex index kw) \/
    (exists ef, ev = BuildRetriever (top_k settings) ef
                       CHAT_SEARCH_KWARG_SCORE_THRESHOLD
                       (retriever_filter names settings)) \/
    ev = BuildRetrieverChain.
Proof.
  unfold setup_chat, get_neo4j_retriever, initialize_neo4j_vector,
    create_retriever, try_except, call, lift, chat_model, retriever_filter.
  cbn [mbind mret traced_bind traced_ret].
  intros ev.
  run_stage; simpl; intros Hin;
    repeat match goal with
           | Hor : _ \/ _ |- _ => destruct Hor as [<-|Hor]
           | Hf : False |- _ => destruct Hf
           end;
    eauto 6.
Qed.

(** The five ways a turn of the retrieval path ends. *)
Lemma process_chat_response_cases (W : World) (messages : list raw_record)
    (h : history) (question model : string) (names : list string)
    (settings : ChatModeSettings) (m : string) :
  get_mode settings = Ok m ->
  let run := process_chat_response W messages h question model names settings in
  let evs0 := snd (setup_chat W model names settings) in
  (exists e,
     fst (setup_chat W model names settings) = Raise e /\
     run = (Ok (failure m e), evs0)) \/
  (exists llm dr mv,
     fst (setup_chat W model names settings) = Ok (llm, dr, mv) /\
     (((retriever_invoke dr messages = Ok [] \/
        exists e, retriever_invoke dr messages = Raise e) /\
       run = (Ok (degraded mv m),
              evs0 ++ [InvokeRetriever messages;
                       StartSummarizer h
                         (messages ++ [RawMessage (AIMessage no_documents)])])) \/
      (exists d ds,
         retriever_invoke dr messages = Ok (d :: ds) /\
         ((exists e,
             context_of (d :: ds) model settings = Raise e /\
             run = (Ok (failure m e), evs0 ++ [InvokeRetriever messages])) \/
          (exists ctx,
             context_of (d :: ds) model settings = Ok ctx /\
             let prompt := rag_prompt messages ctx question in
             ((exists e,
                 llm_invoke llm prompt = Raise e /\
                 run = (Ok (failure m e),
                        evs0 ++ [InvokeRetriever messages; InvokeLLM prompt])) \/
              (exists reply,
                 llm_invoke llm prompt = Ok reply /\
                 run = (Ok (answer mv m reply llm),
                        evs0 ++ [InvokeRetriever messages; InvokeLLM prompt;
                                 StartSummarizer h
                                   (messages
                                    ++ [RawMessage
                                          (AIMessage (msg_content reply))])])))))))).
Proof.
  intros Hm. cbv zeta. unfold process_chat_response, try_except.
  destruct (setup_chat W model names settings) as [[[[llm dr] mv]|e] evs0];
    cbn [mbind mret traced_bind traced_ret fst snd].
  2:{ left. exists e. split; [reflexivity|]. unfold lift. rewrite Hm.
      cbn [mbind mret traced_bind traced_ret]. now rewrite app_nil_r. }
  right. exists llm, dr, mv. split; [reflexivity|].
  unfold retrieve_documents, try_except, call.
  cbn [mbind mret traced_bind traced_ret].
  destruct (retriever_invoke dr messages) as [[|d ds]|e] eqn:Hinvoke;
    cbn [mbind mret traced_bind traced_ret app].
  - left. split; [now left|]. unfold lift. rewrite Hm.
    cbn [mbind mret traced_bind traced_ret app].
    now rewrite ?app_nil_r, <- ?app_assoc.
  - right. exists d, ds. split; [reflexivity|].
    unfold process_documents, context_of, lift.
    destruct (format_documents (d :: ds) model settings)
      as [[[[ctx ?] ?] ?]|e];
      cbn [mbind mret traced_bind traced_ret outcome_bind app].
    + right. exists ctx. split; [reflexivity|].
      unfold call. cbn [mbind mret traced_bind traced_ret app].
      destruct (llm_invoke llm (rag_prompt messages ctx question)) as [reply|e];
        cbn [mbind mret traced_bind traced_ret app].
      * right. exists reply. split; [reflexivity|]. rewrite Hm.
        cbn [mbind mret traced_bind traced_ret app].
        now rewrite ?app_nil_r, <- ?app_assoc.
      * left. exists e. split; [reflexivity|]. rewrite Hm.
        cbn [mbind mret traced_bind traced_ret app].
        now rewrite ?app_nil_r, <- ?app_assoc.
    + left. exists e. split; [reflexivity|]. rewrite Hm.
      cbn [mbind mret traced_bind traced_ret app].
      now rewrite ?app_nil_r, <- ?app_assoc.
  - left. split; [right; now exists e|]. unfold lift. rewrite Hm.
    cbn [mbind mret traced_bind traced_ret app].
    now rewrite ?app_nil_r, <- ?app_assoc.
Qed.

Lemma filter_none {A} (p : A -> bool) (l : list A) :
  (forall a, In a l -> p a = false) -> List.filter p l = [].
Proof.
  induction l as [|a l IH]; intros Hall; [reflexivity|].
  simpl. rewrite (Hall a (or_introl eq_refl)). apply IH.
  intros b Hb. apply Hall. now right.
Qed.

Lemma setup_chat_no_summarizer (W : World) (model : string)
    (names : list string) (settings : ChatModeSettings) :
  List.filter starts_summarizer (snd (setup_chat W model names settings)) = [].
Proof.
  apply filter_none. intros ev Hin.
  destruct (setup_chat_events W model names settings ev Hin)
    as [->|[(? & ? & ->)|[(? & ->)| ->]]]; reflexivity.
Qed.

Lemma setup_chat_no_model_call (W : World) (model : string)
    (names : list string) (settings : ChatModeSettings) (prompt : list raw_record) :
  ~ In (InvokeLLM prompt) (snd (setup_chat W model names settings)).
Proof.
  intros Hin.
  destruct (setup_chat_events W model names settings _ Hin)
    as [?|[(? & ? & ?)|[(? & ?)|?]]]; discriminate.
Qed.

(** X13.  A mode configuration without a retrieval query or without an
    index name ends the turn before any index is opened: the only call
    made is the request for the chat model, and the turn returns the
    failure envelope, whose error names the index and the missing
    settings (or is the error of the model request, when that failed
    first). *)
Theorem incomplete_settings_reported (W : World) (messages : list raw_record)
    (h : history) (question model : string) (names : list string)
    (settings : ChatModeSettings) (m : string) :
  falsy (retrieval_query settings) || falsy (index_name settings) = true ->
  get_mode settings = Ok m ->
  process_chat_response W messages h question model names settings
  = (Ok (failure m
           match get_llm W (chat_model W model) with
           | Raise e => e
           | Ok _ =>
               retriever_error settings
                 "Required settings 'retrieval_query' or 'index_name' are missing."
           end),
     [GetLLM (chat_model W model)]).
Proof.
  intros Hfalsy Hm.
  unfold process_chat_response, setup_chat, get_neo4j_retriever,
    initialize_neo4j_vector, try_except, call, lift, chat_model.
  rewrite Hfalsy, Hm.
  cbn [mbind mret traced_bind traced_ret].
  destruct (get_llm W _) as [[llm mv]|e];
    cbn [mbind mret traced_bind traced_ret app]; reflexivity.
Qed.

(** X14.  The summarizer is started once on every turn of the retrieval
    path that returns without an error, on the history handle of the
    turn and on the messages extended by the answer the envelope
    carries; a turn that reports an error does not start it. *)
Theorem summarizer_started_on_answers (W : World) (messages : list raw_record)
    (h : history) (question model : string) (names : list string)
    (settings : ChatModeSettings) (m : string) :
  get_mode settings = Ok m ->
  exists env evs,
    process_chat_response W messages h question model names settings
    = (Ok env, evs) /\
    List.filter starts_summarizer evs
    = match info_error (info env) with
      | None =>
          [StartSummarizer h
             (messages ++ [RawMessage (AIMessage (message env))])]
      | Some _ => []
      end.
Proof.
  intros Hm.
  pose proof (setup_chat_no_summarizer W model names settings) as Hquiet.
  destruct (process_chat_response_cases W messages h question model names
              settings m Hm)
    as [(e & _ & ->)
       |(llm & dr & mv & _ &
         [[_ ->]
         |(d & ds & _ &
           [(e & _ & ->)
           |(ctx & _ & [(e & _ & ->)|(reply & _ & ->)])])])];
    eexists; eexists; (split; [reflexivity|]);
    rewrite ?List.filter_app, ?Hquiet; reflexivity.
Qed.

(** X15.  The answering call, the one call [process_chat_response]
    itself makes to the chat model, is made only when the retriever
    chain returned at least one document and the context of those
    documents could be built, and then on the prompt made of the system
    template over that context, the earlier messages without the last
    one, and the question.  (What the retriever chain asks of the chat
    model while it runs, to rewrite the question of a turn that has
    earlier messages, is part of the invocation of the chain and is
    recorded with it, not as a call of its own.) *)
Theorem answering_call_needs_documents (W : World)
    (messages : list raw_record) (h : history) (question model : string)
    (names : list string) (settings : ChatModeSettings) (m : string)
    (prompt : list raw_record) :
  get_mode settings = Ok m ->
  In (InvokeLLM prompt)
    (snd (process_chat_response W messages h question model names settings)) ->
  exists dr d ds ctx,
    retriever_chain W = Ok dr /\
    retriever_invoke dr messages = Ok (d :: ds) /\
    context_of (d :: ds) model settings = Ok ctx /\
    prompt = rag_prompt messages ctx question.
Proof.
  intros Hm.
  pose proof (setup_chat_no_model_call W model names settings prompt) as Hquiet.
  pose proof (setup_chat_spec W model names settings) as Hsetup.
  destruct (process_chat_response_cases W messages h question model names
              settings m Hm)
    as [(e & _ & ->)
       |(llm & dr & mv & Hok &
         [[_ ->]
         |(d & ds & Hdocs &
           [(e & _ & ->)
           |(ctx & Hctx & [(e & _ & ->)|(reply & _ & ->)])])])];
    cbn [snd]; rewrite ?in_app_iff; simpl; intros Hin.
  - contradiction.
  - destruct Hin as [?|[?|[?|[]]]]; [contradiction|discriminate|discriminate].
  - destruct Hin as [?|[?|[]]]; [contradiction|discriminate].
  - destruct (setup_chat W model names settings) as [r evs0].
    destruct Hsetup as [_ Hsame]. simpl in Hok.
    destruct Hin as [?|[?|[Heq|[]]]]; [contradiction|discriminate|].
    injection Heq as <-. exists dr, d, ds, ctx. eauto.
  - destruct (setup_chat W model names settings) as [r evs0].
    destruct Hsetup as [_ Hsame]. simpl in Hok.
    destruct Hin as [?|[?|[Heq|[?|[]]]]]; [contradiction|discriminate| |discriminate].
    injection Heq as <-. exists dr, d, ds, ctx. eauto.
Qed.

End RetrievalFacts.

Lemma incomplete_settings_reported_witness :
  process_chat_response sample_world sample_turn durable_session "What is X?"
    "openai_gpt_4o" [] incomplete_settings
  = (Ok (failure "vector"
           (retriever_error incomplete_settings
              "Required settings 'retrieval_query' or 'index_name' are missing.")),
     [GetLLM "openai_gpt_4o"]).
Proof.
  exact (incomplete_settings_reported sample_world sample_turn durable_session
           "What is X?" "openai_gpt_4o" [] incomplete_settings "vector"
           eq_refl eq_refl).
Defined.

Lemma summarizer_started_on_answers_witness :
  exists env evs,
    process_chat_response sample_world sample_turn durable_session "What is X?"
      "openai_gpt_4o" [] (set_mode "vector" vector_settings)
    = (Ok env, evs) /\
    List.filter starts_summarizer evs
    = match info_error (info env) with
      | None =>
          [StartSummarizer durable_session
             (sample_turn ++ [RawMessage (AIMessage (message env))])]
      | Some _ => []
      end.
Proof.
  exact (summarizer_started_on_answers sample_world sample_turn durable_session
           "What is X?" "openai_gpt_4o" [] (set_mode "vector" vector_settings)
           "vector" eq_refl).
Defined.

Lemma answering_call_needs_documents_witness :
  exists dr d ds ctx,
    retriever_chain sample_world = Ok dr /\
    retriever_invoke dr sample_turn = Ok (d :: ds) /\
    context_of (d :: ds) "openai_gpt_4o" (set_mode "vector" vector_settings)
    = Ok ctx /\
    rag_prompt sample_turn
      (block (sample_doc "two" (9 # 10)) +:+ nl +:+ nl
       +:+ block (sample_doc "three" (9 # 10)) +:+ nl +:+ nl
       +:+ block (sample_doc "one" (1 # 5)))
      "What is X?"
    = rag_prompt sample_turn ctx "What is X?".
Proof.
  apply (answering_call_needs_documents sample_world sample_turn
           durable_session "What is X?" "openai_gpt_4o" []
           (set_mode "vector" vector_settings) "vector" _ eq_refl).
  vm_compute. auto 10.
Defined.

(** ** The orchestrator, call by call *)

Section RequestFacts.
Context `{Constants} `{Builtins} `{Sorting} `{JsonDecoder}.

(** The calls of a turn of the retrieval path: those of the set-up,
    the invocation of the retriever chain on the messages of the turn,
    a model call, the start of the summarizer. *)
Lemma process_chat_response_events (W : World) (messages : list raw_record)
    (h : history) (question model : string) (names : list string)
    (settings : ChatModeSettings) (m : string) (ev : event) :
  get_mode settings = Ok m ->
  In ev (snd (process_chat_response W messages h question model names settings)) ->
  In ev (snd (setup_chat W model names settings)) \/
  ev = InvokeRetriever messages \/
  invokes_model ev = true \/
  starts_summarizer ev = true.
Proof.
  intros Hm.
  destruct (process_chat_response_cases W messages h question model names
              settings m Hm)
    as [(e & _ & ->)
       |(llm & dr & mv & _ &
         [[_ ->]
         |(d & ds & _ &
           [(e & _ & ->)
           |(ctx & _ & [(e & _ & ->)|(reply & _ & ->)])])])];
    cbn [snd]; rewrite ?in_app_iff; simpl; intros Hin;
    repeat match goal with
           | Hor : _ \/ _ |- _ => destruct Hor as [Hor|Hor]
           | Hf : False |- _ => destruct Hf
           end;
    subst; auto.
Qed.

(** The envelope of a turn of the retrieval path names the mode written
    into the settings. *)
Lemma process_chat_response_mode (W : World) (messages : list raw_record)
    (h : history) (question model : string) (names : list string)
    (settings : ChatModeSettings) (m : string) (env : Envelope) :
  get_mode settings = Ok m ->
  fst (process_chat_response W messages h question model names settings)
  = Ok env ->
  info_mode (info env) = m /\ user env = "chatbot".
Proof.
  intros Hm.
  destruct (process_chat_response_cases W messages h question model names
              settings m Hm)
    as [(e & _ & ->)
       |(llm & dr & mv & _ &
         [[_ ->]
         |(d & ds & _ &
           [(e & _ & ->)
           |(ctx & _ & [(e & _ & ->)|(reply & _ & ->)])])])];
    cbn [fst]; intros [= <-]; split; reflexivity.
Qed.

Lemma process_graph_response_mode (W : World) (model question : string)
    (messages : list raw_record) (h : history) (env : Envelope) :
  fst (process_graph_response W model question messages h) = Ok env ->
  info_mode (info env) = "graph" /\ user env = "chatbot".
Proof.
  unfold process_graph_response, create_graph_chain, get_graph_response,
    graph_failure, new_AIMessage, try_except, call, lift, mbind, mret,
    traced_bind, traced_ret.
  intros Hrun.
  repeat (case_match; simplify_eq; simpl in * ); split; reflexivity.
Qed.

Lemma existsb_none {A} (p : A -> bool) (l : list A) :
  (forall a, In a l -> p a = false) -> existsb p l = false.
Proof.
  induction l as [|a l IH]; intros Hall; [reflexivity|].
  simpl. rewrite (Hall a (or_introl eq_refl)). apply IH.
  intros b Hb. apply Hall. now right.
Qed.

(** The calls of a turn of the graph path: model requests, the chain,
    the start of the summarizer. *)
Lemma process_graph_response_events (W : World) (model question : string)
    (messages : list raw_record) (h : history) (ev : event) :
  In ev (snd (process_graph_response W model question messages h)) ->
  is_model_call ev = true \/ starts_summarizer ev = true.
Proof.
  unfold process_graph_response, create_graph_chain, get_graph_response,
    try_except, call, lift, mbind, mret, traced_bind, traced_ret.
  repeat (case_match; simplify_eq; simpl in * );
    intros Hin;
    repeat match goal with
           | Hor : _ \/ _ |- _ => destruct Hor as [<-|Hor]
           | Hf : False |- _ => destruct Hf
           end;
    auto.
Qed.

Lemma process_graph_response_no_opening (W : World) (model question : string)
    (messages : list raw_record) (h : history) :
  existsb opens_history
    (snd (process_graph_response W model question messages h)) = false.
Proof.
  apply existsb_none. intros ev Hin.
  destruct (process_graph_response_events W model question messages h ev Hin);
    now destruct ev.
Qed.

Lemma process_chat_response_no_opening (W : World)
    (messages : list raw_record) (h : history) (question model : string)
    (names : list string) (settings : ChatModeSettings) (m : string) :
  get_mode settings = Ok m ->
  existsb opens_history
    (snd (process_chat_response W messages h question model names settings))
  = false.
Proof.
  intros Hm. apply existsb_none. intros ev Hin.
  destruct (process_chat_response_events W messages h question model names
              settings m ev Hm Hin) as [Hsetup|[->|[Hev|Hev]]].
  - destruct (setup_chat_events W model names settings ev Hsetup)
      as [->|[(? & ? & ->)|[(? & ->)| ->]]]; reflexivity.
  - reflexivity.
  - now destruct ev.
  - now destruct ev.
Qed.

(** The shape of a request: the history is obtained, then the gate or
    one of the two responders runs on the messages read from it. *)
Lemma QA_RAG_run (W : World) (model question : string)
    (document_names : pyval) (session mode : string) (write_access : bool)
    (st : state) :
  let st0 := snd (create_neo4j_chat_message_history W session write_access st) in
  let run := QA_RAG W model question document_names session mode write_access st in
  exists (h : history) (messages : list raw_record),
    (String.eqb mode CHAT_GRAPH_MODE = true /\
     let turn := process_graph_response W model question messages h in
     run = (stamped session (fst turn),
            mk_state (settings_map st0) (history_dict st0)
              (trace st0 ++ snd turn))) \/
    (String.eqb mode CHAT_GRAPH_MODE = false /\
     ((exists e, run = (Raise e, st0)) \/
      exists key settings smap,
        get_chat_mode_settings mode (settings_map st) = Ok (key, settings, smap) /\
        let st1 := mk_state smap (history_dict st0) (trace st0) in
        ((exists e, run = (Raise e, st1)) \/
         exists names,
           parse_document_names document_names = Ok names /\
           ((list_truthy names && negb (document_filter settings) = true /\
             exists env, run = (Ok env, st1) /\ info_mode (info env) = mode /\
                         user env = "chatbot") \/
            (list_truthy names && negb (document_filter settings) = false /\
             let turn :=
               process_chat_response W messages h question model names settings in
             run = (stamped session (fst turn),
                    mk_state smap (history_dict st0)
                      (trace st0 ++ snd turn))))))).
Proof.
  cbv zeta. unfold QA_RAG.
  pose proof (create_history_state W session write_access st) as [Hmap _].
  destruct (create_neo4j_chat_message_history W session write_access st)
    as [h0 st0]. cbn [snd] in *.
  destruct (match history_messages h0 with
            | (Some messages, h) => (h, messages)
            | (None, _) => (Volatile ChatMessageHistory.init, [])
            end) as [h1 messages].
  exists h1, (messages ++ [RawMessage (HumanMessage question)]).
  destruct (String.eqb mode CHAT_GRAPH_MODE).
  - left. split; [reflexivity|].
    destruct (process_graph_response W model question _ h1) as [[env|e] evs];
      reflexivity.
  - right. split; [reflexivity|]. rewrite <- Hmap.
    destruct (get_chat_mode_settings mode (settings_map st0))
      as [[[key s] smap]|e] eqn:Hget; [|left; now exists e].
    right. exists key, s, smap. split; [reflexivity|].
    pose proof (resolved_mode _ _ _ _ _ Hget) as Hm.
    destruct (parse_document_names document_names) as [names|e];
      [|left; now exists e].
    right. exists names. split; [reflexivity|].
    destruct (list_truthy names && negb (document_filter s)).
    + left. split; [reflexivity|]. rewrite Hm. simpl. eexists.
      split; [reflexivity|]. split; reflexivity.
    + right. split; [reflexivity|].
      destruct (process_chat_response W _ h1 question model names s)
        as [[env|e] evs]; reflexivity.
Qed.

End RequestFacts.

Section RequestProperties.
Context `{Constants} `{Builtins} `{Sorting} `{JsonDecoder}.

Lemma new_calls_app (st st' : state) (evs : list event) :
  trace st' = trace st ++ evs -> new_calls st st' = evs.
Proof. unfold new_calls. intros ->. apply drop_app_own. Qed.

Lemma opening_trace (W : World) (session : string) (write_access : bool)
    (st : state) :
  trace (snd (create_neo4j_chat_message_history W session write_access st))
  = trace st ++ opening session write_access.
Proof. apply create_history_state. Qed.

Lemma opening_history_dict (W : World) (session : string) (write_access : bool)
    (st : state) :
  history_dict (snd (create_neo4j_chat_message_history W session write_access st))
  = if write_access then history_dict st
    else snd (get_chat_history session (history_dict st)).
Proof.
  unfold create_neo4j_chat_message_history. destruct write_access.
  - now destruct (new_neo4j_history W session).
  - now destruct (get_chat_history session (history_dict st)).
Qed.

(** X16.  A retriever is built on the retrieval path only, and always
    with the normalized document names as its filter when there are
    any and with no filter when there are none: a filter the caller
    gave is never dropped.  The retriever is built with the result cap
    of the resolved settings and the configured score threshold. *)
Theorem filter_reaches_retriever (W : World) (model question : string)
    (document_names : pyval) (session mode : string) (write_access : bool)
    (st : state) (k ef : Z) (thr : Qc) (filter : option (list string)) :
  In (BuildRetriever k ef thr filter)
    (new_calls st
       (snd (QA_RAG W model question document_names session mode
               write_access st))) ->
  String.eqb mode CHAT_GRAPH_MODE = false /\
  thr = CHAT_SEARCH_KWARG_SCORE_THRESHOLD /\
  exists names key settings smap,
    parse_document_names document_names = Ok names /\
    get_chat_mode_settings mode (settings_map st) = Ok (key, settings, smap) /\
    filter = (if list_truthy names then Some names else None) /\
    k = top_k settings.
Proof.
  pose proof (opening_trace W session write_access st) as Htrace.
  destruct (QA_RAG_run W model question document_names session mode
              write_access st)
    as (h & messages &
        [[Hmode ->]
        |[Hmode [[e ->]
                |(key & settings & smap & Hget &
                  [[e ->]
                  |(names & Hparse &
                    [[_ (env & -> & _)]|[Hgate ->]])])]]]);
    cbn [snd fst].
  - rewrite (new_calls_app st _ (opening session write_access
                                   ++ snd (process_graph_response W model question messages h)))
      by (cbn [trace]; rewrite Htrace; now rewrite app_assoc).
    rewrite in_app_iff. intros [Hin|Hin].
    + now destruct write_access; [destruct Hin as [?|[]]|destruct Hin].
    + now destruct (process_graph_response_events _ _ _ _ _ _ Hin).
  - rewrite (new_calls_app st _ (opening session write_access)) by exact Htrace.
    intros Hin. now destruct write_access; [destruct Hin as [?|[]]|destruct Hin].
  - rewrite (new_calls_app st _ (opening session write_access)) by exact Htrace.
    intros Hin. now destruct write_access; [destruct Hin as [?|[]]|destruct Hin].
  - rewrite (new_calls_app st _ (opening session write_access)) by exact Htrace.
    intros Hin. now destruct write_access; [destruct Hin as [?|[]]|destruct Hin].
  - rewrite (new_calls_app st _
               (opening session write_access
                ++ snd (process_chat_response W messages h question model
                          names settings)))
      by (cbn [trace]; rewrite Htrace; now rewrite app_assoc).
    rewrite in_app_iff. intros [Hin|Hin].
    { now destruct write_access; [destruct Hin as [?|[]]|destruct Hin]. }
    pose proof (resolved_mode _ _ _ _ _ Hget) as Hm.
    destruct (process_chat_response_events W messages h question model names
                settings mode _ Hm Hin) as [Hsetup|[?|[?|?]]]; try discriminate.
    destruct (setup_chat_events W model names settings _ Hsetup)
      as [?|[(? & ? & ?)|[(ef' & Heq)|?]]]; try discriminate.
    injection Heq as -> -> -> ->.
    split; [exact Hmode|]. split; [reflexivity|].
    exists names, key, settings, smap. repeat split; try assumption.
    unfold retriever_filter. destruct names as [|n names]; [reflexivity|].
    simpl in Hgate. now destruct (document_filter settings).
Qed.

(** X17.  Every envelope [QA_RAG] returns names the mode that served
    the request, the graph mode as [graph] and every other mode by the
    name the caller gave (also a name the configuration does not know,
    which is served with the default settings), and [chatbot] as the
    user. *)
Theorem mode_reported (W : World) (model question : string)
    (document_names : pyval) (session mode : string) (write_access : bool)
    (st st' : state) (env : Envelope) :
  QA_RAG W model question document_names session mode write_access st
  = (Ok env, st') ->
  info_mode (info env) = (if String.eqb mode CHAT_GRAPH_MODE then "graph" else mode) /\
  user env = "chatbot".
Proof.
  destruct (QA_RAG_run W model question document_names session mode
              write_access st)
    as (h & messages &
        [[Hmode ->]
        |[Hmode [[e ->]
                |(key & settings & smap & Hget &
                  [[e ->]
                  |(names & Hparse &
                    [[_ (env' & -> & Hinfo & Huser)]|[Hgate ->]])])]]]);
    rewrite Hmode; try discriminate.
  - pose proof (process_graph_response_mode W model question messages h) as Hg.
    destruct (process_graph_response W model question messages h)
      as [[env'|e] evs]; [|discriminate].
    intros [= <- _]. exact (Hg env' eq_refl).
  - now intros [= <- _].
  - pose proof (resolved_mode _ _ _ _ _ Hget) as Hm.
    pose proof (process_chat_response_mode W messages h question model names
                  settings mode) as Hc.
    destruct (process_chat_response W messages h question model names settings)
      as [[env'|e] evs]; [|discriminate].
    intros [= <- _]. exact (Hc env' Hm eq_refl).
Qed.

(** X18.  A request opens the durable store once when it has write
    access and never otherwise, and nothing it calls afterwards opens
    it again.  A request with write access leaves the map of in-memory
    histories as it was. *)
Theorem store_opened_with_write_access (W : World) (model question : string)
    (document_names : pyval) (session mode : string) (write_access : bool)
    (st : state) :
  let st' :=
    snd (QA_RAG W model question document_names session mode write_access st) in
  (exists evs,
     trace st' = trace st ++ opening session write_access ++ evs /\
     existsb opens_history evs = false) /\
  (write_access = true -> history_dict st' = history_dict st).
Proof.
  cbv zeta.
  pose proof (opening_trace W session write_access st) as Htrace.
  pose proof (opening_history_dict W session write_access st) as Hdict.
  assert (Hkept : write_access = true ->
                  history_dict
                    (snd (create_neo4j_chat_message_history W session
                            write_access st))
                  = history_dict st).
  { intros ->. exact Hdict. }
  destruct (QA_RAG_run W model question document_names session mode
              write_access st)
    as (h & messages &
        [[Hmode ->]
        |[Hmode [[e ->]
                |(key & settings & smap & Hget &
                  [[e ->]
                  |(names & Hparse &
                    [[_ (env & -> & _)]|[Hgate ->]])])]]]);
    cbn [snd fst trace history_dict]; (split; [|exact Hkept]);
    rewrite Htrace.
  - eexists. rewrite <- app_assoc. split; [reflexivity|].
    apply process_graph_response_no_opening.
  - exists []. now rewrite !app_nil_r.
  - exists []. now rewrite !app_nil_r.
  - exists []. now rewrite !app_nil_r.
  - eexists. rewrite <- app_assoc. split; [reflexivity|].
    apply (process_chat_response_no_opening W messages h question model names
             settings mode).
    exact (resolved_mode _ _ _ _ _ Hget).
Qed.

End RequestProperties.

Lemma filter_reaches_retriever_witness :
  exists names key settings smap,
    parse_document_names (PyStr two_names_json) = Ok names /\
    get_chat_mode_settings "vector" (settings_map sample_state)
    = Ok (key, settings, smap) /\
    Some ["a.pdf"; "b.pdf"] = (if list_truthy names then Some names else None) /\
    5 = top_k settings.
Proof.
  refine (proj2 (proj2
            (filter_reaches_retriever sample_world "openai_gpt_4o" "What is X?"
               (PyStr two_names_json) "s1" "vector" true sample_state
               5 2 0%Qc (Some ["a.pdf"; "b.pdf"]) _))).
  vm_compute. auto 10.
Defined.

Lemma mode_reported_witness :
  exists env st',
    QA_RAG sample_world "openai_gpt_4o" "What is X?" (PyStr "[]")
      "s1" "no_such_mode" false sample_state = (Ok env, st') /\
    info_mode (info env) = "no_such_mode" /\
    user env = "chatbot".
Proof.
  destruct (QA_RAG sample_world "openai_gpt_4o" "What is X?" (PyStr "[]")
              "s1" "no_such_mode" false sample_state)
    as [[env|e] st'] eqn:Hrun.
  - exists env, st'. split; [reflexivity|].
    exact (mode_reported _ _ _ _ _ _ _ _ _ _ Hrun).
  - vm_compute in Hrun. discriminate Hrun.
Defined.

Lemma store_opened_with_write_access_witness :
  history_dict
    (snd (QA_RAG sample_world "openai_gpt_4o" "What is X?" (PyStr "[]")
            "s1" "vector" true sample_state))
  = history_dict sample_state.
Proof.
  exact (proj2 (store_opened_with_write_access sample_world "openai_gpt_4o"
                  "What is X?" (PyStr "[]") "s1" "vector" true sample_state)
           eq_refl).
Defined.

(** ** The graph path *)

(** X19.  Once the chain of the graph path is built, a turn always
    returns an envelope that names the model version.  A chain that
    raises is reported as an [AttributeError] on [None], whatever it
    raised, and a chain result without an answer as a validation error
    of the message; neither starts the summarizer.  An answer is
    returned with the query and context of the chain's steps, and the
    summarizer is started on the messages extended by it. *)
Theorem graph_turn_outcomes (W : World) (model question : string)
    (messages : list raw_record) (h : history) (llm : LLM) (mv : string)
    (chain : GraphCypherQAChain) :
  get_llm W model = Ok (llm, mv) ->
  graph_chain_from_llm W = Ok chain ->
  let setup :=
    [GetLLM model; GetLLM model; BuildGraphChain; InvokeGraphChain question] in
  process_graph_response W model question messages h
  = match chain_invoke chain question with
    | Raise _ =>
        (Ok (graph_failed mv
               (mk_exn AttributeError "'NoneType' object has no attribute 'get'")),
         setup)
    | Ok res =>
        match cypher_answer res with
        | None =>
            (Ok (graph_failed mv
                   (mk_exn ValidationError "1 validation error for AIMessage")),
             setup)
        | Some text =>
            (Ok (graph_answer mv text res),
             setup ++ [StartSummarizer h
                         (messages ++ [RawMessage (AIMessage text)])])
        end
    end.
Proof.
  intros Hllm Hchain. cbv zeta.
  unfold process_graph_response, create_graph_chain, get_graph_response,
    try_except, call, lift.
  cbn [mbind mret traced_bind traced_ret]. rewrite Hllm.
  cbn [mbind mret traced_bind traced_ret]. rewrite Hchain.
  cbn [mbind mret traced_bind traced_ret app].
  destruct (chain_invoke chain question) as [res|e];
    cbn [mbind mret traced_bind traced_ret app]; [|reflexivity].
  unfold graph_answer.
  destruct (scan_steps (intermediate_steps res)) as [query ctx].
  cbn [mbind mret traced_bind traced_ret app response cypher_query context].
  destruct (cypher_answer res) as [text|]; reflexivity.
Qed.

Lemma graph_turn_outcomes_witness :
  fst (process_graph_response sample_world "openai_gpt_4o" "How many?"
         sample_turn durable_session)
  = Ok (mk_envelope "" "42"
          (mk_info (Some "openai_gpt_4o") None 0 "graph" None
             (Some "MATCH (n) RETURN n") (Some (PyList [])))
          "chatbot").
Proof.
  rewrite (graph_turn_outcomes sample_world "openai_gpt_4o" "How many?"
             sample_turn durable_session sample_llm "openai_gpt_4o"
             sample_graph_chain eq_refl eq_refl).
  reflexivity.
Defined.

(** ** The query shown for a graph turn *)

Lemma substring_all (s : string) : String.substring 0 (String.length s) s = s.
Proof. induction s as [|c s IH]; simpl; [reflexivity|now rewrite IH]. Qed.

Lemma all_chars_append (p : ascii -> bool) (s t : string) :
  all_chars p (s +:+ t) = all_chars p s && all_chars p t.
Proof.
  induction s as [|c s IH]; simpl; [reflexivity|].
  now rewrite IH, andb_assoc.
Qed.

Lemma replace_line_feeds (fuel : nat) (s : string) :
  (String.length s < fuel)%nat ->
  single_line (replace_fuel fuel nl " " s) = true.
Proof.
  revert s. induction fuel as [|fuel IH]; intros s Hlen; [lia|].
  destruct s as [|c s]; [reflexivity|].
  cbn [replace_fuel]. simpl in Hlen.
  unfold nl at 1. cbn [String.prefix].
  destruct (Ascii.ascii_dec (ascii_of_nat 10) c) as [<-|Hc].
  - replace (String.prefix "" s) with true by now destruct s.
    cbn [String.length nl]. 
    replace (String.substring _ _ _) with s.
    + unfold single_line in *. rewrite all_chars_append.
      simpl. apply IH. lia.
    + simpl. rewrite Nat.sub_0_r. now rewrite substring_all.
  - unfold single_line in *. cbn [all_chars].
    replace (Ascii.eqb c (ascii_of_nat 10)) with false.
    + simpl. apply IH. lia.
    + symmetry. apply Ascii.eqb_neq. congruence.
Qed.

Lemma lstrip_all_chars (p : ascii -> bool) (s : string) :
  all_chars p s = true -> all_chars p (lstrip s) = true.
Proof.
  induction s as [|c s IH]; simpl; [reflexivity|].
  intros Hc. destruct (isspace c); [|exact Hc].
  apply andb_prop in Hc as [_ Hs]. now apply IH.
Qed.

Lemma rstrip_all_chars (p : ascii -> bool) (s : string) :
  all_chars p s = true -> all_chars p (rstrip s) = true.
Proof.
  induction s as [|c s IH]; simpl; [reflexivity|].
  intros Hc. apply andb_prop in Hc as [Hc Hs]. specialize (IH Hs).
  destruct (rstrip s) as [|c' r].
  - destruct (isspace c); simpl; [reflexivity|now rewrite Hc].
  - cbn [all_chars]. now rewrite Hc.
Qed.

Lemma rstrip_idempotent (s : string) : rstrip (rstrip s) = rstrip s.
Proof.
  induction s as [|c s IH]; simpl; [reflexivity|].
  destruct (rstrip s) as [|c' r] eqn:Hr.
  - destruct (isspace c) eqn:Hc; simpl; [reflexivity|now rewrite Hc].
  - cbn [rstrip] in *. now rewrite IH.
Qed.

Lemma rstrip_head (c : ascii) (s : string) :
  isspace c = false -> exists r, rstrip (String c s) = String c r.
Proof.
  intros Hc. simpl. destruct (rstrip s); [rewrite Hc|]; eauto.
Qed.

Lemma lstrip_rstrip_lstrip (s : string) :
  lstrip (rstrip (lstrip s)) = rstrip (lstrip s).
Proof.
  induction s as [|c s IH]; [reflexivity|].
  cbn [lstrip]. destruct (isspace c) eqn:Hc; [exact IH|].
  destruct (rstrip_head c s Hc) as [r ->]. simpl. now rewrite Hc.
Qed.

Lemma strip_idempotent (s : string) : strip (strip s) = strip s.
Proof.
  unfold strip. now rewrite lstrip_rstrip_lstrip, rstrip_idempotent.
Qed.

Lemma clean_cypher_single_line (cypher_string : string) :
  single_line (clean_cypher cypher_string) = true /\
  strip (clean_cypher cypher_string) = clean_cypher cypher_string.
Proof.
  unfold clean_cypher. split; [|apply strip_idempotent].
  unfold strip, single_line.
  apply rstrip_all_chars, lstrip_all_chars.
  apply replace_line_feeds. unfold replace. lia.
Qed.

(** X20.  The query a graph turn shows is one line without white space
    around it: the cleaned query of the last step that carries one, or
    the empty text when no step does. *)
Theorem cypher_query_single_line (steps : list chain_step) :
  single_line (fst (scan_steps steps)) = true /\
  strip (fst (scan_steps steps)) = fst (scan_steps steps) /\
  (Forall (fun step => step_query step = None) steps ->
   fst (scan_steps steps) = "").
Proof.
  unfold scan_steps.
  assert (Hgen : forall acc : string * pyval,
             (single_line (fst acc) = true /\ strip (fst acc) = fst acc) ->
             let out :=
               fold_left (fun acc step =>
                            match step_query step, step_context step with
                            | Some cypher_string, _ =>
                                (clean_cypher cypher_string, snd acc)
                            | None, Some ctx => (fst acc, ctx)
                            | None, None => acc
                            end) steps acc in
             (single_line (fst out) = true /\ strip (fst out) = fst out) /\
             (Forall (fun step => step_query step = None) steps ->
              fst out = fst acc)).
  { induction steps as [|step steps IH]; intros acc Hacc; cbn [fold_left].
    - split; [exact Hacc|reflexivity].
    - destruct (step_query step) as [q|] eqn:Hq.
      + destruct (IH (clean_cypher q, snd acc) (clean_cypher_single_line q))
          as [Hout _].
        split; [exact Hout|]. intros Hall. inversion Hall; congruence.
      + destruct (step_context step) as [ctx|].
        * destruct (IH (fst acc, ctx) Hacc) as [Hout Hnone].
          split; [exact Hout|]. intros Hall. inversion Hall; subst.
          now apply Hnone.
        * destruct (IH acc Hacc) as [Hout Hnone].
          split; [exact Hout|]. intros Hall. inversion Hall; subst.
          now apply Hnone. }
  destruct (Hgen ("", PyList []) (conj eq_refl eq_refl)) as [[Hline Htrim] Hnone].
  auto.
Qed.

Lemma cypher_query_single_line_witness :
  fst (scan_steps [mk_step None (Some (PyList [PyStr "row"]))]) = "".
Proof.
  apply (proj2 (proj2 (cypher_query_single_line
                         [mk_step None (Some (PyList [PyStr "row"]))]))).
  repeat constructor.
Defined.

(** ** The session operations on the graph store *)

Lemma pages_cover_total (total limit : Z) :
  0 < limit ->
  ((total + limit - 1) / limit - 1) * limit < total
  <= (total + limit - 1) / limit * limit.
Proof.
  intros Hlimit.
  pose proof (Z.div_mod (total + limit - 1) limit ltac:(lia)) as Hdiv.
  pose proof (Z.mod_pos_bound (total + limit - 1) limit Hlimit) as Hmod.
  nia.
Qed.

(** X21.  With a positive limit the listing of sessions returns one
    entry per row of the store, in the order of the rows, and a
    pagination block whose page count is the least number of pages of
    [limit] entries that hold the total, and whose current page is the
    page the offset falls into.  For an offset at a page boundary,
    [has_next] holds exactly when the current page is not the last and
    [has_previous] exactly when it is not the first. *)
Theorem histories_pagination (graph : GraphStore) (limit offset total : Z)
    (rows : list session_row) (counts : list Z) :
  0 < limit -> 0 <= offset -> 0 <= total ->
  query_sessions graph limit offset = Ok rows ->
  query_session_count graph = Ok (total :: counts) ->
  exists p,
    get_chat_histories graph limit offset = Ok (map entry_of_row rows, p) /\
    total_count p = total /\
    (total_pages p - 1) * limit < total <= total_pages p * limit /\
    (current_page p - 1) * limit <= offset < current_page p * limit /\
    (offset mod limit = 0 ->
     (has_next p = true <-> current_page p < total_pages p) /\
     (has_previous p = true <-> 1 < current_page p)).
Proof.
  intros Hlimit Hoffset Htotal Hrows Hcount.
  unfold get_chat_histories. rewrite Hrows, Hcount. cbn [mbind outcome_bind].
  eexists. split; [reflexivity|]. unfold paginate. cbn.
  assert ((0 <? limit) = true) as -> by lia.
  pose proof (pages_cover_total total limit Hlimit) as Hpages.
  pose proof (Z.div_mod offset limit ltac:(lia)) as Hdiv.
  pose proof (Z.mod_pos_bound offset limit Hlimit) as Hmod.
  split; [reflexivity|]. split; [exact Hpages|]. split; [nia|].
  intros Haligned. rewrite Haligned in Hdiv.
  rewrite Z.ltb_lt. split.
  - split; intros Hlt; nia.
  - rewrite Z.ltb_lt. split; intros Hlt; nia.
Qed.

Lemma histories_pagination_witness :
  exists p,
    get_chat_histories sample_store 2 2 = Ok (map entry_of_row sample_rows, p) /\
    total_count p = 3 /\
    (total_pages p - 1) * 2 < 3 <= total_pages p * 2 /\
    (current_page p - 1) * 2 <= 2 < current_page p * 2 /\
    (2 mod 2 = 0 ->
     (has_next p = true <-> current_page p < total_pages p) /\
     (has_previous p = true <-> 1 < current_page p)).
Proof.
  apply (histories_pagination sample_store 2 2 3 sample_rows []);
    [lia | lia | lia | reflexivity | reflexivity].
Defined.

(** X22.  A session the store does not know makes the look-up raise an
    [Exception] whose text carries both the outer and the inner
    prefix, and the messages are not queried.  When the look-up
    returns, the message count is the number of messages returned, one
    per row of the store and in the order of the rows, and no message
    has a false value as its additional arguments: a false value is
    replaced by the empty dictionary. *)
Theorem session_detail_outcomes (graph : GraphStore) (session : string) :
  (query_session graph session = Ok [] ->
   get_chat_history_by_session_id graph session
   = Raise (mk_exn ExceptionC
              ("Failed to retrieve chat history: Chat history not found for session: "
               +:+ session))) /\
  (forall detail,
     get_chat_history_by_session_id graph session = Ok detail ->
     exists rows,
       query_messages graph session = Ok rows /\
       detail_message_count detail = Z.of_nat (length rows) /\
       map entry_type (detail_messages detail) = map row_message_type rows /\
       map entry_content (detail_messages detail) = map row_content rows /\
       Forall (fun entry =>
                 entry_additional_kwargs entry = PyDict [] \/
                 py_truthy (entry_additional_kwargs entry) = true)
         (detail_messages detail)).
Proof.
  unfold get_chat_history_by_session_id. split.
  - now intros ->.
  - intros detail.
    destruct (query_session graph session) as [[|session_data others]|e];
      cbn [mbind outcome_bind]; try discriminate.
    destruct (query_messages graph session) as [rows|e];
      cbn [mbind outcome_bind]; [|discriminate].
    intros [= <-]. exists rows. cbn.
    rewrite length_map, !map_map. repeat split.
    apply Forall_forall. intros entry Hin.
    apply in_map_iff in Hin as (row & <- & _).
    unfold entry_of_message_row. cbn.
    destruct (py_truthy (row_additional_kwargs row)) eqn:Htruthy; auto.
Qed.

Lemma session_detail_outcomes_witness :
  get_chat_history_by_session_id sample_store "s9"
  = Raise (mk_exn ExceptionC
             "Failed to retrieve chat history: Chat history not found for session: s9") /\
  exists detail rows,
    get_chat_history_by_session_id sample_store "s1" = Ok detail /\
    query_messages sample_store "s1" = Ok rows /\
    detail_message_count detail = Z.of_nat (length rows).
Proof.
  split.
  - exact (proj1 (session_detail_outcomes sample_store "s9") eq_refl).
  - destruct (proj2 (session_detail_outcomes sample_store "s1") _ eq_refl)
      as (rows & Hrows & Hcount & _).
    eexists. exists rows. split; [reflexivity|]. split; assumption.
Defined.

(** X23.  None of the three session operations lets an exception
    through as it is.  Each raises only a plain [Exception], whose text
    is the prefix of that operation followed by the text of the
    exception raised inside it: the exception of the query that failed
    (the listing, the count, the session, the messages, the deletion),
    or, for a session the store does not know, the inner exception of
    the look-up. *)
Theorem session_operations_wrap_errors (graph : GraphStore)
    (session : string) (limit offset : Z) (e : exn) :
  (get_chat_histories graph limit offset = Raise e ->
   exists cause,
     e = mk_exn ExceptionC
           ("Failed to retrieve chat histories: " +:+ exn_str cause) /\
     (query_sessions graph limit offset = Raise cause \/
      (exists rows, query_sessions graph limit offset = Ok rows) /\
      query_session_count graph = Raise cause)) /\
  (get_chat_history_by_session_id graph session = Raise e ->
   exists cause,
     e = mk_exn ExceptionC
           ("Failed to retrieve chat history: " +:+ exn_str cause) /\
     (query_session graph session = Raise cause \/
      query_session graph session = Ok [] /\
      cause = mk_exn ExceptionC
                ("Chat history not found for session: " +:+ session) \/
      (exists row rows, query_session graph session = Ok (row :: rows)) /\
      query_messages graph session = Raise cause)) /\
  (delete_chat_history graph session = Raise e ->
   exists cause,
     e = mk_exn ExceptionC
           ("Failed to delete chat history: " +:+ exn_str cause) /\
     query_delete graph session = Raise cause).
Proof.
  unfold get_chat_histories, get_chat_history_by_session_id,
    delete_chat_history.
  split; [|split].
  - destruct (query_sessions graph limit offset) as [rows|cause];
      cbn [mbind outcome_bind].
    + destruct (query_session_count graph) as [counts|cause];
        cbn [mbind outcome_bind]; [discriminate|].
      intros [= <-]. exists cause. split; [reflexivity|]. right. eauto.
    + intros [= <-]. exists cause. split; [reflexivity|]. now left.
  - destruct (query_session graph session) as [[|row rows]|cause];
      cbn [mbind outcome_bind].
    + intros [= <-].
      exists (mk_exn ExceptionC
                ("Chat history not found for session: " +:+ session)).
      split; [reflexivity|]. right. left. now split.
    + destruct (query_messages graph session) as [messages|cause];
        cbn [mbind outcome_bind]; [discriminate|].
      intros [= <-]. exists cause. split; [reflexivity|]. right. right. eauto.
    + intros [= <-]. exists cause. split; [reflexivity|]. now left.
  - destruct (query_delete graph session) as [[]|cause]; [discriminate|].
    intros [= <-]. exists cause. now split.
Qed.

(** A store that is unreachable. *)
Lemma session_operations_wrap_errors_witness :
  let down := mk_exn (OtherError "ServiceUnavailable") "store unreachable" in
  let graph :=
    mk_graph_store (fun _ _ => Raise down) (Raise down) (fun _ => Raise down)
      (fun _ => Raise down) (fun _ => Raise down) in
  get_chat_histories graph 50 0
  = Raise (mk_exn ExceptionC
             "Failed to retrieve chat histories: store unreachable") /\
  get_chat_history_by_session_id sample_store "s9"
  = Raise (mk_exn ExceptionC
             "Failed to retrieve chat history: Chat history not found for session: s9") /\
  delete_chat_history graph "s1"
  = Raise (mk_exn ExceptionC
             "Failed to delete chat history: store unreachable").
Proof.
  intros down graph.
  pose proof (session_operations_wrap_errors graph "s1" 50 0) as Hgraph.
  pose proof (session_operations_wrap_errors sample_store "s9" 50 0) as Hstore.
  split; [|split].
  - destruct (get_chat_histories graph 50 0) as [r|e] eqn:Hrun;
      [discriminate Hrun|].
    destruct (proj1 (Hgraph e) eq_refl) as (cause & -> & [Hq|[_ Hq]]);
      injection Hq as <-; reflexivity.
  - destruct (get_chat_history_by_session_id sample_store "s9") as [r|e] eqn:Hrun;
      [discriminate Hrun|].
    destruct (proj1 (proj2 (Hstore e)) eq_refl)
      as (cause & -> & [Hq|[[_ ->]|[_ Hq]]]);
      [discriminate Hq | reflexivity | discriminate Hq].
  - destruct (delete_chat_history graph "s1") as [r|e] eqn:Hrun;
      [discriminate Hrun|].
    destruct (proj2 (proj2 (Hgraph e)) eq_refl) as (cause & -> & Hq).
    injection Hq as <-. reflexivity.
Defined.

(** ** The document-name filter, further *)

Lemma mapM_str_strip_trimmed (items : list pyval) (names : list string) :
  mapM str_strip items = Ok names -> Forall (fun n => strip n = n) names.
Proof.
  revert names. induction items as [|x items IH]; simpl; intros names.
  - intros [= <-]. constructor.
  - destruct x; try discriminate. simpl.
    destruct (mapM str_strip items) as [rest|e]; [|discriminate].
    intros [= <-]. constructor; [apply strip_idempotent|now apply IH].
Qed.

Lemma mapM_str_strip_raises (items : list pyval) (e : exn) :
  mapM str_strip items = Raise e -> exn_type e = TypeError.
Proof.
  induction items as [|x items IH]; simpl; [discriminate|].
  destruct x; simpl; try (intros [= <-]; reflexivity).
  destruct (mapM str_strip items) as [rest|e']; [discriminate|].
  intros [= <-]. now apply IH.
Qed.

Lemma mapM_str_strip_not_str (items : list pyval) :
  Exists (fun x => is_str x = false) items ->
  exists e, mapM str_strip items = Raise e /\ exn_type e = TypeError.
Proof.
  induction 1 as [x items Hx|x items _ IH].
  - destruct x; try discriminate Hx; simpl; eauto.
  - destruct IH as (e & He & Hty). simpl.
    destruct (str_strip x) as [n|e'] eqn:Hsx.
    + rewrite He. eauto.
    + destruct x; try discriminate Hsx; simpl in Hsx; injection Hsx as <-; eauto.
Qed.

Lemma list_map_str_strip_raises (v : pyval) (e : exn) :
  list_map_str_strip v = Raise e -> exn_type e = TypeError.
Proof.
  unfold list_map_str_strip.
  destruct v; simpl; try (intros [= <-]; reflexivity);
    apply mapM_str_strip_raises.
Qed.

Section DocumentNamesFurther.
Context `{JsonDecoder}.

Lemma decoded_not_blank (s : string) (v : pyval) :
  json_loads s = Ok v -> default_document_names (PyStr s) = s.
Proof.
  intros Hs. simpl. destruct (strip s) eqn:Hstrip; [|reflexivity].
  destruct (json_loads_blank s Hstrip) as [msg Hmsg]. congruence.
Qed.

(** X24.  Every name of a normalized filter is trimmed.  The
    normalization raises only when the decoder raises an exception
    that is none of [JSONDecodeError], [TypeError] and [ValueError],
    on a text that is not blank; that exception is passed on. *)
Theorem parsed_names_trimmed (d : pyval) :
  (forall names,
     parse_document_names d = Ok names ->
     Forall (fun n => strip n = n) names) /\
  (forall e,
     parse_document_names d = Raise e ->
     exists s,
       d = PyStr s /\ str_truthy (strip s) = true /\
       json_loads s = Raise e /\
       caught_by [JSONDecodeError; TypeError; ValueError] e = false).
Proof.
  unfold parse_document_names. split.
  - intros names.
    destruct (json_loads (default_document_names d)) as [v|e];
      cbn [mbind outcome_bind].
    + destruct (list_map_str_strip v) as [parsed|e] eqn:Hmap.
      * intros [= <-]. unfold list_map_str_strip in Hmap.
        destruct (py_iter v) as [items|e]; [|discriminate].
        now apply (mapM_str_strip_trimmed items).
      * destruct (caught_by _ e); [|discriminate]. intros [= <-]. constructor.
    + destruct (caught_by _ e); [|discriminate]. intros [= <-]. constructor.
  - intros e.
    destruct (json_loads (default_document_names d)) as [v|e'] eqn:Hloads;
      cbn [mbind outcome_bind].
    + destruct (list_map_str_strip v) as [parsed|e'] eqn:Hmap; [discriminate|].
      apply list_map_str_strip_raises in Hmap.
      unfold caught_by. simpl. rewrite Hmap. discriminate.
    + destruct (caught_by _ e') eqn:Hcaught; [discriminate|]. intros [= <-].
      destruct d as [| | | |s| |];
        try (simpl in Hloads; rewrite json_loads_empty_array in Hloads;
             discriminate).
      simpl in Hloads. destruct (str_truthy (strip s)) eqn:Hb.
      * exists s. auto.
      * rewrite json_loads_empty_array in Hloads. discriminate.
Qed.

(** X25.  A filter text that decodes to something other than an array
    of strings is still normalized: a JSON string to the list of its
    characters, each trimmed; a JSON object to the list of its trimmed
    keys; a number, a truth value or null to the empty list; an array
    with an element that is no string to the empty list. *)
Theorem other_json_documents (s : string) (v : pyval) :
  json_loads s = Ok v ->
  (forall t, v = PyStr t ->
     parse_document_names (PyStr s) = Ok (map strip (chars t))) /\
  (forall items, v = PyDict items ->
     parse_document_names (PyStr s) = Ok (map (fun kv => strip (fst kv)) items)) /\
  (is_scalar v = true -> parse_document_names (PyStr s) = Ok []) /\
  (forall l, v = PyList l -> Exists (fun x => is_str x = false) l ->
     parse_document_names (PyStr s) = Ok []).
Proof.
  intros Hs. unfold parse_document_names.
  rewrite (decoded_not_blank s v Hs), Hs. cbn [mbind outcome_bind].
  unfold list_map_str_strip. repeat split.
  - intros t ->. simpl. now rewrite mapM_str_strip.
  - intros items ->. simpl.
    replace (map (fun kv => PyStr (fst kv)) items)
      with (map PyStr (map fst items)) by now rewrite map_map.
    now rewrite mapM_str_strip, map_map.
  - intros Hscalar. destruct v; try discriminate Hscalar; reflexivity.
  - intros l -> Hex. simpl.
    destruct (mapM_str_strip_not_str l Hex) as (e & -> & Hty).
    unfold caught_by. simpl. now rewrite Hty.
Qed.

End DocumentNamesFurther.

Lemma parsed_names_trimmed_witness :
  Forall (fun n => strip n = n) ["a.pdf"; "b.pdf"] /\
  exists s,
    PyStr deep_text = PyStr s /\ str_truthy (strip s) = true /\
    wider_loads s
    = Raise (mk_exn RecursionError
               "maximum recursion depth exceeded while decoding a JSON array from a unicode string") /\
    caught_by [JSONDecodeError; TypeError; ValueError]
      (mk_exn RecursionError
         "maximum recursion depth exceeded while decoding a JSON array from a unicode string") = false.
Proof.
  split.
  - apply (proj1 (@parsed_names_trimmed sample_decoder (PyStr two_names_json))).
    reflexivity.
  - apply (proj2 (@parsed_names_trimmed wider_decoder (PyStr deep_text))).
    reflexivity.
Defined.

Lemma other_json_documents_witness :
  @parse_document_names wider_decoder (PyStr quoted_name) = Ok ["a"; ""; "b"] /\
  @parse_document_names sample_decoder (PyStr "null") = Ok [].
Proof.
  split.
  - exact (proj1 (@other_json_documents wider_decoder quoted_name (PyStr "a b")
                    eq_refl) "a b" eq_refl).
  - exact (proj1 (proj2 (proj2
             (@other_json_documents sample_decoder "null" PyNone eq_refl)))
             eq_refl).
Defined.
